(** * mlflow-faculty: the Faculty datasets artifact repository

    A shallow embedding of [mlflow_faculty/artifacts.py] and of the
    Python library functions it calls, followed by the properties of
    the adapter stated in the specification.

    Conventions of the embedding.
    - A Python [str] is a [string]; characters are 7-bit ASCII code
      points.
    - [None] for an optional argument is [option].
    - An exception is the [inl] of a sum; the raise site is recorded
      next to the message.
    - Calls to the collaborators ([faculty.datasets.put],
      [faculty.datasets.get], [client.list]) are recorded in a trace;
      the object store is a state machine given as section variables.
    - [os.path] is [posixpath]. *)

From Stdlib Require Import String Ascii List Bool Arith ZArith Lia.
Import ListNotations.

Local Open Scope list_scope.
Local Open Scope string_scope.

(** ** Methods of [str] *)

Module str.

(** [c in chars] for a character and a string used as character set. *)
Fixpoint mem (c : ascii) (chars : string) : bool :=
  match chars with
  | EmptyString => false
  | String d rest => Ascii.eqb c d || mem c rest
  end.

(** [s.lstrip(chars)] *)
Fixpoint lstrip (chars s : string) : string :=
  match s with
  | EmptyString => EmptyString
  | String c rest => if mem c chars then lstrip chars rest else s
  end.

(** [s.rstrip(chars)] *)
Fixpoint rstrip (chars s : string) : string :=
  match s with
  | EmptyString => EmptyString
  | String c rest =>
      match rstrip chars rest with
      | EmptyString => if mem c chars then EmptyString else String c EmptyString
      | r => String c r
      end
  end.

(** [s.strip(chars)] *)
Definition strip (chars s : string) : string := rstrip chars (lstrip chars s).

(** [s.startswith(p)] and [s.endswith(p)] *)
Fixpoint startswith (s p : string) {struct p} : bool :=
  match p with
  | EmptyString => true
  | String d p' =>
      match s with
      | EmptyString => false
      | String c s' => Ascii.eqb c d && startswith s' p'
      end
  end.

Fixpoint endswith (s p : string) : bool :=
  String.eqb s p ||
  match s with
  | EmptyString => false
  | String _ rest => endswith rest p
  end.

(** [s.find(c)] for a one-character needle: the index of the first
    occurrence, [-1] when there is none. *)
Fixpoint find (c : ascii) (s : string) : Z :=
  match s with
  | EmptyString => (-1)%Z
  | String d rest =>
      if Ascii.eqb d c then 0%Z
      else match find c rest with
           | Zneg _ => (-1)%Z
           | k => (k + 1)%Z
           end
  end.

(** [s.rfind(c)] for a one-character needle. *)
Fixpoint rfind (c : ascii) (s : string) : Z :=
  match s with
  | EmptyString => (-1)%Z
  | String d rest =>
      match rfind c rest with
      | Zneg _ => if Ascii.eqb d c then 0%Z else (-1)%Z
      | k => (k + 1)%Z
      end
  end.

(** [c in s] *)
Definition contains (c : ascii) (s : string) : bool := mem c s.

(** The slices [s[:i]] and [s[i:]] for [0 <= i]. *)
Fixpoint take (i : nat) (s : string) : string :=
  match i, s with
  | S k, String c rest => String c (take k rest)
  | _, _ => EmptyString
  end.

Fixpoint drop (i : nat) (s : string) : string :=
  match i, s with
  | S k, String _ rest => drop k rest
  | _, _ => s
  end.

(** [s.split(sep)] for a one-character separator. *)
Fixpoint split (sep : ascii) (s : string) : list string :=
  match s with
  | EmptyString => [EmptyString]
  | String c rest =>
      if Ascii.eqb c sep then EmptyString :: split sep rest
      else match split sep rest with
           | h :: t => String c h :: t
           | [] => [String c EmptyString]
           end
  end.

(** [s.split(sep, 1)] for a one-character separator: the part before
    the first separator and, when there is one, the part after it. *)
Fixpoint split1 (sep : ascii) (s : string) : string * option string :=
  match s with
  | EmptyString => (EmptyString, None)
  | String c rest =>
      if Ascii.eqb c sep then (EmptyString, Some rest)
      else let (h, t) := split1 sep rest in (String c h, t)
  end.

(** [sep.join(parts)] *)
Definition join (sep : string) (parts : list string) : string :=
  String.concat sep parts.

(** [s.replace(old, new)] for a non-empty [old]: occurrences are
    replaced from the left and do not overlap.  [skip] counts the
    characters of a matched occurrence still to be dropped. *)
Fixpoint replace_from (old new : string) (skip : nat) (s : string) : string :=
  match s with
  | EmptyString => EmptyString
  | String c rest =>
      match skip with
      | S k => replace_from old new k rest
      | O =>
          if startswith s old
          then new ++ replace_from old new (String.length old - 1) rest
          else String c (replace_from old new 0 rest)
      end
  end.

Definition replace (old new s : string) : string := replace_from old new 0 s.

(** [s.lower()] on ASCII letters. *)
Definition lower_char (c : ascii) : ascii :=
  let n := nat_of_ascii c in
  if ((65 <=? n)%nat && (n <=? 90)%nat)%bool then ascii_of_nat (n + 32) else c.

Fixpoint lower (s : string) : string :=
  match s with
  | EmptyString => EmptyString
  | String c rest => String (lower_char c) (lower rest)
  end.

(** [c * n] *)
Fixpoint repeat (c : ascii) (n : nat) : string :=
  match n with
  | O => EmptyString
  | S k => String c (repeat c k)
  end.

(** [all(p(c) for c in s)] *)
Fixpoint all (p : ascii -> bool) (s : string) : bool :=
  match s with
  | EmptyString => true
  | String c rest => p c && all p rest
  end.

End str.

(** ** [posixpath] *)

Module posixpath.

Definition sep : ascii := "/"%char.

(** [posixpath.join(a, b)] with one trailing component. *)
Definition join (a b : string) : string :=
  if str.startswith b "/" then b
  else if String.eqb a "" || str.endswith a "/" then a ++ b
  else a ++ "/" ++ b.

(** The number of leading slashes kept by [normpath]: one, except
    that exactly two are kept as two. *)
Definition initial_slashes (path : string) : nat :=
  if str.startswith path "/" then
    if str.startswith path "//" && negb (str.startswith path "///")
    then 2 else 1
  else 0.

(** One turn of the loop over the components in [normpath];
    [new_comps] grows at its end. *)
Definition normpath_step (initial : nat) (new_comps : list string)
    (comp : string) : list string :=
  if String.eqb comp "" || String.eqb comp "." then new_comps
  else if negb (String.eqb comp "..")
          || (Nat.eqb initial 0 && Nat.eqb (List.length new_comps) 0)
          || (negb (Nat.eqb (List.length new_comps) 0)
              && String.eqb (List.last new_comps "") "..")
       then (new_comps ++ [comp])%list
       else List.removelast new_comps.

(** [posixpath.normpath(path)] *)
Definition normpath (path : string) : string :=
  if String.eqb path "" then "."
  else
    let initial := initial_slashes path in
    let comps := List.fold_left (normpath_step initial) (str.split sep path) [] in
    let path' := str.repeat sep initial ++ str.join "/" comps in
    if String.eqb path' "" then "." else path'.

(** [posixpath.dirname(p)] *)
Definition dirname (p : string) : string :=
  let i := (str.rfind sep p + 1)%Z in
  let head := str.take (Z.to_nat i) p in
  if negb (String.eqb head "")
     && negb (String.eqb head (str.repeat sep (String.length head)))
  then str.rstrip "/" head
  else head.

(** [posixpath.basename(p)] *)
Definition basename (p : string) : string :=
  let i := (str.rfind sep p + 1)%Z in
  str.drop (Z.to_nat i) p.

End posixpath.

(** ** Exceptions

    Every exception the constructor meets is a [ValueError]; a
    computation that can raise returns [inl] of it. *)

Inductive exn : Type :=
| ValueError (msg : string).

Definition result (A : Type) : Type := (exn + A)%type.
Definition ok {A : Type} (a : A) : result A := inr a.
Definition raise {A : Type} (e : exn) : result A := inl e.

(** ** Built-in functions: [int], [repr] and [%x] *)

Module builtins.

(** The characters of [Py_ISSPACE]: tab, line feed, vertical tab, form
    feed, carriage return and space. *)
Definition whitespace : string :=
  String "009" (String "010" (String "011" (String "012" (String "013" " ")))).

(** The value of a hexadecimal digit. *)
Definition digit16 (c : ascii) : option Z :=
  let n := nat_of_ascii c in
  if ((48 <=? n) && (n <=? 57))%nat then Some (Z.of_nat (n - 48))
  else if ((97 <=? n) && (n <=? 102))%nat then Some (Z.of_nat (n - 87))
  else if ((65 <=? n) && (n <=? 70))%nat then Some (Z.of_nat (n - 55))
  else None.

(** The digit loop: digits with single underscores between them.
    [prev] is the character read last, NUL before the first one.
    The result is the value, the last character read and the text
    left; [None] is a syntax error. *)
Fixpoint scan16 (prev : ascii) (acc : Z) (s : string)
  : option (Z * ascii * string) :=
  match s with
  | EmptyString => Some (acc, prev, s)
  | String c rest =>
      if Ascii.eqb c "_" then
        if Ascii.eqb prev "_" then None else scan16 c acc rest
      else
        match digit16 c with
        | Some d => scan16 c (acc * 16 + d) rest
        | None => Some (acc, prev, s)
        end
  end.

(** [int(s, 16)]; [None] when it raises [ValueError]. *)
Definition int16 (s : string) : option Z :=
  let s := str.lstrip whitespace s in
  let '(sign, s) :=
    match s with
    | String "+" rest => (1%Z, rest)
    | String "-" rest => ((-1)%Z, rest)
    | _ => (1%Z, s)
    end in
  let s :=
    match s with
    | String "0" (String x rest) =>
        if Ascii.eqb x "x" || Ascii.eqb x "X" then
          match rest with
          | String "_" rest' => rest'
          | _ => rest
          end
        else s
    | _ => s
    end in
  if str.startswith s "_" then None
  else
    match scan16 zero 0 s with
    | None => None
    | Some (v, prev, rest) =>
        if Ascii.eqb prev "_" || Ascii.eqb prev zero then None
        else if String.eqb (str.lstrip whitespace rest) "" then Some (sign * v)%Z
        else None
    end.

(** [c.isascii() and c.isdigit()] *)
Definition isdigit (c : ascii) : bool :=
  let n := nat_of_ascii c in ((48 <=? n) && (n <=? 57))%nat.

(** [c.isascii() and c.isalpha()] *)
Definition isalpha (c : ascii) : bool :=
  let n := nat_of_ascii c in
  (((65 <=? n) && (n <=? 90)) || ((97 <=? n) && (n <=? 122)))%nat.

(** [int(s, 10)] for a string of decimal digits. *)
Fixpoint int10_from (acc : Z) (s : string) : Z :=
  match s with
  | EmptyString => acc
  | String c rest => int10_from (acc * 10 + Z.of_nat (nat_of_ascii c - 48)) rest
  end.

Definition int10 (s : string) : Z := int10_from 0 s.

(** The lower-case hexadecimal digit of a value below 16. *)
Definition hexdigit (d : Z) : ascii :=
  ascii_of_nat (Z.to_nat (if (d <? 10)%Z then 48 + d else 87 + d)%Z).

(** ['%x' % n] for [0 <= n < 65536]. *)
Definition format_x (n : Z) : string :=
  let digits :=
    String (hexdigit (n / 4096 mod 16)) (String (hexdigit (n / 256 mod 16))
      (String (hexdigit (n / 16 mod 16)) (String (hexdigit (n mod 16)) ""))) in
  match str.lstrip "0" digits with
  | EmptyString => "0"
  | s => s
  end.

(** The double quote. *)
Definition dquote : ascii := ascii_of_nat 34.

(** One character of [repr(s)] inside the quotes [quote]. *)
Definition repr_char (quote c : ascii) : string :=
  let n := nat_of_ascii c in
  if Ascii.eqb c quote || Ascii.eqb c "\" then String "\" (String c "")
  else if (n =? 9)%nat then "\t"
  else if (n =? 10)%nat then "\n"
  else if (n =? 13)%nat then "\r"
  else if ((n <? 32) || (n =? 127))%nat
       then "\x" ++ String (hexdigit (Z.of_nat n / 16)) (String (hexdigit (Z.of_nat n mod 16)) "")
       else String c "".

Fixpoint repr_chars (quote : ascii) (s : string) : string :=
  match s with
  | EmptyString => EmptyString
  | String c rest => repr_char quote c ++ repr_chars quote rest
  end.

(** [repr(s)]: single quotes, or double quotes when [s] holds a
    single quote and no double quote. *)
Definition repr (s : string) : string :=
  let quote :=
    if str.contains "'" s && negb (str.contains dquote s) then dquote else "'"%char in
  String quote (repr_chars quote s ++ String quote "").

End builtins.

(** ** [ipaddress] *)

Module ipaddress.

(** An address is its version and its integer. *)
Inductive t : Type :=
| IPv4 (_ip : Z)
| IPv6 (_ip : Z).

(** [_BaseV4._parse_octet]; [None] when it raises [ValueError]. *)
Definition _parse_octet (octet_str : string) : option Z :=
  if octet_str =? "" then None
  else if negb (str.all builtins.isdigit octet_str) then None
  else if (3 <? String.length octet_str)%nat then None
  else if negb (octet_str =? "0") && str.startswith octet_str "0" then None
  else
    let octet_int := builtins.int10 octet_str in
    if (255 <? octet_int)%Z then None else Some octet_int.

(** [int.from_bytes(map(cls._parse_octet, octets), 'big')] *)
Fixpoint from_octets (acc : Z) (octets : list string) : option Z :=
  match octets with
  | [] => Some acc
  | octet_str :: rest =>
      match _parse_octet octet_str with
      | None => None
      | Some v => from_octets (acc * 256 + v) rest
      end
  end.

(** [IPv4Address(address)._ip]; [None] when the constructor raises
    [AddressValueError]. *)
Definition IPv4Address (address : string) : option Z :=
  if str.contains "/" address then None
  else if address =? "" then None
  else
    let octets := str.split "." address in
    if negb (List.length octets =? 4)%nat then None
    else from_octets 0 octets.

(** [_BaseV6._parse_hextet]; [None] when it raises [ValueError]. *)
Definition _parse_hextet (hextet_str : string) : option Z :=
  if negb (str.all (fun c => str.mem c "0123456789ABCDEFabcdef") hextet_str) then None
  else if (4 <? String.length hextet_str)%nat then None
  else builtins.int16 hextet_str.

(** The two loops over the hextets:
    [ip_int <<= 16; ip_int |= cls._parse_hextet(part)]. *)
Fixpoint parse_hextets (ip_int : Z) (parts : list string) : option Z :=
  match parts with
  | [] => Some ip_int
  | part :: rest =>
      match _parse_hextet part with
      | None => None
      | Some v => parse_hextets (Z.lor (Z.shiftl ip_int 16) v) rest
      end
  end.

(** The search for ['::'] among the parts that are not at an end:
    the index of the empty part, if any; the outer [None] when there
    are two. *)
Fixpoint find_skip (i : nat) (inner : list string) (skip_index : option nat)
  : option (option nat) :=
  match inner with
  | [] => Some skip_index
  | part :: rest =>
      if part =? "" then
        match skip_index with
        | Some _ => None
        | None => find_skip (S i) rest (Some i)
        end
      else find_skip (S i) rest skip_index
  end.

(** [_BaseV6._ip_int_from_string]; [None] when it raises
    [AddressValueError]. *)
Definition _ip_int_from_string (ip_str : string) : option Z :=
  if ip_str =? "" then None
  else
    let parts := str.split ":" ip_str in
    if (List.length parts <? 3)%nat then None
    else
      let parts' :=
        if str.contains "." (List.last parts "") then
          match IPv4Address (List.last parts "") with
          | None => None
          | Some ipv4_int =>
              Some (List.removelast parts
                    ++ [builtins.format_x (Z.land (Z.shiftr ipv4_int 16) 65535);
                        builtins.format_x (Z.land ipv4_int 65535)])%list
          end
        else Some parts in
      match parts' with
      | None => None
      | Some parts =>
          if (9 <? List.length parts)%nat then None
          else
            match find_skip 1 (List.removelast (List.tl parts)) None with
            | None => None
            | Some (Some skip_index) =>
                let parts_hi := skip_index in
                let parts_lo := List.length parts - skip_index - 1 in
                let leading := List.hd "" parts =? "" in
                let trailing := List.last parts "" =? "" in
                let parts_hi := if leading then parts_hi - 1 else parts_hi in
                let parts_lo := if trailing then parts_lo - 1 else parts_lo in
                if leading && negb (parts_hi =? 0)%nat then None
                else if trailing && negb (parts_lo =? 0)%nat then None
                else if (8 <=? parts_hi + parts_lo)%nat then None
                else
                  let parts_skipped := 8 - (parts_hi + parts_lo) in
                  match parse_hextets 0 (List.firstn parts_hi parts) with
                  | None => None
                  | Some ip_int =>
                      parse_hextets
                        (Z.shiftl ip_int (16 * Z.of_nat parts_skipped))
                        (List.skipn (List.length parts - parts_lo) parts)
                  end
            | Some None =>
                if negb (List.length parts =? 8)%nat then None
                else if List.hd "" parts =? "" then None
                else if List.last parts "" =? "" then None
                else parse_hextets 0 parts
            end
      end.

(** [_BaseV6._split_scope_id]: the address without its scope id;
    [None] when it raises [AddressValueError]. *)
Definition _split_scope_id (ip_str : string) : option string :=
  match str.split1 "%" ip_str with
  | (addr, None) => Some addr
  | (addr, Some scope_id) =>
      if (scope_id =? "") || str.contains "%" scope_id then None else Some addr
  end.

(** [IPv6Address(address)._ip]; [None] when the constructor raises
    [AddressValueError]. *)
Definition IPv6Address (address : string) : option Z :=
  if str.contains "/" address then None
  else
    match _split_scope_id address with
    | None => None
    | Some addr_str => _ip_int_from_string addr_str
    end.

(** [ipaddress.ip_address(address)] *)
Definition ip_address (address : string) : result t :=
  match IPv4Address address with
  | Some ip => ok (IPv4 ip)
  | None =>
      match IPv6Address address with
      | Some ip => ok (IPv6 ip)
      | None =>
          raise (ValueError (builtins.repr address
                             ++ " does not appear to be an IPv4 or IPv6 address"))
      end
  end.

End ipaddress.

(** ** [urllib.parse] (CPython 3.11, the library of the interpreter
    the package runs on) *)

Module urllib_parse.

Record ParseResult : Type := {
  scheme : string;
  netloc : string;
  path : string;
  params : string;
  query : string;
  fragment : string
}.

Definition uses_params : list string :=
  [""; "ftp"; "hdl"; "prospero"; "http"; "imap"; "https"; "shttp"; "rtsp";
   "rtspu"; "sip"; "sips"; "mms"; "sftp"; "tel"].

Definition scheme_chars : string :=
  "abcdefghijklmnopqrstuvwxyzABCDEFGHIJKLMNOPQRSTUVWXYZ0123456789+-.".

(** The characters from NUL to the space. *)
Definition _WHATWG_C0_CONTROL_OR_SPACE : string :=
  List.fold_right (fun n s => String (ascii_of_nat n) s) "" (List.seq 0 33).

(** Tab, carriage return and line feed. *)
Definition _UNSAFE_URL_BYTES_TO_REMOVE : list string :=
  [String "009" ""; String "013" ""; String "010" ""].

(** The loop [for b in _UNSAFE_URL_BYTES_TO_REMOVE:
    url = url.replace(b, "")]. *)
Definition remove_unsafe (url : string) : string :=
  List.fold_left (fun url b => str.replace b "" url) _UNSAFE_URL_BYTES_TO_REMOVE url.

(** [url.find(c, start)] for [start <= len(url)]. *)
Definition find_from (c : ascii) (start : nat) (url : string) : Z :=
  match str.find c (str.drop start url) with
  | Zneg _ => (-1)%Z
  | k => (k + Z.of_nat start)%Z
  end.

(** [_splitnetloc(url, 2)] *)
Definition _splitnetloc (url : string) : string * string :=
  let delim :=
    List.fold_left
      (fun delim c =>
         let wdelim := find_from c 2 url in
         if (0 <=? wdelim)%Z then Z.min delim wdelim else delim)
      ["/"%char; "?"%char; "#"%char]
      (Z.of_nat (String.length url)) in
  (str.take (Z.to_nat delim - 2) (str.drop 2 url), str.drop (Z.to_nat delim) url).

(** [re.match(r"\Av[a-fA-F0-9]+\..+\Z", hostname)]: a [v], hexadecimal
    digits, a dot and at least one more character, none of them a
    line feed. *)
Fixpoint ipvfuture_digits (seen : bool) (s : string) : bool :=
  match s with
  | EmptyString => false
  | String c rest =>
      if str.mem c "abcdefABCDEF0123456789" then ipvfuture_digits true rest
      else seen && Ascii.eqb c "." && negb (rest =? "")
           && negb (str.contains "010" rest)
  end.

Definition ipvfuture (hostname : string) : bool :=
  match hostname with
  | String "v" rest => ipvfuture_digits false rest
  | _ => false
  end.

(** [_check_bracketed_host(hostname)] *)
Definition _check_bracketed_host (hostname : string) : result unit :=
  if str.startswith hostname "v" then
    if ipvfuture hostname then ok tt
    else raise (ValueError "IPvFuture address is invalid")
  else
    match ipaddress.ip_address hostname with
    | inl e => inl e
    | inr (ipaddress.IPv4 _) =>
        raise (ValueError "An IPv4 address cannot be in brackets")
    | inr (ipaddress.IPv6 _) => ok tt
    end.

(** [_check_bracketed_netloc(netloc)] *)
Definition _check_bracketed_netloc (netloc : string) : result unit :=
  let hostname_and_port :=
    str.drop (Z.to_nat (str.rfind "@" netloc + 1)) netloc in
  match str.split1 "[" hostname_and_port with
  | (before_bracket, Some bracketed) =>
      if negb (before_bracket =? "") then raise (ValueError "Invalid IPv6 URL")
      else
        let '(hostname, port) :=
          match str.split1 "]" bracketed with
          | (h, Some p) => (h, p)
          | (h, None) => (h, "")
          end in
        if negb (port =? "") && negb (str.startswith port ":")
        then raise (ValueError "Invalid IPv6 URL")
        else _check_bracketed_host hostname
  | (_, None) =>
      _check_bracketed_host (fst (str.split1 ":" hostname_and_port))
  end.

(** The part of [urlsplit] after the scheme has been taken off.  The
    tests on the brackets sit under [if url[:2] == '//'] in the
    library; without the two slashes the netloc is empty and they do
    nothing.  [_checknetloc] only looks at non-ASCII characters and
    is a no-op here. *)
Definition urlsplit_rest (scheme url : string)
  : result (string * string * string * string * string) :=
  let '(netloc, url) :=
    if String.eqb (str.take 2 url) "//" then _splitnetloc url else ("", url) in
  if (str.contains "[" netloc && negb (str.contains "]" netloc))
     || (str.contains "]" netloc && negb (str.contains "[" netloc))
  then raise (ValueError "Invalid IPv6 URL")
  else
    match (if str.contains "[" netloc && str.contains "]" netloc
           then _check_bracketed_netloc netloc else ok tt) with
    | inl e => inl e
    | inr _ =>
        let '(url, fragment) :=
          match str.split1 "#" url with
          | (u, Some f) => (u, f)
          | (u, None) => (u, "")
          end in
        let '(url, query) :=
          match str.split1 "?" url with
          | (u, Some q) => (u, q)
          | (u, None) => (u, "")
          end in
        ok (scheme, netloc, url, query, fragment)
    end.

(** [urlsplit(url)] *)
Definition urlsplit (url : string)
  : result (string * string * string * string * string) :=
  let url := str.lstrip _WHATWG_C0_CONTROL_OR_SPACE url in
  let url := remove_unsafe url in
  let i := str.find ":" url in
  if (0 <? i)%Z
     && match url with
        | String c _ => builtins.isalpha c
        | EmptyString => false
        end
     && str.all (fun c => str.mem c scheme_chars) (str.take (Z.to_nat i) url)
  then urlsplit_rest (str.lower (str.take (Z.to_nat i) url))
         (str.drop (Z.to_nat i + 1) url)
  else urlsplit_rest "" url.

(** [_splitparams(url)], called when [';' in url]. *)
Definition _splitparams (url : string) : string * string :=
  let i :=
    if str.contains "/" url
    then find_from ";" (Z.to_nat (str.rfind "/" url)) url
    else str.find ";" url in
  if str.contains "/" url && (i <? 0)%Z then (url, "")
  else (str.take (Z.to_nat i) url, str.drop (Z.to_nat i + 1) url).

(** [urlparse(url)] *)
Definition urlparse (url : string) : result ParseResult :=
  match urlsplit url with
  | inl e => inl e
  | inr (scheme, netloc, url, query, fragment) =>
      let '(url, params) :=
        if List.existsb (String.eqb scheme) uses_params && str.contains ";" url
        then _splitparams url
        else (url, "") in
      ok {| scheme := scheme; netloc := netloc; path := url;
            params := params; query := query; fragment := fragment |}
  end.

End urllib_parse.

(** ** [uuid.UUID] *)

Module uuid.

(** A UUID is its 128-bit integer. *)
Record t : Type := mk { int : Z }.

(** [UUID(hex)]; [None] when the constructor raises [ValueError]. *)
Definition UUID (hex : string) : option t :=
  let hex := str.replace "uuid:" "" (str.replace "urn:" "" hex) in
  let hex := str.replace "-" "" (str.strip "{}" hex) in
  if negb (String.length hex =? 32)%nat then None
  else
    match builtins.int16 hex with
    | None => None
    | Some i =>
        if ((0 <=? i) && (i <? 2 ^ 128))%Z then Some (mk i) else None
    end.

End uuid.

(** ** [FacultyDatasetsArtifactRepository] *)

Record FacultyDatasetsArtifactRepository : Type := {
  artifact_uri : string;
  project_id : uuid.t;
  datasets_artifact_root : string
}.

(** The three [raise] statements of [__init__], named as the
    specification names them. *)
Definition InvalidScheme (artifact_uri : string) : exn :=
  ValueError ("Not a Faculty datasets URI: " ++ artifact_uri).

Definition ReservedNetloc (artifact_uri netloc path : string) : exn :=
  ValueError ("Invalid URI " ++ artifact_uri ++ ". Netloc is reserved. "
              ++ "Did you mean 'faculty-datasets:" ++ netloc ++ path ++ "'").

Definition InvalidProjectId (first_part artifact_uri : string) : exn :=
  ValueError (first_part ++ " in given URI " ++ artifact_uri
              ++ " is not a valid UUID").

(** [cleaned_path = parsed_uri.path.strip("/") + "/"] *)
Definition cleaned_path (path : string) : string := str.strip "/" path ++ "/".

(** [first_part, remainder = cleaned_path.split("/", 1)]; the split
    always finds the slash that was appended. *)
Definition first_part (path : string) : string :=
  fst (str.split1 "/" (cleaned_path path)).

Definition remainder (path : string) : string :=
  match snd (str.split1 "/" (cleaned_path path)) with
  | Some r => r
  | None => ""
  end.

(** [__init__], after [urlparse] has returned. *)
Definition init_parsed (artifact_uri : string)
    (parsed_uri : urllib_parse.ParseResult)
  : result FacultyDatasetsArtifactRepository :=
  if negb (String.eqb (urllib_parse.scheme parsed_uri) "faculty-datasets")
  then raise (InvalidScheme artifact_uri)
  else if negb (String.eqb (urllib_parse.netloc parsed_uri) "")
  then raise (ReservedNetloc artifact_uri (urllib_parse.netloc parsed_uri)
                (urllib_parse.path parsed_uri))
  else
    match uuid.UUID (first_part (urllib_parse.path parsed_uri)) with
    | None =>
        raise (InvalidProjectId (first_part (urllib_parse.path parsed_uri))
                 artifact_uri)
    | Some id =>
        ok {| artifact_uri := artifact_uri;
              project_id := id;
              datasets_artifact_root :=
                "/" ++ remainder (urllib_parse.path parsed_uri) |}
    end.

(** [FacultyDatasetsArtifactRepository.__init__] *)
Definition __init__ (artifact_uri : string)
  : result FacultyDatasetsArtifactRepository :=
  match urllib_parse.urlparse artifact_uri with
  | inl e => raise e
  | inr parsed_uri => init_parsed artifact_uri parsed_uri
  end.

(** [_datasets_path] *)
Definition _datasets_path (self : FacultyDatasetsArtifactRepository)
    (artifact_path : string) : string :=
  posixpath.normpath
    (posixpath.join (datasets_artifact_root self) (str.lstrip "/" artifact_path)).

(** [mlflow.entities.FileInfo] *)
Module mlflow.

Record FileInfo : Type := {
  path : string;
  is_dir : bool;
  file_size : option Z
}.

End mlflow.

Section Collaborators.

(** An object record of the store, opaque to the adapter. *)
Variable Obj : Type.

(** [mlflow_faculty.converters.faculty_object_to_mlflow_file_info] *)
Variable faculty_object_to_mlflow_file_info : Obj -> string -> mlflow.FileInfo.

(** The response of [client.list]. *)
Record ListObjectsResponse : Type := {
  objects : list Obj;
  next_page_token : option string
}.

(** The object store behind [faculty.client("object")]: a state and
    the [list] operation on it.  Every response carries a list of
    its own. *)
Variable Store : Type.
Variable client_list :
  Store -> uuid.t -> string -> option string -> ListObjectsResponse * Store.

(** The calls made to the collaborators, with their arguments. *)
Inductive call : Type :=
| datasets_put (local_path datasets_path : string) (project_id : uuid.t)
| datasets_get (datasets_path local_path : string) (project_id : uuid.t)
| client_list_call (project_id : uuid.t) (prefix : string)
    (page_token : option string).

Record world : Type := {
  store : Store;
  trace : list call
}.

Definition log (c : call) (w : world) : world :=
  {| store := store w; trace := (trace w ++ [c])%list |}.

(** [client.list(...)]: the call is logged and the store answers. *)
Definition do_list (project_id : uuid.t) (prefix : string)
    (page_token : option string) (w : world) : ListObjectsResponse * world :=
  let (response, st) := client_list (store w) project_id prefix page_token in
  (response,
   {| store := st;
      trace := (trace w ++ [client_list_call project_id prefix page_token])%list |}).

(** [log_artifact] *)
Definition log_artifact (self : FacultyDatasetsArtifactRepository)
    (local_file : string) (artifact_path : option string) (w : world) : world :=
  let artifact_path :=
    match artifact_path with None => "./" | Some p => p end in
  let dest_path := posixpath.join artifact_path (posixpath.basename local_file) in
  let datasets_path := _datasets_path self dest_path in
  log (datasets_put local_file datasets_path (project_id self)) w.

(** [log_artifacts] *)
Definition log_artifacts (self : FacultyDatasetsArtifactRepository)
    (local_dir : string) (artifact_path : option string) (w : world) : world :=
  let artifact_path :=
    match artifact_path with None => "./" | Some p => p end in
  let datasets_path := _datasets_path self artifact_path in
  log (datasets_put local_dir datasets_path (project_id self)) w.

(** [_download_file] *)
Definition _download_file (self : FacultyDatasetsArtifactRepository)
    (remote_file_path local_path : string) (w : world) : world :=
  let datasets_path := _datasets_path self remote_file_path in
  log (datasets_get datasets_path local_path (project_id self)) w.

(** The [while] loop of [list_artifacts]: [fuel] bounds the number
    of turns; [None] when it runs out.  [objects += ...] extends the
    list of the first response in place; as no response shares its
    list with another, that is the concatenation. *)
Fixpoint list_loop (fuel : nat) (project_id : uuid.t) (prefix : string)
    (list_response : ListObjectsResponse) (objs : list Obj) (w : world)
  : option (list Obj * world) :=
  match next_page_token list_response with
  | None => Some (objs, w)
  | Some token =>
      match fuel with
      | O => None
      | S fuel' =>
          let (list_response', w') := do_list project_id prefix (Some token) w in
          list_loop fuel' project_id prefix list_response'
            (objs ++ objects list_response')%list w'
      end
  end.

(** The listing prefix: [datasets_path.rstrip("/") + "/"]. *)
Definition list_prefix (self : FacultyDatasetsArtifactRepository)
    (path : string) : string :=
  str.rstrip "/" (_datasets_path self path) ++ "/".

(** The first call to the store and the loop after it. *)
Definition list_objects (fuel : nat) (self : FacultyDatasetsArtifactRepository)
    (path : string) (w : world) : option (list Obj * world) :=
  let prefix := list_prefix self path in
  let (list_response, w1) := do_list (project_id self) prefix None w in
  list_loop fuel (project_id self) prefix list_response
    (objects list_response) w1.

(** The condition of the final comprehension. *)
Definition keep (path : string) (recursive : bool) (i : mlflow.FileInfo) : bool :=
  negb (List.existsb (String.eqb (mlflow.path i)) ["/"; "."])
  && (List.existsb (String.eqb (posixpath.dirname (mlflow.path i))) [""; path]
      || recursive).

(** [list_artifacts] *)
Definition list_artifacts (fuel : nat) (self : FacultyDatasetsArtifactRepository)
    (path : option string) (recursive : bool) (w : world)
  : option (list mlflow.FileInfo * world) :=
  let path := match path with None => "./" | Some p => p end in
  match list_objects fuel self path w with
  | None => None
  | Some (objs, w') =>
      let infos :=
        List.map
          (fun obj =>
             faculty_object_to_mlflow_file_info obj (datasets_artifact_root self))
          objs in
      Some (List.filter (keep path recursive) infos, w')
  end.

End Collaborators.

Arguments objects {Obj} _.
Arguments next_page_token {Obj} _.
Arguments Build_ListObjectsResponse {Obj} _ _.
Arguments store {Store} _.
Arguments trace {Store} _.
Arguments Build_world {Store} _ _.
Arguments log {Store} _ _.
Arguments log_artifact {Store} _ _ _ _.
Arguments log_artifacts {Store} _ _ _ _.
Arguments _download_file {Store} _ _ _ _.
Arguments do_list {Obj Store} _ _ _ _ _.
Arguments list_loop {Obj Store} _ _ _ _ _ _ _.
Arguments list_objects {Obj Store} _ _ _ _ _.
Arguments list_artifacts {Obj} _ {Store} _ _ _ _ _ _.

(** * Vocabulary of the properties *)

(** The root markers the listing always drops. *)
Definition is_root_marker (p : string) : bool := (p =? "/") || (p =? ".").

(** The entries a listing shows, in the words of the specification:
    never a root marker, and without [recursive] only an entry whose
    parent directory is empty or is the [path] the caller passed. *)
Definition listed (path : option string) (recursive : bool)
    (i : mlflow.FileInfo) : bool :=
  negb (is_root_marker (mlflow.path i))
  && (recursive
      || (posixpath.dirname (mlflow.path i) =? "")
      || match path with
         | Some p => posixpath.dirname (mlflow.path i) =? p
         | None => false
         end).

Section Pagination.

Variable Obj : Type.
Variable Store : Type.
Variable client_list :
  Store -> uuid.t -> string -> option string -> ListObjectsResponse Obj * Store.

(** The answers of the store along the chain of continuation tokens,
    from the call with [page_token] up to the first answer without a
    token. *)
Inductive pages (project_id : uuid.t) (prefix : string)
  : Store -> option string -> list (ListObjectsResponse Obj) -> Store -> Prop :=
| pages_last st page_token r st' :
    client_list st project_id prefix page_token = (r, st') ->
    next_page_token r = None ->
    pages project_id prefix st page_token [r] st'
| pages_next st page_token r st1 token rs st' :
    client_list st project_id prefix page_token = (r, st1) ->
    next_page_token r = Some token ->
    pages project_id prefix st1 (Some token) rs st' ->
    pages project_id prefix st page_token (r :: rs) st'.

(** The calls that fetch the pages [rs], the first with [page_token]. *)
Definition page_calls (project_id : uuid.t) (prefix : string)
    (page_token : option string) (rs : list (ListObjectsResponse Obj))
  : list call :=
  List.map (client_list_call project_id prefix)
    (page_token :: List.map next_page_token (List.removelast rs)).

(** The objects of the pages [rs], in order. *)
Definition all_objects (rs : list (ListObjectsResponse Obj)) : list Obj :=
  List.concat (List.map objects rs).

End Pagination.

Arguments pages {Obj Store} _ _ _ _ _ _ _.
Arguments pages_last {Obj Store} _ _ _ _ _ _ _ _ _.
Arguments pages_next {Obj Store} _ _ _ _ _ _ _ _ _ _ _ _ _.
Arguments page_calls {Obj} _ _ _ _.
Arguments all_objects {Obj} _.

(** The argument the comprehension compares parent directories with. *)
Definition effective_path (path : option string) : string :=
  match path with None => "./" | Some p => p end.

(** Every stored root starts with a slash and ends with one. *)
Definition root_shape (root : string) : Prop :=
  exists r, root = "/" ++ r /\ (r = "" \/ exists r', r = r' ++ "/").

Definition is_hex (c : ascii) : bool :=
  match builtins.digit16 c with Some _ => true | None => false end.

(** [n] hexadecimal digits. *)
Definition hex_group (n : nat) (s : string) : bool :=
  (String.length s =? n)%nat && str.all is_hex s.

(** The canonical textual form of a UUID: five groups of 8, 4, 4, 4
    and 12 hexadecimal digits, separated by hyphens. *)
Definition canonical_uuid (s : string) : bool :=
  match str.split "-" s with
  | [a; b; c; d; e] =>
      hex_group 8 a && hex_group 4 b && hex_group 4 c && hex_group 4 d
      && hex_group 12 e
  | _ => false
  end.

(** The constants of the test suite, with a fixed project id. *)
Definition PROJECT_ID : string := "12345678-1234-5678-1234-567812345678".
Definition PROJECT_UUID : uuid.t :=
  uuid.mk 24197857161011715162171839636988778104.
Definition ARTIFACT_URI : string := "faculty-datasets:" ++ PROJECT_ID ++ "/path/in/datasets".
Definition ARTIFACT_ROOT : string := "/path/in/datasets/".
Definition test_repo : FacultyDatasetsArtifactRepository :=
  {| artifact_uri := ARTIFACT_URI;
     project_id := PROJECT_UUID;
     datasets_artifact_root := ARTIFACT_ROOT |}.

(** The corrected URI the [ReservedNetloc] message proposes. *)
Definition suggestion (netloc path : string) : string :=
  "faculty-datasets:" ++ netloc ++ path.

(** [normpath] of an absolute path, without its two tests for an
    empty string. *)
Definition norm_comps (initial : nat) (comps : list string) : list string :=
  List.fold_left (posixpath.normpath_step initial) comps [].

(** The components [normpath] skips. *)
Definition blank (comp : string) : bool := (comp =? "") || (comp =? ".").

(** The components [normpath] keeps of the root. *)
Definition root_stack (root : string) : list string :=
  norm_comps (posixpath.initial_slashes root) (str.split "/" root).

(** [p] lies under [base]: it is [base], or [base] followed by a
    separator and more. *)
Definition is_under (base p : string) : bool :=
  (p =? base)
  || (str.startswith p base
      && (str.endswith base "/"
          || str.startswith (str.drop (String.length base) p) "/")).

(** A base name that names a file. *)
Definition proper_name (b : string) : bool :=
  negb ((b =? "") || (b =? ".") || (b =? "..")).

(** A root that [normpath] leaves alone, its trailing slash apart. *)
Definition normal_root (root : string) : bool :=
  (root =? "/") || (root =? posixpath.normpath root ++ "/").

(** A store with nothing in it, for the operations that only upload
    or download. *)
Definition empty_world : world unit := {| store := tt; trace := [] |}.

(** A store that answers from a script, one response per call, as the
    mocked client of the tests does; the tests never call it beyond
    the script. *)
Definition scripted {Obj : Type} (st : list (ListObjectsResponse Obj))
    (project_id : uuid.t) (prefix : string) (page_token : option string)
  : ListObjectsResponse Obj * list (ListObjectsResponse Obj) :=
  match st with
  | r :: rest => (r, rest)
  | [] => ({| objects := []; next_page_token := None |}, [])
  end.

(** The world before the first call, with the script to play. *)
Definition scripted_world {Obj : Type} (script : list (ListObjectsResponse Obj))
  : world (list (ListObjectsResponse Obj)) :=
  {| store := script; trace := [] |}.

(** Two pages of five objects, the first with a token. *)
Definition two_pages : list (ListObjectsResponse nat) :=
  [ {| objects := [0; 1; 2; 3; 4]; next_page_token := Some "token" |};
    {| objects := [5; 6; 7; 8; 9]; next_page_token := None |} ].

(** An entry whose display path is the root marker ["."]. *)
Definition dot_entry : mlflow.FileInfo :=
  {| mlflow.path := "."; mlflow.is_dir := true; mlflow.file_size := None |}.

(** The converter mocked in [test_faculty_repo_list_artifacts]: the
    paths ["a/dir/x0"] to ["a/dir/x8"], and ["/"] for the last
    object. *)
Definition numbered_info (obj : nat) (root : string) : mlflow.FileInfo :=
  {| mlflow.path :=
       if Nat.eqb obj 9 then "/"
       else "a/dir/x" ++ String (ascii_of_nat (48 + obj)) "";
     mlflow.is_dir := false;
     mlflow.file_size := None |}.

(** The converter mocked in
    [test_faculty_repo_list_artifacts_selective_directory]. *)
Definition joined_info (target : string) (obj : string) (root : string)
  : mlflow.FileInfo :=
  {| mlflow.path := posixpath.join target obj;
     mlflow.is_dir := false;
     mlflow.file_size := None |}.

(** The characters [int(s, 16)] reads without raising. *)
Definition int_char (c : ascii) : bool :=
  str.mem c builtins.whitespace || str.mem c "+-_xX" || is_hex c.

(** The characters of a string [UUID] accepts. *)
Definition uuid_char (c : ascii) : bool :=
  int_char c || str.mem c "urn:uuid:{}-".

(** ** Vocabulary of the further properties *)

(** A component that names something: not empty, not ["."], not
    [".."], and without a separator. *)
Definition name_comp (comp : string) : bool :=
  negb (blank comp) && negb (comp =? "..") && negb (str.mem "/" comp).

(** A relative path made of names only, such as ["path/to/file"]. *)
Definition clean_path (p : string) : bool :=
  List.forallb name_comp (str.split "/" p).

(** A store whose every response carries a continuation token. *)
Definition endless (st : unit) (project_id : uuid.t) (prefix : string)
    (page_token : option string) : ListObjectsResponse nat * unit :=
  ({| objects := [0]; next_page_token := Some "again" |}, tt).

(** The parent-directory test of the final comprehension. *)
Definition parent_listed (path : string) (i : mlflow.FileInfo) : bool :=
  (posixpath.dirname (mlflow.path i) =? "")
  || (posixpath.dirname (mlflow.path i) =? path).

(** * Properties *)

#[local] Arguments Ascii.eqb !_ !_ : simpl nomatch.

(** ** Strings *)

Lemma append_empty_r (s : string) : s ++ "" = s.
Proof. induction s as [|c s IH]; simpl; [reflexivity | now rewrite IH]. Qed.

Lemma append_assoc (a b c : string) : (a ++ b) ++ c = a ++ b ++ c.
Proof. induction a as [|x a IH]; simpl; [reflexivity | now rewrite IH]. Qed.

Lemma append_length (a b : string) :
  String.length (a ++ b) = String.length a + String.length b.
Proof. induction a as [|x a IH]; simpl; [reflexivity | now rewrite IH]. Qed.

Lemma append_eq_empty (a b : string) : a ++ b = "" -> a = "" /\ b = "".
Proof. destruct a; simpl; [auto | discriminate]. Qed.

(** A string that ends with a slash is not what [rstrip("/")] returns. *)
Lemma rstrip_slash_no_trailing (s x : string) : str.rstrip "/" s <> x ++ "/".
Proof.
  revert x; induction s as [|c s IH]; intros x H; simpl in H.
  - destruct x; discriminate.
  - destruct (str.rstrip "/" s) as [|d r] eqn:E.
    + destruct (Ascii.eqb_spec c "/") as [->|Hc]; simpl in H.
      * destruct x; discriminate.
      * destruct x as [|y x]; simpl in H; [congruence|].
        injection H as _ H. destruct x; discriminate.
    + destruct x as [|y x]; simpl in H; [discriminate|].
      injection H as _ H. exact (IH x H).
Qed.

(** [os.path.dirname] never returns ["./"]. *)
Lemma dirname_not_dot_slash (p : string) : posixpath.dirname p <> "./".
Proof.
  unfold posixpath.dirname.
  set (head := str.take _ p).
  destruct (negb (head =? "") && negb (head =? str.repeat posixpath.sep (String.length head)))%bool eqn:E.
  - apply (rstrip_slash_no_trailing head ".").
  - intros H. rewrite H in E. discriminate.
Qed.

(** ** Listing: pagination and filters *)

Lemma listed_iff (path : option string) (recursive : bool) (i : mlflow.FileInfo) :
  listed path recursive i = true <->
  mlflow.path i <> "/" /\ mlflow.path i <> "." /\
  (recursive = true \/ posixpath.dirname (mlflow.path i) = ""
   \/ path = Some (posixpath.dirname (mlflow.path i))).
Proof.
  unfold listed, is_root_marker.
  rewrite Bool.andb_true_iff, Bool.negb_true_iff, Bool.orb_false_iff,
    !Bool.orb_true_iff, !String.eqb_neq, String.eqb_eq.
  destruct path as [p|].
  - rewrite String.eqb_eq. intuition congruence.
  - intuition congruence.
Qed.

Section Listing.

Variable Obj : Type.
Variable faculty_object_to_mlflow_file_info : Obj -> string -> mlflow.FileInfo.
Variable Store : Type.
Variable client_list :
  Store -> uuid.t -> string -> option string -> ListObjectsResponse Obj * Store.

Lemma pages_nonempty project_id prefix st tok rs st' :
  pages client_list project_id prefix st tok rs st' -> rs <> [].
Proof. destruct 1; discriminate. Qed.

Lemma pages_deterministic project_id prefix st tok rs st' rs2 st2 :
  pages client_list project_id prefix st tok rs st' ->
  pages client_list project_id prefix st tok rs2 st2 ->
  rs = rs2 /\ st' = st2.
Proof.
  intros H; revert rs2 st2.
  induction H as [st tok r st' Hc Hn | st tok r st1 token rs st' Hc Hn Hp IH];
    intros rs2 st2 H2;
    inversion H2 as [? ? r0 ? Hc2 Hn2 | ? ? r0 st3 token0 rs0 ? Hc2 Hn2 Hp2];
    subst; rewrite Hc in Hc2; injection Hc2 as <- <-; try congruence.
  - split; reflexivity.
  - assert (token0 = token) as -> by congruence.
    destruct (IH _ _ Hp2) as [-> ->]. split; reflexivity.
Qed.

(** The loop, entered after a response that carries a token, makes
    the remaining calls of the chain and appends their objects. *)
Lemma list_loop_pages project_id prefix :
  forall rs st token st', pages client_list project_id prefix st (Some token) rs st' ->
  forall fuel r objs tr,
    next_page_token r = Some token ->
    List.length rs <= fuel ->
    list_loop client_list fuel project_id prefix r objs {| store := st; trace := tr |}
    = Some ((objs ++ all_objects rs)%list,
            {| store := st';
               trace := (tr ++ page_calls project_id prefix (Some token) rs)%list |}).
Proof.
  intros rs st token st' H.
  remember (Some token) as tok eqn:Etok. revert token Etok.
  induction H as [st tok r1 st' Hc Hn | st tok r1 st1 token1 rs st' Hc Hn Hp IH];
    intros token Etok fuel r objs tr Hr Hfuel; subst tok.
  - destruct fuel as [|fuel]; [simpl in Hfuel; lia|].
    simpl. rewrite Hr. unfold do_list; simpl. rewrite Hc.
    destruct fuel; simpl; rewrite Hn; unfold all_objects; simpl;
      rewrite app_nil_r; reflexivity.
  - destruct fuel as [|fuel]; [simpl in Hfuel; lia|].
    simpl. rewrite Hr. unfold do_list; simpl. rewrite Hc.
    simpl in Hfuel.
    rewrite (IH token1 eq_refl fuel r1 (objs ++ objects r1)%list
               (tr ++ [client_list_call project_id prefix (Some token)])%list
               Hn ltac:(lia)).
    unfold all_objects, page_calls. simpl.
    destruct rs as [|r2 rs]; [exfalso; eapply pages_nonempty; eauto|].
    rewrite <- !app_assoc. cbn [map app]. rewrite Hn. reflexivity.
Qed.

Lemma list_objects_pages (self : FacultyDatasetsArtifactRepository)
    (path : string) (w : world Store) rs st' fuel :
  pages client_list (project_id self) (list_prefix self path) (store w) None rs st' ->
  List.length rs <= S fuel ->
  list_objects client_list fuel self path w
  = Some (all_objects rs,
          {| store := st';
             trace := (trace w
                       ++ page_calls (project_id self) (list_prefix self path) None rs)%list |}).
Proof.
  intros H Hfuel. unfold list_objects, do_list.
  inversion H as [st tok r st1 Hc Hn | st tok r st1 token rs' st1' Hc Hn Hp]; subst.
  - rewrite Hc. destruct fuel; simpl; rewrite Hn; unfold all_objects; simpl;
      rewrite app_nil_r; reflexivity.
  - rewrite Hc. simpl in Hfuel.
    rewrite (list_loop_pages _ _ _ _ _ _ Hp fuel r (objects r)
               (trace w ++ [client_list_call (project_id self)
                              (list_prefix self path) None])%list
               Hn ltac:(lia)).
    unfold all_objects, page_calls. simpl.
    destruct rs' as [|r2 rs']; [exfalso; eapply pages_nonempty; eauto|].
    rewrite <- !app_assoc. cbn [map app]. rewrite Hn. reflexivity.
Qed.

Lemma list_loop_returns project_id prefix :
  forall fuel r objs w objs' w',
    list_loop client_list fuel project_id prefix r objs w = Some (objs', w') ->
    (next_page_token r = None /\ objs' = objs /\ w' = w)
    \/ exists token rs,
         next_page_token r = Some token
         /\ pages client_list project_id prefix (store w) (Some token) rs (store w')
         /\ List.length rs <= fuel
         /\ objs' = (objs ++ all_objects rs)%list
         /\ trace w' = (trace w ++ page_calls project_id prefix (Some token) rs)%list.
Proof.
  induction fuel as [|fuel IH]; intros r objs w objs' w' H; simpl in H.
  - destruct (next_page_token r) as [token|]; [discriminate|].
    injection H as <- <-. left. auto.
  - destruct (next_page_token r) as [token|] eqn:Hr.
    2:{ injection H as <- <-. left. auto. }
    right. exists token.
    unfold do_list in H.
    destruct (client_list (store w) project_id prefix (Some token)) as [r1 st1] eqn:Hc.
    apply IH in H. simpl in H.
    destruct H as [(Hn & -> & ->) | (token1 & rs & Hn & Hp & Hlen & -> & Htr)].
    + exists [r1]. simpl. repeat split.
      * now apply pages_last.
      * lia.
      * unfold all_objects. simpl. now rewrite app_nil_r.
    + exists (r1 :: rs). repeat split.
      * eapply pages_next; eauto.
      * simpl. lia.
      * unfold all_objects. simpl. now rewrite <- app_assoc.
      * rewrite Htr. unfold page_calls.
        destruct rs as [|r2 rs]; [exfalso; eapply pages_nonempty; eauto|].
        rewrite <- app_assoc. cbn [map app removelast]. rewrite Hn. reflexivity.
Qed.

Lemma list_objects_returns (self : FacultyDatasetsArtifactRepository)
    (path : string) (w : world Store) fuel objs w' :
  list_objects client_list fuel self path w = Some (objs, w') ->
  exists rs,
    pages client_list (project_id self) (list_prefix self path) (store w) None rs (store w')
    /\ List.length rs <= S fuel
    /\ objs = all_objects rs
    /\ trace w' = (trace w
                   ++ page_calls (project_id self) (list_prefix self path) None rs)%list.
Proof.
  unfold list_objects, do_list. intros H.
  destruct (client_list (store w) (project_id self) (list_prefix self path) None)
    as [r st1] eqn:Hc.
  apply list_loop_returns in H. simpl in H.
  destruct H as [(Hn & -> & ->) | (token & rs & Hn & Hp & Hlen & -> & Htr)].
  - exists [r]. simpl. repeat split.
    + now apply pages_last.
    + lia.
    + unfold all_objects. simpl. now rewrite app_nil_r.
  - exists (r :: rs). repeat split.
    + eapply pages_next; eauto.
    + simpl. lia.
    + rewrite Htr. unfold page_calls.
      destruct rs as [|r2 rs]; [exfalso; eapply pages_nonempty; eauto|].
      rewrite <- app_assoc. cbn [map app removelast]. rewrite Hn. reflexivity.
Qed.

Lemma keep_listed (path : option string) (recursive : bool) (i : mlflow.FileInfo) :
  keep (effective_path path) recursive i = listed path recursive i.
Proof.
  unfold keep, listed, is_root_marker. cbn [List.existsb].
  rewrite !Bool.orb_false_r.
  destruct path as [p|]; cbn [effective_path].
  - destruct recursive; rewrite ?Bool.orb_true_r, ?Bool.orb_false_r; reflexivity.
  - assert ((posixpath.dirname (mlflow.path i) =? "./") = false) as ->.
    { apply String.eqb_neq. apply dirname_not_dot_slash. }
    destruct recursive; rewrite ?Bool.orb_true_r, ?Bool.orb_false_r; reflexivity.
Qed.

(** C2. [list_artifacts] returns, in the order of the listing, exactly
    the converted entries that are [listed]: an entry whose display
    path is ["/"] or ["."] is dropped whatever [recursive] is; without
    [recursive] an entry is also dropped when its [dirname] is neither
    empty nor the [path] argument as the caller passed it; with
    [recursive] every entry that is not a root marker is kept. *)
Theorem list_artifacts_filter (fuel : nat)
    (self : FacultyDatasetsArtifactRepository) (path : option string)
    (recursive : bool) (w : world Store) :
  list_artifacts faculty_object_to_mlflow_file_info client_list fuel self
    path recursive w
  = match list_objects client_list fuel self (effective_path path) w with
    | None => None
    | Some (objs, w') =>
        Some (List.filter (listed path recursive)
                (List.map (fun obj => faculty_object_to_mlflow_file_info obj
                                        (datasets_artifact_root self)) objs),
              w')
    end
  /\ (forall i, listed path recursive i = true <->
        mlflow.path i <> "/" /\ mlflow.path i <> "." /\
        (recursive = true \/ posixpath.dirname (mlflow.path i) = ""
         \/ path = Some (posixpath.dirname (mlflow.path i))))
  /\ (forall i, listed path true i = negb (is_root_marker (mlflow.path i))).
Proof.
  split; [|split].
  - unfold list_artifacts. fold (effective_path path).
    destruct (list_objects client_list fuel self (effective_path path) w)
      as [[objs w']|]; [|reflexivity].
    do 2 f_equal. apply List.filter_ext. intros i. apply keep_listed.
  - intros i. apply listed_iff.
  - intros i. unfold listed. cbn. now rewrite Bool.andb_true_r.
Qed.

(** C3. [list_artifacts] calls [client.list] first with the project
    id and the prefix, then again with the token of the previous
    response as long as that response carries one, and accumulates
    the objects of the responses in the order they arrive, before
    conversion and filtering.  When the chain of pages ends within
    the fuel the listing returns; whatever it returns comes from such
    a chain.  Two pages make two calls. *)
Theorem list_artifacts_pagination (fuel : nat)
    (self : FacultyDatasetsArtifactRepository) (path : string)
    (w : world Store) :
  (forall rs st',
      pages client_list (project_id self) (list_prefix self path) (store w) None rs st' ->
      List.length rs <= S fuel ->
      list_objects client_list fuel self path w
      = Some (all_objects rs,
              {| store := st';
                 trace := (trace w ++ page_calls (project_id self)
                                        (list_prefix self path) None rs)%list |}))
  /\ (forall objs w',
         list_objects client_list fuel self path w = Some (objs, w') ->
         exists rs,
           pages client_list (project_id self) (list_prefix self path) (store w) None rs (store w')
           /\ List.length rs <= S fuel
           /\ objs = all_objects rs
           /\ trace w' = (trace w ++ page_calls (project_id self)
                                       (list_prefix self path) None rs)%list)
  /\ (forall r1 st1 token r2 st2,
         client_list (store w) (project_id self) (list_prefix self path) None
         = (r1, st1) ->
         next_page_token r1 = Some token ->
         client_list st1 (project_id self) (list_prefix self path) (Some token)
         = (r2, st2) ->
         next_page_token r2 = None ->
         List.length (objects r1) = 5 -> List.length (objects r2) = 5 ->
         1 <= fuel ->
         list_objects client_list fuel self path w
         = Some ((objects r1 ++ objects r2)%list,
                 {| store := st2;
                    trace := (trace w
                              ++ [client_list_call (project_id self)
                                    (list_prefix self path) None;
                                  client_list_call (project_id self)
                                    (list_prefix self path) (Some token)])%list |})
         /\ List.length (objects r1 ++ objects r2)%list = 10)
  /\ (forall recursive,
         list_artifacts faculty_object_to_mlflow_file_info client_list fuel self
           (Some path) recursive w
         = match list_objects client_list fuel self path w with
           | None => None
           | Some (objs, w') =>
               Some (List.filter (keep path recursive)
                       (List.map (fun obj => faculty_object_to_mlflow_file_info obj
                                               (datasets_artifact_root self)) objs),
                     w')
           end).
Proof.
  split; [|split; [|split]].
  - intros rs st' H Hlen. now apply list_objects_pages.
  - intros objs w' H. now apply list_objects_returns.
  - intros r1 st1 token r2 st2 Hc1 Hn1 Hc2 Hn2 H1 H2 Hfuel. split.
    + rewrite (list_objects_pages self path w [r1; r2] st2 fuel).
      * unfold all_objects, page_calls. cbn. rewrite Hn1, app_nil_r. reflexivity.
      * eapply pages_next; eauto. now apply pages_last.
      * simpl. lia.
    + rewrite List.length_app. lia.
  - intros recursive. reflexivity.
Qed.

(** C10 (amended). With [path=None] the comparison uses ["./"], which
    [dirname] never returns; a non-recursive listing with the default
    path keeps exactly the entries whose parent directory is empty
    and whose display path is not the root marker ["."]. *)
Theorem list_artifacts_default_path (fuel : nat)
    (self : FacultyDatasetsArtifactRepository) (w : world Store) :
  list_artifacts faculty_object_to_mlflow_file_info client_list fuel self
    None false w
  = match list_objects client_list fuel self "./" w with
    | None => None
    | Some (objs, w') =>
        Some (List.filter
                (fun i => (posixpath.dirname (mlflow.path i) =? "")
                          && negb (mlflow.path i =? "."))%bool
                (List.map (fun obj => faculty_object_to_mlflow_file_info obj
                                        (datasets_artifact_root self)) objs),
              w')
    end
  /\ (forall p, posixpath.dirname p <> "./").
Proof.
  split; [|exact dirname_not_dot_slash].
  unfold list_artifacts.
  destruct (list_objects client_list fuel self "./" w) as [[objs w']|];
    [|reflexivity].
  do 2 f_equal. apply List.filter_ext. intros i.
  change (keep "./" false i) with (keep (effective_path None) false i).
  rewrite (keep_listed None false i).
  unfold listed, is_root_marker. cbn.
  rewrite Bool.orb_false_r, Bool.andb_comm.
  destruct (posixpath.dirname (mlflow.path i) =? "") eqn:E; [|reflexivity].
  cbn. assert ((mlflow.path i =? "/") = false) as ->; [|reflexivity].
  apply String.eqb_neq. intros Hp. rewrite Hp in E. discriminate.
Qed.

End Listing.

(** ** More on strings *)

Lemma mem_app (c : ascii) (a b : string) :
  str.mem c (a ++ b) = (str.mem c a || str.mem c b)%bool.
Proof.
  induction a as [|x a IH]; simpl; [reflexivity|].
  now rewrite IH, Bool.orb_assoc.
Qed.

Lemma all_app (p : ascii -> bool) (a b : string) :
  str.all p (a ++ b) = (str.all p a && str.all p b)%bool.
Proof.
  induction a as [|x a IH]; simpl; [reflexivity|].
  now rewrite IH, Bool.andb_assoc.
Qed.

Lemma split1_absent (c : ascii) (s : string) :
  str.mem c s = false -> str.split1 c s = (s, None).
Proof.
  induction s as [|x s IH]; simpl; [reflexivity|].
  rewrite Bool.orb_false_iff. intros [Hx Hs].
  rewrite Ascii.eqb_sym, Hx, (IH Hs). reflexivity.
Qed.

Lemma split1_app_sep (c : ascii) (a b : string) :
  str.mem c a = false -> str.split1 c (a ++ String c b) = (a, Some b).
Proof.
  induction a as [|x a IH]; simpl.
  - now rewrite Ascii.eqb_refl.
  - rewrite Bool.orb_false_iff. intros [Hx Ha].
    rewrite Ascii.eqb_sym, Hx, (IH Ha). reflexivity.
Qed.

Lemma find_absent (c : ascii) (s : string) :
  str.mem c s = false -> str.find c s = (-1)%Z.
Proof.
  induction s as [|x s IH]; simpl; [reflexivity|].
  rewrite Bool.orb_false_iff. intros [Hx Hs].
  rewrite Ascii.eqb_sym, Hx, (IH Hs). reflexivity.
Qed.

Lemma find_app_sep (c : ascii) (a b : string) :
  str.mem c a = false ->
  str.find c (a ++ String c b) = Z.of_nat (String.length a).
Proof.
  induction a as [|x a IH]; simpl String.length; cbn [append str.find str.mem].
  - now rewrite Ascii.eqb_refl.
  - rewrite Bool.orb_false_iff. intros [Hx Ha].
    rewrite Ascii.eqb_sym, Hx, (IH Ha).
    destruct (String.length a); [reflexivity|].
    cbn [Z.of_nat]. f_equal. lia.
Qed.

Lemma take_app_length (a b : string) : str.take (String.length a) (a ++ b) = a.
Proof. induction a as [|x a IH]; simpl; [now destruct b | now rewrite IH]. Qed.

Lemma drop_app_length (a b : string) : str.drop (String.length a) (a ++ b) = b.
Proof. induction a as [|x a IH]; simpl; [reflexivity | exact IH]. Qed.

Lemma rstrip_app (chars a b : string) :
  str.rstrip chars b <> "" -> str.rstrip chars (a ++ b) = a ++ str.rstrip chars b.
Proof.
  intros Hb. induction a as [|x a IH]; simpl; [reflexivity|].
  rewrite IH. destruct (a ++ str.rstrip chars b) eqn:E; [|reflexivity].
  apply append_eq_empty in E. tauto.
Qed.

Lemma lstrip_slashes (n : nat) (s : string) :
  str.lstrip "/" (str.repeat "/" n ++ s) = str.lstrip "/" s.
Proof. induction n as [|n IH]; simpl; [reflexivity | exact IH]. Qed.

Lemma lstrip_not_slash (s : string) : str.startswith (str.lstrip "/" s) "/" = false.
Proof.
  induction s as [|c s IH]; simpl; [reflexivity|].
  destruct (Ascii.eqb_spec c "/") as [->|Hc]; simpl; [exact IH|].
  apply Ascii.eqb_neq in Hc. now rewrite Hc.
Qed.

Lemma lstrip_fixed (s : string) :
  str.startswith s "/" = false -> str.lstrip "/" s = s.
Proof.
  destruct s as [|c s]; simpl; [reflexivity|].
  destruct s; rewrite ?Bool.andb_true_r, ?Bool.orb_false_r; now intros ->.
Qed.

Lemma lstrip_idempotent (s : string) :
  str.lstrip "/" (str.lstrip "/" s) = str.lstrip "/" s.
Proof. apply lstrip_fixed, lstrip_not_slash. Qed.

(** A string is some slashes followed by what [lstrip("/")] leaves. *)
Lemma lstrip_decompose (s : string) :
  exists n, s = str.repeat "/" n ++ str.lstrip "/" s.
Proof.
  induction s as [|c s [n IH]]; [exists 0; reflexivity|].
  simpl. destruct (Ascii.eqb_spec c "/") as [->|Hc]; simpl.
  - exists (S n). simpl. now rewrite <- IH.
  - exists 0. reflexivity.
Qed.

(** ** The constructor *)

(** The cleaned path splits at its first slash; what follows the
    first segment is empty or ends with a slash. *)
Lemma split1_trailing_slash (a : string) :
  exists f r,
    str.split1 "/" (a ++ "/") = (f, Some r)
    /\ a ++ "/" = f ++ "/" ++ r
    /\ str.mem "/" f = false
    /\ (r = "" \/ exists r', r = r' ++ "/").
Proof.
  induction a as [|c a (f & r & Hs & Ha & Hf & Hr)]; simpl.
  - exists "", "". auto.
  - destruct (Ascii.eqb_spec c "/") as [->|Hc].
    + exists "", (a ++ "/"). repeat split. right. now exists a.
    + rewrite Hs. exists (String c f), r. simpl. repeat split; auto.
      * now rewrite Ha.
      * apply Ascii.eqb_neq in Hc. rewrite Ascii.eqb_sym in Hc.
        now rewrite Hc.
Qed.

Lemma cleaned_path_split (path : string) :
  cleaned_path path = first_part path ++ "/" ++ remainder path
  /\ str.contains "/" (first_part path) = false
  /\ (remainder path = "" \/ exists r', remainder path = r' ++ "/").
Proof.
  unfold first_part, remainder, cleaned_path, str.contains.
  destruct (split1_trailing_slash (str.strip "/" path)) as (f & r & -> & Ha & Hf & Hr).
  simpl. auto.
Qed.

Lemma init_parsed_ok (artifact_uri : string) (parsed : urllib_parse.ParseResult)
    (self : FacultyDatasetsArtifactRepository) :
  init_parsed artifact_uri parsed = ok self <->
  exists id,
    urllib_parse.scheme parsed = "faculty-datasets"
    /\ urllib_parse.netloc parsed = ""
    /\ uuid.UUID (first_part (urllib_parse.path parsed)) = Some id
    /\ self = {| artifact_uri := artifact_uri;
                 project_id := id;
                 datasets_artifact_root :=
                   "/" ++ remainder (urllib_parse.path parsed) |}.
Proof.
  unfold init_parsed, ok, raise.
  destruct (String.eqb_spec (urllib_parse.scheme parsed) "faculty-datasets") as [Hs|Hs];
    cbn [negb].
  2:{ split; [discriminate|]. intros (id & H & _). contradiction. }
  destruct (String.eqb_spec (urllib_parse.netloc parsed) "") as [Hn|Hn]; cbn [negb].
  2:{ split; [discriminate|]. intros (id & _ & H & _). contradiction. }
  destruct (uuid.UUID (first_part (urllib_parse.path parsed))) as [id|].
  - split.
    + intros H. injection H as <-. exists id. auto.
    + intros (id' & _ & _ & Hid & ->). injection Hid as ->. reflexivity.
  - split; [discriminate|]. intros (id & _ & _ & H & _). discriminate.
Qed.

Lemma init_ok_parsed (artifact_uri : string)
    (self : FacultyDatasetsArtifactRepository) :
  __init__ artifact_uri = ok self <->
  exists parsed,
    urllib_parse.urlparse artifact_uri = ok parsed
    /\ init_parsed artifact_uri parsed = ok self.
Proof.
  unfold __init__, ok, raise.
  destruct (urllib_parse.urlparse artifact_uri) as [e|parsed].
  - split; [discriminate|]. intros (p & H & _). discriminate.
  - split.
    + intros H. now exists parsed.
    + intros (p & H & Hp). injection H as ->. exact Hp.
Qed.

Lemma init_root_shape (artifact_uri : string)
    (self : FacultyDatasetsArtifactRepository) :
  __init__ artifact_uri = ok self -> root_shape (datasets_artifact_root self).
Proof.
  intros H. apply init_ok_parsed in H. destruct H as (parsed & _ & H).
  apply init_parsed_ok in H. destruct H as (id & _ & _ & _ & ->).
  cbn [datasets_artifact_root].
  exists (remainder (urllib_parse.path parsed)). split; [reflexivity|].
  apply cleaned_path_split.
Qed.

(** ** [urlparse] on the two shapes of URI the specification names *)

(** Deleting the occurrences of one character. *)
Lemma replace_char_cons (c x : ascii) (s : string) :
  str.replace (String c "") "" (String x s)
  = if Ascii.eqb x c then str.replace (String c "") "" s
    else String x (str.replace (String c "") "" s).
Proof.
  unfold str.replace. cbn [str.replace_from str.startswith String.length Nat.sub append].
  rewrite Bool.andb_true_r. reflexivity.
Qed.

Lemma replace_char_app (c : ascii) (a b : string) :
  str.replace (String c "") "" (a ++ b)
  = str.replace (String c "") "" a ++ str.replace (String c "") "" b.
Proof.
  induction a as [|x a IH]; [reflexivity|].
  cbn [append]. rewrite !replace_char_cons, IH.
  now destruct (Ascii.eqb x c).
Qed.

Lemma replace_char_mem (c d : ascii) (s : string) :
  str.mem d (str.replace (String c "") "" s)
  = (negb (Ascii.eqb d c) && str.mem d s)%bool.
Proof.
  induction s as [|x s IH]; [now rewrite Bool.andb_false_r|].
  rewrite replace_char_cons. cbn [str.mem].
  destruct (Ascii.eqb_spec x c) as [->|Hx].
  - rewrite IH. now destruct (Ascii.eqb d c).
  - cbn [str.mem]. rewrite IH.
    destruct (Ascii.eqb_spec d x) as [->|_]; [|reflexivity].
    apply Ascii.eqb_neq in Hx. now rewrite Hx.
Qed.

Lemma replace_char_absent (c : ascii) (s : string) :
  str.mem c s = false -> str.replace (String c "") "" s = s.
Proof.
  induction s as [|x s IH]; [reflexivity|].
  cbn [str.mem]. rewrite Bool.orb_false_iff. intros [Hx Hs].
  rewrite replace_char_cons, Ascii.eqb_sym, Hx, (IH Hs). reflexivity.
Qed.

(** What [urlsplit] removes: tabs, carriage returns and line feeds,
    wherever they stand. *)
Lemma remove_unsafe_app (a b : string) :
  urllib_parse.remove_unsafe (a ++ b)
  = urllib_parse.remove_unsafe a ++ urllib_parse.remove_unsafe b.
Proof.
  unfold urllib_parse.remove_unsafe, urllib_parse._UNSAFE_URL_BYTES_TO_REMOVE.
  cbn [List.fold_left]. now rewrite !replace_char_app.
Qed.

Lemma remove_unsafe_mem (d : ascii) (s : string) :
  str.mem d (urllib_parse.remove_unsafe s)
  = (negb (str.mem d (String "009" (String "013" (String "010" ""))))
     && str.mem d s)%bool.
Proof.
  unfold urllib_parse.remove_unsafe, urllib_parse._UNSAFE_URL_BYTES_TO_REMOVE.
  cbn [List.fold_left str.mem]. rewrite !replace_char_mem.
  destruct (Ascii.eqb d "009"), (Ascii.eqb d "013"), (Ascii.eqb d "010");
    reflexivity.
Qed.

Lemma remove_unsafe_absent (d : ascii) (s : string) :
  str.mem d s = false -> str.mem d (urllib_parse.remove_unsafe s) = false.
Proof. intros H. rewrite remove_unsafe_mem, H. apply Bool.andb_false_r. Qed.

Lemma remove_unsafe_fixed (s : string) :
  str.all (fun c => negb (str.mem c (String "009" (String "013" (String "010" ""))))) s
  = true ->
  urllib_parse.remove_unsafe s = s.
Proof.
  intros H.
  assert (forall d, str.mem d (String "009" (String "013" (String "010" ""))) = true ->
                    str.mem d s = false) as Hd.
  { intros d Hm. induction s as [|c s IH]; [reflexivity|].
    cbn [str.all] in H. apply Bool.andb_true_iff in H. destruct H as [Hc Hs].
    cbn [str.mem]. rewrite (IH Hs), Bool.orb_false_r.
    destruct (Ascii.eqb_spec d c) as [->|]; [|reflexivity].
    rewrite Hm in Hc. discriminate. }
  unfold urllib_parse.remove_unsafe, urllib_parse._UNSAFE_URL_BYTES_TO_REMOVE.
  cbn [List.fold_left].
  rewrite (replace_char_absent "009" s) by (apply Hd; reflexivity).
  rewrite (replace_char_absent "013" s) by (apply Hd; reflexivity).
  apply replace_char_absent, Hd. reflexivity.
Qed.

Lemma remove_unsafe_seg (u t : string) :
  urllib_parse.remove_unsafe (u ++ "/" ++ t)
  = urllib_parse.remove_unsafe u ++ "/" ++ urllib_parse.remove_unsafe t.
Proof.
  rewrite remove_unsafe_app. f_equal.
Qed.

(** After the scheme [faculty-datasets:], [urlsplit] goes on with
    the rest of the URI, tabs and line breaks removed. *)
Lemma urlsplit_faculty (rest : string) :
  urllib_parse.urlsplit ("faculty-datasets:" ++ rest)
  = urllib_parse.urlsplit_rest "faculty-datasets" (urllib_parse.remove_unsafe rest).
Proof.
  unfold urllib_parse.urlsplit.
  change (str.lstrip urllib_parse._WHATWG_C0_CONTROL_OR_SPACE
            ("faculty-datasets:" ++ rest))
    with ("faculty-datasets:" ++ rest).
  rewrite remove_unsafe_app.
  change (urllib_parse.remove_unsafe "faculty-datasets:") with "faculty-datasets:".
  generalize (urllib_parse.remove_unsafe rest). clear rest. intros rest.
  change ("faculty-datasets:" ++ rest) with ("faculty-datasets" ++ String ":" rest).
  rewrite find_app_sep by reflexivity.
  change (String.length "faculty-datasets") with 16.
  change (0 <? Z.of_nat 16)%Z with true.
  change (Z.to_nat (Z.of_nat 16)) with (String.length "faculty-datasets").
  rewrite take_app_length.
  change ("faculty-datasets" ++ String ":" rest) with ("faculty-datasets:" ++ rest).
  change (String.length "faculty-datasets" + 1) with (String.length "faculty-datasets:").
  rewrite drop_app_length.
  reflexivity.
Qed.

(** A string without a colon has no scheme. *)
Lemma urlsplit_without_colon (uri : string) :
  str.mem ":" uri = false ->
  exists url, urllib_parse.urlsplit uri = urllib_parse.urlsplit_rest "" url.
Proof.
  intros H. unfold urllib_parse.urlsplit.
  set (url := urllib_parse.remove_unsafe _).
  assert (str.mem ":" url = false) as Hurl.
  { unfold url. apply remove_unsafe_absent.
    induction uri as [|c uri IH]; [reflexivity|].
    cbn [str.mem] in H. apply Bool.orb_false_iff in H. destruct H as [Hc Hs].
    cbn [str.lstrip]. destruct (str.mem c _); [exact (IH Hs)|].
    cbn [str.mem]. now rewrite Hc, Hs. }
  rewrite (find_absent ":" url Hurl). change (0 <? -1)%Z with false.
  cbn [andb]. now exists url.
Qed.

(** [urlsplit_rest] hands the scheme on. *)
Lemma urlsplit_rest_scheme (scheme url : string)
    (r : string * string * string * string * string) :
  urllib_parse.urlsplit_rest scheme url = ok r ->
  fst (fst (fst (fst r))) = scheme.
Proof.
  unfold urllib_parse.urlsplit_rest.
  destruct (if str.take 2 url =? "//" then urllib_parse._splitnetloc url else ("", url))
    as [netloc url'].
  destruct ((str.contains "[" netloc && negb (str.contains "]" netloc))
            || (str.contains "]" netloc && negb (str.contains "[" netloc)))%bool;
    [discriminate|].
  destruct (if (str.contains "[" netloc && str.contains "]" netloc)%bool
            then urllib_parse._check_bracketed_netloc netloc else ok tt);
    [discriminate|].
  destruct (str.split1 "#" url') as [u1 [f|]];
    destruct (str.split1 "?" u1) as [u2 [q|]]; unfold ok;
    intros E; injection E as <-; reflexivity.
Qed.

(** [urlsplit_rest] on a path: no two slashes in front, no query and
    no fragment. *)
Lemma urlsplit_rest_path (scheme url : string) :
  str.startswith url "//" = false ->
  str.mem "#" url = false ->
  str.mem "?" url = false ->
  urllib_parse.urlsplit_rest scheme url = ok (scheme, "", url, "", "").
Proof.
  intros Hs Hf Hq. unfold urllib_parse.urlsplit_rest.
  assert ((str.take 2 url =? "//") = false) as ->.
  { apply String.eqb_neq.
    destruct url as [|a [|b url]]; cbn [str.take]; try discriminate.
    intros E.
    assert (a = "/"%char /\ b = "/"%char) as [-> ->] by (split; congruence).
    cbn in Hs. discriminate. }
  cbn [str.contains str.mem andb orb negb].
  rewrite (split1_absent "#" url Hf), (split1_absent "?" url Hq).
  reflexivity.
Qed.

(** [faculty-datasets:<rest>], where [rest] does not start with two
    slashes and has no query or fragment. *)
Lemma urlparse_faculty (rest : string) :
  str.startswith (urllib_parse.remove_unsafe rest) "//" = false ->
  str.mem "#" rest = false ->
  str.mem "?" rest = false ->
  urllib_parse.urlparse ("faculty-datasets:" ++ rest)
  = ok {| urllib_parse.scheme := "faculty-datasets";
          urllib_parse.netloc := "";
          urllib_parse.path := urllib_parse.remove_unsafe rest;
          urllib_parse.params := "";
          urllib_parse.query := "";
          urllib_parse.fragment := "" |}.
Proof.
  intros Hs Hf Hq.
  unfold urllib_parse.urlparse. rewrite urlsplit_faculty.
  rewrite urlsplit_rest_path;
    [reflexivity | exact Hs | now apply remove_unsafe_absent
     | now apply remove_unsafe_absent].
Qed.

Lemma all_not_mem (chars u : string) (d : ascii) :
  str.all (fun c => negb (str.mem c chars)) u = true ->
  str.mem d chars = true ->
  str.mem d u = false.
Proof.
  intros Hu Hd. induction u as [|c u IH]; [reflexivity|].
  cbn [str.all str.mem] in *. apply Bool.andb_true_iff in Hu. destruct Hu as [Hc Hu].
  rewrite (IH Hu), Bool.orb_false_r.
  destruct (Ascii.eqb_spec d c) as [->|]; [|reflexivity].
  rewrite Hd in Hc. discriminate.
Qed.





(** The first segment and the remainder of [<u>/<t>]. *)
Lemma first_part_remainder (u t t' : string) :
  u <> "" ->
  str.mem "/" u = false ->
  str.rstrip "/" (String "/" t) = String "/" t' ->
  first_part (u ++ String "/" t) = u
  /\ remainder (u ++ String "/" t) = t' ++ "/".
Proof.
  intros Hne Hu Ht. unfold first_part, remainder, cleaned_path, str.strip.
  rewrite lstrip_fixed.
  2:{ destruct u as [|c u]; [contradiction|]. cbn in Hu |- *.
      apply Bool.orb_false_iff in Hu. destruct Hu as [Hc _].
      rewrite Ascii.eqb_sym, Hc. reflexivity. }
  rewrite rstrip_app by (rewrite Ht; discriminate).
  rewrite Ht, append_assoc. cbn [append].
  rewrite split1_app_sep by exact Hu. split; reflexivity.
Qed.

Lemma test_repo_init : __init__ ARTIFACT_URI = ok test_repo.
Proof. vm_compute. reflexivity. Qed.

(** ** The characters of an accepted project id *)

Lemma lstrip_mem (chars s : string) (c : ascii) :
  str.mem c s = true ->
  str.mem c chars = true \/ str.mem c (str.lstrip chars s) = true.
Proof.
  induction s as [|x s IH]; [discriminate|].
  cbn [str.lstrip]. destruct (str.mem x chars) eqn:Hx; [|auto].
  cbn [str.mem]. destruct (Ascii.eqb_spec c x) as [->|_]; [auto|].
  exact IH.
Qed.

Lemma rstrip_mem (chars s : string) (c : ascii) :
  str.mem c s = true ->
  str.mem c chars = true \/ str.mem c (str.rstrip chars s) = true.
Proof.
  induction s as [|x s IH]; [discriminate|].
  cbn [str.mem str.rstrip]. destruct (Ascii.eqb_spec c x) as [->|_].
  - intros _. destruct (str.rstrip chars s).
    + destruct (str.mem x chars); [auto|]. right. cbn. now rewrite Ascii.eqb_refl.
    + right. cbn. now rewrite Ascii.eqb_refl.
  - intros H. destruct (IH H) as [Hc|Hc]; [auto|]. right.
    destruct (str.rstrip chars s) as [|y r]; [discriminate|].
    cbn [str.mem] in *. rewrite Hc. apply Bool.orb_true_r.
Qed.

Lemma strip_mem (chars s : string) (c : ascii) :
  str.mem c s = true ->
  str.mem c chars = true \/ str.mem c (str.strip chars s) = true.
Proof.
  intros H. unfold str.strip.
  destruct (lstrip_mem chars s c H) as [Hc|Hc]; [auto|].
  now apply rstrip_mem.
Qed.

Lemma startswith_cons (s p : string) (x : ascii) :
  str.startswith s (String x p) = true ->
  exists rest, s = String x rest /\ str.startswith rest p = true.
Proof.
  destruct s as [|y s]; [discriminate|]. cbn [str.startswith].
  rewrite Bool.andb_true_iff. intros [Hy Hs].
  apply Ascii.eqb_eq in Hy. subst y. now exists s.
Qed.

(** Deleting the occurrences of [old] deletes characters of [old]
    only. *)
Lemma replace_from_mem (old : string) (c : ascii) :
  old <> "" ->
  str.mem c old = false ->
  forall s suffix,
    str.startswith s suffix = true ->
    (forall d, str.mem d suffix = true -> str.mem d old = true) ->
    str.mem c s = true ->
    str.mem c (str.replace_from old "" (String.length suffix) s) = true.
Proof.
  intros Hne Hc. induction s as [|x s IH]; intros suffix Hsuf Hsub Hs;
    [discriminate|].
  destruct suffix as [|d suffix].
  - cbn [String.length str.replace_from].
    destruct (str.startswith (String x s) old) eqn:Hold.
    + destruct old as [|o old']; [contradiction|].
      destruct (startswith_cons _ _ _ Hold) as (rest & E & Hrest).
      injection E as -> ->.
      replace (String.length (String o old') - 1) with (String.length old')
        by (cbn [String.length]; lia).
      cbn [append]. cbn [str.mem] in Hs, Hc.
      apply Bool.orb_false_iff in Hc. destruct Hc as [Hco Hc'].
      rewrite Hco in Hs. cbn [orb] in Hs.
      apply (IH old' Hrest); [|exact Hs].
      intros e He. cbn [str.mem]. rewrite He. apply Bool.orb_true_r.
    + cbn [str.mem] in *. destruct (Ascii.eqb c x); [reflexivity|].
      cbn [orb] in *. apply (IH "" eq_refl); [discriminate|exact Hs].
  - destruct (startswith_cons _ _ _ Hsuf) as (rest & E & Hrest).
    injection E as -> ->. cbn [String.length str.replace_from].
    assert (str.mem d old = true) as Hd.
    { apply Hsub. cbn. now rewrite Ascii.eqb_refl. }
    cbn [str.mem] in Hs. destruct (Ascii.eqb_spec c d) as [->|_]; [congruence|].
    apply (IH suffix Hrest); [|exact Hs].
    intros e He. apply Hsub. cbn [str.mem]. rewrite He. apply Bool.orb_true_r.
Qed.

Lemma replace_mem (old s : string) (c : ascii) :
  old <> "" ->
  str.mem c s = true ->
  str.mem c old = true \/ str.mem c (str.replace old "" s) = true.
Proof.
  intros Hne Hs. destruct (str.mem c old) eqn:Hc; [auto|]. right.
  apply (replace_from_mem old c Hne Hc s "" ); [now destruct s|discriminate|exact Hs].
Qed.

Lemma scan16_mem (c : ascii) :
  forall s prev acc v prev' rest,
    builtins.scan16 prev acc s = Some (v, prev', rest) ->
    str.mem c s = true ->
    int_char c = true \/ str.mem c rest = true.
Proof.
  induction s as [|x s IH]; intros prev acc v prev' rest H Hs; [discriminate|].
  cbn [builtins.scan16] in H.
  destruct (Ascii.eqb_spec x "_") as [->|Hx].
  - destruct (Ascii.eqb prev "_"); [discriminate|].
    cbn [str.mem] in Hs. destruct (Ascii.eqb_spec c "_") as [->|_]; [now left|].
    exact (IH _ _ _ _ _ H Hs).
  - destruct (builtins.digit16 x) as [d|] eqn:Hd.
    + cbn [str.mem] in Hs. destruct (Ascii.eqb_spec c x) as [->|_].
      * left. unfold int_char, is_hex. rewrite Hd. apply Bool.orb_true_r.
      * exact (IH _ _ _ _ _ H Hs).
    + injection H as _ _ <-. now right.
Qed.

Lemma int16_chars (s : string) (v : Z) (c : ascii) :
  builtins.int16 s = Some v -> str.mem c s = true -> int_char c = true.
Proof.
  unfold builtins.int16. intros H Hs.
  assert (forall t, str.mem c t = true -> str.mem c builtins.whitespace = true ->
                    int_char c = true) as Hws.
  { intros _ _ Hw. unfold int_char. now rewrite Hw. }
  destruct (lstrip_mem builtins.whitespace s c Hs) as [Hw|Hs1];
    [now apply (Hws s)|].
  set (s1 := str.lstrip builtins.whitespace s) in *.
  assert (exists sign s2,
             (let '(sg, t) :=
                match s1 with
                | String "+" rest => (1%Z, rest)
                | String "-" rest => ((-1)%Z, rest)
                | _ => (1%Z, s1)
                end in (sg, t)) = (sign, s2)
             /\ (int_char c = true \/ str.mem c s2 = true)) as (sign & s2 & E & Hs2).
  { destruct s1 as [|x s1']; [discriminate|].
    destruct (Ascii.eqb_spec x "+") as [->|Hp].
    - do 2 eexists. split; [reflexivity|].
      cbn [str.mem] in Hs1. destruct (Ascii.eqb_spec c "+") as [->|_]; auto.
    - destruct (Ascii.eqb_spec x "-") as [->|Hm].
      + do 2 eexists. split; [reflexivity|].
        cbn [str.mem] in Hs1. destruct (Ascii.eqb_spec c "-") as [->|_]; auto.
      + exists 1%Z, (String x s1'). split; [|auto].
        destruct x as [[] [] [] [] [] [] [] []]; try reflexivity; congruence. }
  clearbody s1.
  destruct (match s1 with
            | String "+" rest => (1%Z, rest)
            | String "-" rest => ((-1)%Z, rest)
            | _ => (1%Z, s1)
            end) as [sg t].
  injection E as -> ->.
  destruct Hs2 as [Hs2|Hs2]; [exact Hs2|].
  set (s3 := match s2 with
             | String "0" (String x rest) =>
                 if (Ascii.eqb x "x" || Ascii.eqb x "X")%bool
                 then match rest with
                      | String "_" rest' => rest'
                      | _ => rest
                      end
                 else s2
             | _ => s2
             end) in *.
  assert (int_char c = true \/ str.mem c s3 = true) as Hs3.
  { subst s3. destruct s2 as [|a s2']; [auto|].
    destruct (Ascii.eqb_spec a "0") as [->|Ha].
    2:{ right. destruct a as [[] [] [] [] [] [] [] []]; try exact Hs2; congruence. }
    destruct s2' as [|x rest]; [auto|].
    destruct (Ascii.eqb x "x" || Ascii.eqb x "X")%bool eqn:Hx; [|auto].
    cbn [str.mem] in Hs2.
    destruct (Ascii.eqb_spec c "0") as [->|_]; [now left|].
    destruct (Ascii.eqb_spec c x) as [->|_].
    { left. apply Bool.orb_true_iff in Hx.
      destruct Hx as [Hx|Hx]; apply Ascii.eqb_eq in Hx; subst x; reflexivity. }
    cbn [orb] in Hs2. destruct rest as [|y rest']; [auto|].
    destruct (Ascii.eqb_spec y "_") as [->|Hy].
    - cbn [str.mem] in Hs2. destruct (Ascii.eqb_spec c "_") as [->|_]; auto.
    - right. destruct y as [[] [] [] [] [] [] [] []]; try exact Hs2; congruence. }
  clearbody s3. destruct Hs3 as [Hs3|Hs3]; [exact Hs3|].
  destruct (str.startswith s3 "_"); [discriminate|].
  destruct (builtins.scan16 zero 0 s3) as [[[v' prev] rest]|] eqn:Hscan;
    [|discriminate].
  destruct (scan16_mem c _ _ _ _ _ _ Hscan Hs3) as [Hc|Hrest]; [exact Hc|].
  destruct (Ascii.eqb prev "_" || Ascii.eqb prev zero)%bool; [discriminate|].
  destruct (String.eqb_spec (str.lstrip builtins.whitespace rest) "") as [Hr|];
    [|discriminate].
  destruct (lstrip_mem builtins.whitespace rest c Hrest) as [Hw|Hw].
  - now apply (Hws rest).
  - rewrite Hr in Hw. discriminate.
Qed.

Ltac mem_cases c :=
  cbn [str.mem];
  repeat (match goal with
          | |- context [Ascii.eqb c ?x] => destruct (Ascii.eqb c x); cbn [orb]
          end);
  intros; first [reflexivity | discriminate].

Lemma UUID_chars (hex : string) (id : uuid.t) (c : ascii) :
  uuid.UUID hex = Some id -> str.mem c hex = true -> uuid_char c = true.
Proof.
  unfold uuid.UUID, uuid_char. intros H Hc.
  destruct (negb _); [discriminate|].
  destruct (builtins.int16 _) as [i|] eqn:Hint; [|discriminate].
  clear H.
  destruct (replace_mem "urn:" hex c ltac:(discriminate) Hc) as [Hm|Hc1].
  { apply Bool.orb_true_iff. right. revert Hm. mem_cases c. }
  destruct (replace_mem "uuid:" _ c ltac:(discriminate) Hc1) as [Hm|Hc2].
  { apply Bool.orb_true_iff. right. revert Hm. mem_cases c. }
  destruct (strip_mem "{}" _ c Hc2) as [Hm|Hc3].
  { apply Bool.orb_true_iff. right. revert Hm. mem_cases c. }
  destruct (replace_mem "-" _ c ltac:(discriminate) Hc3) as [Hm|Hc4].
  { apply Bool.orb_true_iff. right. revert Hm. mem_cases c. }
  rewrite (int16_chars _ _ c Hint Hc4). reflexivity.
Qed.

(** An accepted project id holds none of the delimiters of a URI. *)
Lemma UUID_no_delimiter (hex : string) (id : uuid.t) :
  uuid.UUID hex = Some id ->
  str.all (fun c => negb (str.mem c "/?#[]")) hex = true.
Proof.
  intros H.
  assert (forall s, (forall c, str.mem c s = true -> uuid_char c = true) ->
                    str.all (fun c => negb (str.mem c "/?#[]")) s = true) as Hall.
  { induction s as [|x s IH]; intros Hs; [reflexivity|].
    cbn [str.all]. rewrite IH.
    - rewrite Bool.andb_true_r.
      assert (uuid_char x = true) as Hx.
      { apply Hs. cbn. now rewrite Ascii.eqb_refl. }
      destruct (str.mem x "/?#[]") eqn:Hd; [|reflexivity].
      exfalso. revert Hd Hx. cbn [str.mem].
      repeat (match goal with
              | |- context [Ascii.eqb x ?y] =>
                  destruct (Ascii.eqb_spec x y) as [->|_];
                  [vm_compute; intros _ F; discriminate F|]
              end).
      cbn. intros F. discriminate F.
    - intros c Hc. apply Hs. cbn [str.mem]. rewrite Hc. apply Bool.orb_true_r. }
  apply Hall. intros c Hc. exact (UUID_chars hex id c H Hc).
Qed.

(** ** The spellings the [UUID] constructor accepts *)

Lemma split_nonempty (c : ascii) (s : string) : str.split c s <> [].
Proof.
  destruct s as [|x s]; cbn [str.split]; [discriminate|].
  destruct (Ascii.eqb x c); [discriminate|].
  destruct (str.split c s); discriminate.
Qed.

Lemma split_join (c : ascii) (s : string) :
  String.concat (String c "") (str.split c s) = s.
Proof.
  induction s as [|x s IH]; [reflexivity|].
  cbn [str.split]. destruct (Ascii.eqb_spec x c) as [->|Hx].
  - destruct (str.split c s) as [|h t] eqn:E;
      [exfalso; exact (split_nonempty _ _ E)|].
    cbn [String.concat append] in *. now rewrite IH.
  - destruct (str.split c s) as [|h t] eqn:E;
      [exfalso; exact (split_nonempty _ _ E)|].
    destruct t; cbn [String.concat append] in *; now rewrite IH.
Qed.

Lemma all_mem_false (p : ascii -> bool) (s : string) (d : ascii) :
  str.all p s = true -> p d = false -> str.mem d s = false.
Proof.
  intros Hs Hd. induction s as [|c s IH]; [reflexivity|].
  cbn [str.all str.mem] in *. apply Bool.andb_true_iff in Hs. destruct Hs as [Hc Hs].
  rewrite (IH Hs), Bool.orb_false_r.
  destruct (Ascii.eqb_spec d c) as [->|]; [congruence|reflexivity].
Qed.

(** A string without the first character of [old] holds no
    occurrence of [old]. *)
Lemma replace_head_absent (a : ascii) (old new s : string) :
  str.mem a s = false -> str.replace (String a old) new s = s.
Proof.
  unfold str.replace. induction s as [|x s IH]; [reflexivity|].
  cbn [str.mem]. rewrite Bool.orb_false_iff. intros [Hx Hs].
  cbn [str.replace_from str.startswith].
  rewrite Ascii.eqb_sym, Hx. cbn [andb]. now rewrite (IH Hs).
Qed.

Lemma replace_cons_other (old new s : string) (x : ascii) :
  str.startswith (String x s) old = false ->
  str.replace old new (String x s) = String x (str.replace old new s).
Proof. intros H. unfold str.replace. cbn [str.replace_from]. now rewrite H. Qed.

Lemma lstrip_all_fixed (chars s : string) :
  str.all (fun c => negb (str.mem c chars)) s = true -> str.lstrip chars s = s.
Proof.
  destruct s as [|c s]; [reflexivity|]. cbn [str.all str.lstrip].
  rewrite Bool.andb_true_iff. intros [Hc _].
  apply Bool.negb_true_iff in Hc. now rewrite Hc.
Qed.

Lemma rstrip_all_fixed (chars s : string) :
  str.all (fun c => negb (str.mem c chars)) s = true -> str.rstrip chars s = s.
Proof.
  induction s as [|c s IH]; [reflexivity|]. cbn [str.all str.rstrip].
  rewrite Bool.andb_true_iff. intros [Hc Hs].
  apply Bool.negb_true_iff in Hc. rewrite (IH Hs), Hc. now destruct s.
Qed.

Lemma rstrip_app_empty (chars a b : string) :
  str.rstrip chars b = "" -> str.rstrip chars (a ++ b) = str.rstrip chars a.
Proof.
  intros Hb. induction a as [|x a IH]; [exact Hb|].
  cbn [append str.rstrip]. now rewrite IH.
Qed.

Lemma all_weaken (p q : ascii -> bool) (s : string) :
  (forall c, p c = true -> q c = true) ->
  str.all p s = true -> str.all q s = true.
Proof.
  intros Hpq. induction s as [|c s IH]; [reflexivity|]. cbn [str.all].
  rewrite !Bool.andb_true_iff. intros [Hc Hs]. auto.
Qed.

(** What a hexadecimal digit is not. *)
Lemma is_hex_char (c : ascii) :
  is_hex c = true ->
  str.mem c builtins.whitespace = false
  /\ str.mem c "+-_xXurn:i{}" = false
  /\ Ascii.eqb c zero = false
  /\ exists d, builtins.digit16 c = Some d /\ (0 <= d < 16)%Z.
Proof.
  intros H.
  destruct c as [[] [] [] [] [] [] [] []]; try discriminate H;
    (repeat split; try reflexivity; eexists; split; [vm_compute; reflexivity | lia]).
Qed.

(** The digit loop reads a string of hexadecimal digits to its end. *)
Lemma scan16_hex (s : string) :
  str.all is_hex s = true ->
  forall prev acc,
  exists v prev',
    builtins.scan16 prev acc s
    = Some ((acc * 16 ^ Z.of_nat (String.length s) + v)%Z, prev', "")
    /\ (0 <= v < 16 ^ Z.of_nat (String.length s))%Z
    /\ (s = "" -> prev' = prev)
    /\ (s <> "" -> is_hex prev' = true).
Proof.
  induction s as [|c s IH]; intros Hs prev acc.
  - exists 0%Z, prev. cbn. repeat split; try lia; try congruence.
    f_equal. f_equal. f_equal. lia.
  - cbn [str.all] in Hs. apply Bool.andb_true_iff in Hs. destruct Hs as [Hc Hs].
    destruct (is_hex_char c Hc) as (_ & Hm & _ & d & Hd & Hr).
    assert (Ascii.eqb c "_" = false) as Hu.
    { revert Hm. cbn [str.mem]. destruct (Ascii.eqb c "_"); [|reflexivity].
      rewrite !Bool.orb_true_r. now intros F. }
    cbn [builtins.scan16]. rewrite Hu, Hd.
    destruct (IH Hs c (acc * 16 + d)%Z) as (v & prev' & E & Hv & H0 & H1).
    exists (d * 16 ^ Z.of_nat (String.length s) + v)%Z, prev'.
    rewrite E.
    replace (Z.of_nat (String.length (String c s)))
      with (Z.of_nat (String.length s) + 1)%Z by (cbn [String.length]; lia).
    rewrite Z.pow_add_r by lia. change (16 ^ 1)%Z with 16%Z.
    assert (0 < 16 ^ Z.of_nat (String.length s))%Z as Hp by (apply Z.pow_pos_nonneg; lia).
    repeat split; try nia.
    + f_equal. f_equal. f_equal. ring.
    + discriminate.
    + intros _. destruct s as [|x s']; [|apply H1; discriminate].
      rewrite (H0 eq_refl). exact Hc.
Qed.

(** [int(s, 16)] of a string of hexadecimal digits. *)
Lemma int16_hex (s : string) :
  str.all is_hex s = true ->
  s <> "" ->
  exists v, builtins.int16 s = Some v /\ (0 <= v < 16 ^ Z.of_nat (String.length s))%Z.
Proof.
  intros Hs Hne.
  destruct (scan16_hex s Hs zero 0%Z) as (v & prev' & E & Hv & _ & Hp).
  specialize (Hp Hne).
  exists v. split; [|exact Hv].
  destruct s as [|c s']; [contradiction|].
  pose proof Hs as Hs0.
  cbn [str.all] in Hs0. apply Bool.andb_true_iff in Hs0. destruct Hs0 as [Hc Hs'].
  destruct (is_hex_char c Hc) as (Hw & Hm & _ & _).
  destruct (is_hex_char prev' Hp) as (_ & Hpm & Hpz & _).
  unfold builtins.int16.
  cbn [str.lstrip]. rewrite Hw.
  assert (match String c s' with
          | String "+" rest => (1%Z, rest)
          | String "-" rest => ((-1)%Z, rest)
          | _ => (1%Z, String c s')
          end = (1%Z, String c s')) as ->.
  { destruct c as [[] [] [] [] [] [] [] []]; try reflexivity; discriminate Hm. }
  assert (match String c s' with
          | String "0" (String x rest) =>
              if (Ascii.eqb x "x" || Ascii.eqb x "X")%bool
              then match rest with
                   | String "_" rest' => rest'
                   | _ => rest
                   end
              else String c s'
          | _ => String c s'
          end = String c s') as ->.
  { destruct s' as [|x rest].
    - destruct c as [[] [] [] [] [] [] [] []]; reflexivity.
    - cbn [str.all] in Hs'. apply Bool.andb_true_iff in Hs'. destruct Hs' as [Hx _].
      destruct (is_hex_char x Hx) as (_ & Hxm & _ & _).
      assert ((Ascii.eqb x "x" || Ascii.eqb x "X")%bool = false) as Hxx.
      { revert Hxm. cbn [str.mem].
        destruct (Ascii.eqb x "x"), (Ascii.eqb x "X"); cbn;
          rewrite ?Bool.orb_true_r; intros F; first [reflexivity | discriminate F]. }
      destruct c as [[] [] [] [] [] [] [] []]; try reflexivity.
      now rewrite Hxx. }
  assert (str.startswith (String c s') "_" = false) as ->.
  { cbn [str.startswith]. revert Hm. cbn [str.mem].
    destruct (Ascii.eqb c "_"); [|reflexivity].
    rewrite !Bool.orb_true_r. intros F; discriminate F. }
  rewrite E.
  assert (Ascii.eqb prev' "_" = false) as ->.
  { revert Hpm. cbn [str.mem]. destruct (Ascii.eqb prev' "_"); [|reflexivity].
    rewrite !Bool.orb_true_r. intros F; discriminate F. }
  rewrite Hpz. cbn [orb str.lstrip]. change ("" =? "") with true. cbv iota.
  f_equal. lia.
Qed.

(** The five groups of a canonical form. *)
Lemma canonical_groups (s : string) :
  canonical_uuid s = true ->
  exists a b c d e,
    s = a ++ "-" ++ b ++ "-" ++ c ++ "-" ++ d ++ "-" ++ e
    /\ hex_group 8 a = true /\ hex_group 4 b = true /\ hex_group 4 c = true
    /\ hex_group 4 d = true /\ hex_group 12 e = true.
Proof.
  unfold canonical_uuid. intros H. pose proof (split_join "-" s) as J.
  destruct (str.split "-" s) as [|a [|b [|c [|d [|e [|]]]]]]; try discriminate H.
  exists a, b, c, d, e. split; [now rewrite <- J|].
  do 4 (apply Bool.andb_true_iff in H; destruct H as [H ?]).
  repeat split; assumption.
Qed.

(** [UUID] on an argument whose prefix, braces and hyphens come off
    to 32 hexadecimal digits. *)
Lemma UUID_of_digits (hex h : string) :
  str.replace "-" ""
    (str.strip "{}" (str.replace "uuid:" "" (str.replace "urn:" "" hex))) = h ->
  hex_group 32 h = true ->
  exists v, builtins.int16 h = Some v /\ uuid.UUID hex = Some (uuid.mk v).
Proof.
  intros E Hh. unfold hex_group in Hh.
  apply Bool.andb_true_iff in Hh. destruct Hh as [Hl Hx].
  destruct (int16_hex h Hx) as (v & Hv & Hr).
  { intros ->. discriminate Hl. }
  exists v. split; [exact Hv|].
  unfold uuid.UUID. rewrite E, Hl, Hv. cbn [negb].
  apply Nat.eqb_eq in Hl. rewrite Hl in Hr.
  change (16 ^ Z.of_nat 32)%Z with (2 ^ 128)%Z in Hr.
  assert (((0 <=? v) && (v <? 2 ^ 128))%Z = true) as ->; [|reflexivity].
  apply Bool.andb_true_iff. split; [apply Z.leb_le | apply Z.ltb_lt]; lia.
Qed.

Lemma hex_group_absent (n : nat) (a : string) (x : ascii) :
  hex_group n a = true -> is_hex x = false -> str.mem x a = false.
Proof.
  unfold hex_group. rewrite Bool.andb_true_iff. intros [_ Ha] Hx.
  exact (all_mem_false is_hex a x Ha Hx).
Qed.

Lemma hex_group_app (n m : nat) (a b : string) :
  hex_group n a = true -> hex_group m b = true -> hex_group (n + m) (a ++ b) = true.
Proof.
  unfold hex_group. rewrite !Bool.andb_true_iff, !Nat.eqb_eq.
  intros [La Ha] [Lb Hb]. rewrite append_length, all_app, Ha, Hb. auto.
Qed.

(** The [UUID] constructor accepts the canonical form, and gives the
    same value for its digits without hyphens, for the form in braces
    and for the form with the prefix [urn:uuid:]. *)
Lemma UUID_spellings (s : string) :
  canonical_uuid s = true ->
  exists id,
    uuid.UUID s = Some id
    /\ uuid.UUID (str.replace "-" "" s) = Some id
    /\ uuid.UUID ("{" ++ s ++ "}") = Some id
    /\ uuid.UUID ("urn:uuid:" ++ s) = Some id.
Proof.
  intros H. destruct (canonical_groups s H) as (a & b & c & d & e & -> & Ha & Hb & Hc & Hd & He).
  set (s := a ++ "-" ++ b ++ "-" ++ c ++ "-" ++ d ++ "-" ++ e).
  set (h := a ++ b ++ c ++ d ++ e).
  assert (hex_group 32 h = true) as Hh.
  { unfold h. apply (hex_group_app 8 24 _ _ Ha), (hex_group_app 4 20 _ _ Hb),
      (hex_group_app 4 16 _ _ Hc), (hex_group_app 4 12 _ _ Hd), He. }
  assert (forall x, is_hex x = false -> Ascii.eqb x "-" = false -> str.mem x s = false)
    as Hs.
  { intros x Hx Hm. unfold s.
    rewrite !mem_app, (hex_group_absent _ a x Ha Hx), (hex_group_absent _ b x Hb Hx),
      (hex_group_absent _ c x Hc Hx), (hex_group_absent _ d x Hd Hx),
      (hex_group_absent _ e x He Hx).
    cbn [str.mem]. now rewrite Hm. }
  assert (forall x, is_hex x = false -> str.mem x h = false) as Hhx.
  { intros x Hx. unfold hex_group in Hh. apply Bool.andb_true_iff in Hh.
    exact (all_mem_false is_hex h x (proj2 Hh) Hx). }
  assert (str.replace "-" "" s = h) as Hrep.
  { unfold s, h. rewrite !replace_char_app.
    rewrite (replace_char_absent "-" a), (replace_char_absent "-" b),
      (replace_char_absent "-" c), (replace_char_absent "-" d),
      (replace_char_absent "-" e);
      try (eapply hex_group_absent; [eassumption | reflexivity]).
    reflexivity. }
  assert (str.all (fun x => negb (str.mem x "{}")) s = true) as Hbr.
  { assert (forall t, (forall x, str.mem x "{}" = true -> str.mem x t = false) ->
                      str.all (fun x => negb (str.mem x "{}")) t = true) as G.
    { induction t as [|y t IH]; intros Ht; [reflexivity|]. cbn [str.all].
      rewrite IH.
      - rewrite Bool.andb_true_r. destruct (str.mem y "{}") eqn:Hy; [|reflexivity].
        specialize (Ht y Hy). cbn in Ht. now rewrite Ascii.eqb_refl in Ht.
      - intros x Hx. specialize (Ht x Hx). cbn [str.mem] in Ht.
        now apply Bool.orb_false_iff in Ht. }
    apply G. intros x Hx.
    assert (x = "{"%char \/ x = "}"%char) as [E|E].
    { cbn [str.mem] in Hx. destruct (Ascii.eqb_spec x "{"); [now left|].
      destruct (Ascii.eqb_spec x "}"); [now right|discriminate]. }
    all: subst x; now apply Hs. }
  assert (exists y s', s = String y s' /\ is_hex y = true) as (y & s' & Es & Hy).
  { unfold s. unfold hex_group in Ha. apply Bool.andb_true_iff in Ha.
    destruct Ha as [La Xa]. destruct a as [|y a']; [discriminate La|].
    cbn [str.all] in Xa. apply Bool.andb_true_iff in Xa.
    exists y. eexists. split; [reflexivity|tauto]. }
  destruct (UUID_of_digits s h) as (v & Hv & E1).
  { rewrite (replace_head_absent "u" "rn:" "" s) by (now apply Hs).
    rewrite (replace_head_absent "u" "uid:" "" s) by (now apply Hs).
    unfold str.strip. rewrite (lstrip_all_fixed _ _ Hbr), (rstrip_all_fixed _ _ Hbr).
    exact Hrep. }
  { exact Hh. }
  exists (uuid.mk v). split; [exact E1|].
  assert (forall x, str.replace "-" ""
                      (str.strip "{}" (str.replace "uuid:" "" (str.replace "urn:" "" x)))
                    = h ->
                    uuid.UUID x = Some (uuid.mk v)) as G.
  { intros x Ex. destruct (UUID_of_digits x h Ex Hh) as (v' & Hv' & ->).
    congruence. }
  split; [|split]; apply G.
  - rewrite Hrep.
    rewrite (replace_head_absent "u" "rn:" "" h) by (now apply Hhx).
    rewrite (replace_head_absent "u" "uid:" "" h) by (now apply Hhx).
    assert (str.all (fun x => negb (str.mem x "{}")) h = true) as Hbh.
    { unfold hex_group in Hh. apply Bool.andb_true_iff in Hh.
      apply (all_weaken is_hex _ h); [|exact (proj2 Hh)].
      intros x Hx. destruct (is_hex_char x Hx) as (_ & Hm & _).
      revert Hm. cbn [str.mem].
      destruct (Ascii.eqb x "{"), (Ascii.eqb x "}"); cbn;
        rewrite ?Bool.orb_true_r; intros F; first [reflexivity | discriminate F]. }
    unfold str.strip. rewrite (lstrip_all_fixed _ _ Hbh), (rstrip_all_fixed _ _ Hbh).
    apply replace_char_absent, Hhx. reflexivity.
  - rewrite (replace_head_absent "u" "rn:" "" ("{" ++ s ++ "}"))
      by (cbn [append str.mem]; rewrite mem_app, Hs by reflexivity; reflexivity).
    rewrite (replace_head_absent "u" "uid:" "" ("{" ++ s ++ "}"))
      by (cbn [append str.mem]; rewrite mem_app, Hs by reflexivity; reflexivity).
    unfold str.strip. cbn [append str.lstrip str.mem Ascii.eqb orb].
    change (Ascii.eqb "{" "{") with true. cbn [orb].
    rewrite Es. cbn [append str.lstrip].
    assert (str.mem y "{}" = false) as ->.
    { destruct (is_hex_char y Hy) as (_ & Hm & _). revert Hm. cbn [str.mem].
      destruct (Ascii.eqb y "{"), (Ascii.eqb y "}"); cbn;
        rewrite ?Bool.orb_true_r; intros F; first [reflexivity | discriminate F]. }
    change (String y (s' ++ "}")) with (String y s' ++ "}"). rewrite <- Es.
    rewrite (rstrip_app_empty "{}" s "}" eq_refl), (rstrip_all_fixed _ _ Hbr).
    exact Hrep.
  - assert (str.replace "urn:" "" ("urn:uuid:" ++ s) = "uuid:" ++ s) as ->.
    { unfold str.replace. cbn [append str.replace_from str.startswith String.length Nat.sub].
      change (Ascii.eqb "u" "u") with true. change (Ascii.eqb "r" "r") with true.
      change (Ascii.eqb "n" "n") with true. change (Ascii.eqb ":" ":") with true.
      cbn [andb append].
      change (Ascii.eqb "u" "r") with false. change (Ascii.eqb "i" "u") with false.
      change (Ascii.eqb "d" "u") with false. change (Ascii.eqb ":" "u") with false.
      cbn [andb].
      fold (str.replace "urn:" "" s).
      rewrite (replace_head_absent "u" "rn:" "" s) by (now apply Hs).
      reflexivity. }
    assert (str.replace "uuid:" "" ("uuid:" ++ s) = s) as ->.
    { unfold str.replace. cbn [append str.replace_from str.startswith String.length Nat.sub].
      change (Ascii.eqb "u" "u") with true. change (Ascii.eqb "i" "i") with true.
      change (Ascii.eqb "d" "d") with true. change (Ascii.eqb ":" ":") with true.
      cbn [andb append].
      fold (str.replace "uuid:" "" s).
      apply replace_head_absent. now apply Hs. }
    unfold str.strip. rewrite (lstrip_all_fixed _ _ Hbr), (rstrip_all_fixed _ _ Hbr).
    exact Hrep.
Qed.

Lemma init_raises (uri : string) (parsed : urllib_parse.ParseResult) :
  urllib_parse.urlparse uri = ok parsed ->
  (urllib_parse.scheme parsed <> "faculty-datasets" ->
   __init__ uri = raise (InvalidScheme uri))
  /\ (urllib_parse.scheme parsed = "faculty-datasets" ->
      urllib_parse.netloc parsed <> "" ->
      __init__ uri
      = raise (ReservedNetloc uri (urllib_parse.netloc parsed)
                 (urllib_parse.path parsed)))
  /\ (urllib_parse.scheme parsed = "faculty-datasets" ->
      urllib_parse.netloc parsed = "" ->
      uuid.UUID (first_part (urllib_parse.path parsed)) = None ->
      __init__ uri
      = raise (InvalidProjectId (first_part (urllib_parse.path parsed)) uri)).
Proof.
  intros Hp. unfold __init__. rewrite Hp. unfold ok, init_parsed.
  split; [|split].
  - intros Hs. apply String.eqb_neq in Hs. now rewrite Hs.
  - intros Hs Hn. apply String.eqb_eq in Hs. apply String.eqb_neq in Hn.
    now rewrite Hs, Hn.
  - intros Hs Hn Hu. apply String.eqb_eq in Hs. apply String.eqb_eq in Hn.
    now rewrite Hs, Hn, Hu.
Qed.

Lemma remove_unsafe_delimiter (d : ascii) (s : string) :
  str.mem d "/?#" = true ->
  str.mem d (urllib_parse.remove_unsafe s) = str.mem d s.
Proof.
  intros Hd. rewrite remove_unsafe_mem.
  destruct (str.mem d (String "009" (String "013" (String "010" "")))) eqn:E;
    [|reflexivity].
  exfalso. revert Hd E. cbn [str.mem].
  repeat (match goal with
          | |- context [Ascii.eqb d ?y] =>
              destruct (Ascii.eqb_spec d y) as [->|_];
              [vm_compute; intros F G; discriminate|]
          end).
  cbn. intros F. discriminate F.
Qed.

(** Construction from [faculty-datasets:<u>/<t>], for a first segment
    [u] that the [UUID] constructor accepts once [urlsplit] has
    removed tabs and line breaks, and a root path [t] whose trailing
    slashes come off to ["/" ++ t']. *)
Lemma init_faculty_segment (u t t' : string) (id : uuid.t) :
  uuid.UUID (urllib_parse.remove_unsafe u) = Some id ->
  str.mem "#" t = false ->
  str.mem "?" t = false ->
  str.rstrip "/" (String "/" (urllib_parse.remove_unsafe t)) = String "/" t' ->
  __init__ ("faculty-datasets:" ++ u ++ String "/" t)
  = ok {| artifact_uri := "faculty-datasets:" ++ u ++ String "/" t;
          project_id := id;
          datasets_artifact_root := "/" ++ t' ++ "/" |}.
Proof.
  intros Hid Hf Hq Ht.
  pose proof (UUID_no_delimiter _ id Hid) as Hu.
  pose proof (all_not_mem _ _ "/" Hu eq_refl) as Hu1.
  pose proof (all_not_mem _ _ "?" Hu eq_refl) as Hu2.
  pose proof (all_not_mem _ _ "#" Hu eq_refl) as Hu3.
  rewrite (remove_unsafe_delimiter "?" u eq_refl) in Hu2.
  rewrite (remove_unsafe_delimiter "#" u eq_refl) in Hu3.
  assert (urllib_parse.remove_unsafe u <> "") as Hne
    by (intros E; rewrite E in Hid; vm_compute in Hid; discriminate).
  unfold __init__.
  rewrite urlparse_faculty.
  - change (String "/" t) with ("/" ++ t). rewrite remove_unsafe_seg.
    unfold init_parsed, ok.
    cbn [urllib_parse.scheme urllib_parse.netloc urllib_parse.path].
    change ("faculty-datasets" =? "faculty-datasets") with true.
    change ("" =? "") with true. cbn [negb].
    change ("/" ++ urllib_parse.remove_unsafe t)
      with (String "/" (urllib_parse.remove_unsafe t)).
    destruct (first_part_remainder _ _ t' Hne Hu1 Ht) as [-> ->].
    rewrite Hid. reflexivity.
  - change (String "/" t) with ("/" ++ t). rewrite remove_unsafe_seg.
    destruct (urllib_parse.remove_unsafe u) as [|c u']; [contradiction|].
    cbn in Hu1 |- *. apply Bool.orb_false_iff in Hu1. destruct Hu1 as [Hc _].
    rewrite Ascii.eqb_sym, Hc. reflexivity.
  - rewrite mem_app, Hu3. exact Hf.
  - rewrite mem_app, Hu2. exact Hq.
Qed.

(** C1 (amended). Construction succeeds exactly when [urlparse] gives
    the scheme ["faculty-datasets"], an empty netloc, and a path whose
    first segment (after stripping slashes at both ends and appending
    one) is accepted by the [UUID] constructor; the stored root is
    then ["/"] followed by everything after that segment.  When
    [urlparse] raises, that error is the outcome; otherwise the first
    check that fails, in the order scheme, netloc, project id, raises
    its error.  The [UUID] constructor accepts every canonical form,
    and with the same value its digits without hyphens, the form in
    braces and the form with the prefix [urn:uuid:]. *)
Theorem init_outcome :
  (forall uri,
      (forall self,
          __init__ uri = ok self <->
          exists parsed id,
            urllib_parse.urlparse uri = ok parsed
            /\ urllib_parse.scheme parsed = "faculty-datasets"
            /\ urllib_parse.netloc parsed = ""
            /\ uuid.UUID (first_part (urllib_parse.path parsed)) = Some id
            /\ self = {| artifact_uri := uri;
                         project_id := id;
                         datasets_artifact_root :=
                           "/" ++ remainder (urllib_parse.path parsed) |})
      /\ (forall e,
             urllib_parse.urlparse uri = raise e -> __init__ uri = raise e)
      /\ (forall parsed,
             urllib_parse.urlparse uri = ok parsed ->
             (urllib_parse.scheme parsed <> "faculty-datasets" ->
              __init__ uri = raise (InvalidScheme uri))
             /\ (urllib_parse.scheme parsed = "faculty-datasets" ->
                 urllib_parse.netloc parsed <> "" ->
                 __init__ uri
                 = raise (ReservedNetloc uri (urllib_parse.netloc parsed)
                            (urllib_parse.path parsed)))
             /\ (urllib_parse.scheme parsed = "faculty-datasets" ->
                 urllib_parse.netloc parsed = "" ->
                 uuid.UUID (first_part (urllib_parse.path parsed)) = None ->
                 __init__ uri
                 = raise (InvalidProjectId (first_part (urllib_parse.path parsed)) uri))
             /\ str.strip "/" (urllib_parse.path parsed) ++ "/"
                = first_part (urllib_parse.path parsed) ++ "/"
                  ++ remainder (urllib_parse.path parsed)
             /\ str.contains "/" (first_part (urllib_parse.path parsed)) = false))
  /\ (forall s,
         canonical_uuid s = true ->
         exists id,
           uuid.UUID s = Some id
           /\ uuid.UUID (str.replace "-" "" s) = Some id
           /\ uuid.UUID ("{" ++ s ++ "}") = Some id
           /\ uuid.UUID ("urn:uuid:" ++ s) = Some id).
Proof.
  split; [|exact UUID_spellings].
  intros uri. split; [|split].
  - intros self. rewrite init_ok_parsed. split.
    + intros (parsed & Hp & H). apply init_parsed_ok in H.
      destruct H as (id & H). exists parsed, id. tauto.
    + intros (parsed & id & Hp & H). exists parsed. split; [exact Hp|].
      apply init_parsed_ok. exists id. exact H.
  - intros e He. unfold __init__. now rewrite He.
  - intros parsed Hp. destruct (init_raises uri parsed Hp) as (H1 & H2 & H3).
    split; [exact H1|]. split; [exact H2|]. split; [exact H3|].
    split; apply cleaned_path_split.
Qed.

Lemma init_outcome_witness :
  __init__ ARTIFACT_URI = ok test_repo
  /\ __init__ "wrong-schema:" = raise (InvalidScheme "wrong-schema:")
  /\ __init__ "faculty-datasets:invalid-uri"
     = raise (InvalidProjectId "invalid-uri" "faculty-datasets:invalid-uri")
  /\ __init__ "faculty-datasets://[abc/x" = raise (ValueError "Invalid IPv6 URL")
  /\ exists id,
       uuid.UUID PROJECT_ID = Some id
       /\ uuid.UUID (str.replace "-" "" PROJECT_ID) = Some id
       /\ uuid.UUID ("{" ++ PROJECT_ID ++ "}") = Some id
       /\ uuid.UUID ("urn:uuid:" ++ PROJECT_ID) = Some id.
Proof.
  split; [|split; [|split; [|split]]].
  - apply (proj1 (proj1 init_outcome ARTIFACT_URI)).
    eexists _, PROJECT_UUID. repeat split; vm_compute; reflexivity.
  - refine (proj1 (proj2 (proj2 (proj1 init_outcome "wrong-schema:"))
              (urllib_parse.Build_ParseResult "wrong-schema" "" "" "" "" "") _) _).
    + vm_compute. reflexivity.
    + discriminate.
  - refine (proj1 (proj2 (proj2 (proj2 (proj2 (proj1 init_outcome
                                                  "faculty-datasets:invalid-uri"))
              (urllib_parse.Build_ParseResult "faculty-datasets" "" "invalid-uri" "" "" "")
              _))) _ _ _);
      vm_compute; reflexivity.
  - apply (proj1 (proj2 (proj1 init_outcome "faculty-datasets://[abc/x"))).
    vm_compute. reflexivity.
  - apply (proj2 init_outcome PROJECT_ID). vm_compute. reflexivity.
Defined.

(** C1, as stated, fails: a first segment of 32 hexadecimal digits
    without hyphens is not in canonical form, and construction
    accepts it. *)
Lemma init_accepts_hyphenless_uuid :
  canonical_uuid "0123456789abcdef0123456789abcdef" = false
  /\ first_part "0123456789abcdef0123456789abcdef/x"
     = "0123456789abcdef0123456789abcdef"
  /\ __init__ "faculty-datasets:0123456789abcdef0123456789abcdef/x"
     = ok {| artifact_uri := "faculty-datasets:0123456789abcdef0123456789abcdef/x";
             project_id := uuid.mk 1512366075204170929049582354406559215;
             datasets_artifact_root := "/x/" |}.
Proof. repeat split; vm_compute; reflexivity. Qed.

(** C5. After the same project id, the root spelled
    ["path/in/datasets"] and the root spelled ["path/in/datasets/"]
    are stored as ["/path/in/datasets/"], for every first segment
    that the [UUID] constructor accepts as [urlparse] hands it on
    (tabs and line breaks removed); every stored root starts with a
    slash. *)
Theorem init_root_spelling :
  (forall u id,
      uuid.UUID (urllib_parse.remove_unsafe u) = Some id ->
      __init__ ("faculty-datasets:" ++ u ++ "/path/in/datasets")
      = ok {| artifact_uri := "faculty-datasets:" ++ u ++ "/path/in/datasets";
              project_id := id;
              datasets_artifact_root := "/path/in/datasets/" |}
      /\ __init__ ("faculty-datasets:" ++ u ++ "/path/in/datasets/")
         = ok {| artifact_uri := "faculty-datasets:" ++ u ++ "/path/in/datasets/";
                 project_id := id;
                 datasets_artifact_root := "/path/in/datasets/" |})
  /\ (forall uri self,
         __init__ uri = ok self ->
         str.startswith (datasets_artifact_root self) "/" = true).
Proof.
  split.
  - intros u id Hid. split.
    + apply (init_faculty_segment u "path/in/datasets" "path/in/datasets" id Hid);
        reflexivity.
    + apply (init_faculty_segment u "path/in/datasets/" "path/in/datasets" id Hid);
        reflexivity.
  - intros uri self H. apply init_root_shape in H.
    destruct H as (r & -> & _). reflexivity.
Qed.

Lemma init_root_spelling_witness :
  __init__ ("faculty-datasets:" ++ PROJECT_ID ++ "/path/in/datasets")
  = ok {| artifact_uri := "faculty-datasets:" ++ PROJECT_ID ++ "/path/in/datasets";
          project_id := PROJECT_UUID;
          datasets_artifact_root := "/path/in/datasets/" |}
  /\ __init__ ("faculty-datasets:" ++ PROJECT_ID ++ "/path/in/datasets/")
     = ok {| artifact_uri := "faculty-datasets:" ++ PROJECT_ID ++ "/path/in/datasets/";
             project_id := PROJECT_UUID;
             datasets_artifact_root := "/path/in/datasets/" |}.
Proof.
  apply (proj1 init_root_spelling PROJECT_ID PROJECT_UUID). vm_compute. reflexivity.
Defined.




(** ** Paths *)

Lemma split_app_sep (c : ascii) (a b : string) :
  str.split c (a ++ String c b) = (str.split c a ++ str.split c b)%list.
Proof.
  induction a as [|x a IH]; cbn [append str.split].
  - now rewrite Ascii.eqb_refl.
  - destruct (Ascii.eqb x c); rewrite IH; [reflexivity|].
    destruct (str.split c a) as [|h t] eqn:E; [|reflexivity].
    exfalso. exact (split_nonempty c a E).
Qed.

Lemma split_absent (c : ascii) (s : string) :
  str.mem c s = false -> str.split c s = [s].
Proof.
  induction s as [|x s IH]; cbn [str.mem str.split]; [reflexivity|].
  rewrite Bool.orb_false_iff. intros [Hx Hs].
  rewrite Ascii.eqb_sym, Hx, (IH Hs). reflexivity.
Qed.

Lemma split_lstrip_forallb (P : string -> bool) (s : string) :
  List.forallb P (str.split "/" s) = true ->
  List.forallb P (str.split "/" (str.lstrip "/" s)) = true.
Proof.
  induction s as [|c s IH]; [auto|].
  cbn [str.lstrip str.mem]. rewrite Bool.orb_false_r.
  destruct (Ascii.eqb_spec c "/") as [->|Hc]; [|auto].
  cbn [str.split]. rewrite Ascii.eqb_refl. cbn [List.forallb].
  rewrite Bool.andb_true_iff. intros [_ H]. exact (IH H).
Qed.

(** What follows the last separator holds no separator. *)
Lemma rfind_drop (c : ascii) (p : string) :
  (-1 <= str.rfind c p)%Z
  /\ str.mem c (str.drop (Z.to_nat (str.rfind c p + 1)) p) = false.
Proof.
  induction p as [|d p [Hi Hm]]; cbn [str.rfind]; [split; [lia|reflexivity]|].
  destruct (str.rfind c p) as [|i|i] eqn:E.
  - split; [lia|]. exact Hm.
  - split; [lia|].
    replace (Z.to_nat (Z.pos i + 1 + 1)) with (S (Z.to_nat (Z.pos i + 1))) by lia.
    exact Hm.
  - assert (Z.neg i = (-1)%Z) as Ei by lia. rewrite Ei in Hm. cbn in Hm.
    destruct (Ascii.eqb_spec d c) as [->|Hd].
    + split; [lia|]. exact Hm.
    + split; [lia|]. cbn. rewrite Hm, Bool.orb_false_r.
      apply Ascii.eqb_neq. congruence.
Qed.

Lemma basename_no_slash (p : string) : str.mem "/" (posixpath.basename p) = false.
Proof. apply rfind_drop. Qed.

Lemma startswith_mem (s : string) (c : ascii) :
  str.mem c s = false -> str.startswith s (String c "") = false.
Proof.
  destruct s as [|d s]; [reflexivity|]. cbn.
  rewrite Bool.orb_false_iff. intros [H _].
  rewrite Ascii.eqb_sym, H. reflexivity.
Qed.

Lemma startswith_app (a b : string) : str.startswith (a ++ b) a = true.
Proof. induction a as [|x a IH]; cbn; [reflexivity|]. now rewrite Ascii.eqb_refl. Qed.

Lemma endswith_app_slash (a : string) : str.endswith (a ++ "/") "/" = true.
Proof.
  induction a as [|x a IH]; [reflexivity|].
  cbn [append str.endswith]. rewrite IH. apply Bool.orb_true_r.
Qed.

Lemma endswith_app_nonempty (a b : string) :
  b <> "" -> str.endswith (a ++ b) "/" = str.endswith b "/".
Proof.
  intros Hb. induction a as [|x a IH]; [reflexivity|].
  cbn [append str.endswith]. rewrite IH.
  assert ((String x (a ++ b) =? "/") = false) as ->; [|reflexivity].
  apply String.eqb_neq. intros E. injection E as _ E.
  apply append_eq_empty in E. tauto.
Qed.

Lemma repeat_snoc (c : ascii) (n : nat) :
  str.repeat c (S n) = str.repeat c n ++ String c "".
Proof. induction n as [|n IH]; [reflexivity|]. cbn in *. now rewrite IH. Qed.

Lemma repeat_add (c : ascii) (n m : nat) :
  str.repeat c (n + m) = str.repeat c n ++ str.repeat c m.
Proof. induction n as [|n IH]; [reflexivity|]. cbn. now rewrite IH. Qed.

(** [join] when the second component does not start with a slash. *)
Lemma join_relative (a b : string) :
  str.startswith b "/" = false ->
  posixpath.join a b
  = if ((a =? "") || str.endswith a "/")%bool then a ++ b else a ++ "/" ++ b.
Proof. unfold posixpath.join. now intros ->. Qed.

Lemma join_root (root x : string) :
  str.endswith root "/" = true ->
  str.startswith x "/" = false ->
  posixpath.join root x = root ++ x.
Proof. intros Hr Hx. rewrite join_relative, Hr, Bool.orb_true_r; auto. Qed.

(** The count of leading slashes looks at three characters. *)
Lemma initial_slashes_app (root x : string) :
  root_shape root ->
  str.startswith x "/" = false ->
  posixpath.initial_slashes (root ++ x) = posixpath.initial_slashes root.
Proof.
  intros (r & -> & Hr) Hx.
  destruct Hr as [->|(r' & ->)].
  - destruct x as [|c x]; [reflexivity|].
    cbn in Hx. rewrite Bool.andb_true_r in Hx.
    unfold posixpath.initial_slashes. cbn. rewrite Hx. reflexivity.
  - destruct r' as [|c [|d r']].
    + destruct x as [|e x]; [reflexivity|].
      cbn in Hx. rewrite Bool.andb_true_r in Hx.
      unfold posixpath.initial_slashes. cbn. rewrite Hx. reflexivity.
    + reflexivity.
    + reflexivity.
Qed.

Lemma root_shape_slash (root : string) :
  root_shape root ->
  str.startswith root "/" = true
  /\ exists R, root = R ++ "/".
Proof.
  intros (r & -> & Hr). split; [reflexivity|].
  destruct Hr as [->|(r' & ->)].
  - now exists "".
  - now exists ("/" ++ r').
Qed.

Lemma initial_slashes_absolute (p : string) :
  str.startswith p "/" = true ->
  posixpath.initial_slashes p = 1 \/ posixpath.initial_slashes p = 2.
Proof.
  unfold posixpath.initial_slashes. intros ->.
  destruct (_ && _)%bool; auto.
Qed.

Lemma normpath_absolute (p : string) :
  str.startswith p "/" = true ->
  posixpath.normpath p
  = str.repeat "/" (posixpath.initial_slashes p)
    ++ str.join "/" (norm_comps (posixpath.initial_slashes p) (str.split "/" p)).
Proof.
  intros Hp. unfold posixpath.normpath, norm_comps.
  destruct p as [|c p]; [discriminate|].
  assert ((String c p =? "") = false) as -> by reflexivity.
  fold posixpath.sep.
  destruct (initial_slashes_absolute _ Hp) as [-> | ->]; reflexivity.
Qed.

Lemma normpath_step_blank (initial : nat) (st : list string) (comp : string) :
  blank comp = true -> posixpath.normpath_step initial st comp = st.
Proof. unfold posixpath.normpath_step, blank. now intros ->. Qed.

Lemma normpath_step_name (initial : nat) (st : list string) (comp : string) :
  blank comp = false -> (comp =? "..") = false ->
  posixpath.normpath_step initial st comp = (st ++ [comp])%list.
Proof. unfold posixpath.normpath_step, blank. now intros -> ->. Qed.

(** Without a [".."] the loop only appends. *)
Lemma fold_no_dotdot (initial : nat) (comps st : list string) :
  List.forallb (fun c => negb (c =? "..")) comps = true ->
  List.fold_left (posixpath.normpath_step initial) comps st
  = (st ++ List.filter (fun c => negb (blank c)) comps)%list.
Proof.
  revert st. induction comps as [|c comps IH]; intros st H; cbn [List.fold_left List.filter].
  - now rewrite app_nil_r.
  - cbn [List.forallb] in H. apply Bool.andb_true_iff in H. destruct H as [Hc H].
    apply Bool.negb_true_iff in Hc.
    destruct (blank c) eqn:Hb; cbn [negb].
    + rewrite normpath_step_blank by exact Hb. exact (IH st H).
    + rewrite normpath_step_name by assumption.
      rewrite (IH _ H), <- app_assoc. reflexivity.
Qed.

Lemma join_app (sep : string) (l1 l2 : list string) :
  l1 <> [] -> l2 <> [] ->
  str.join sep (l1 ++ l2)%list = str.join sep l1 ++ sep ++ str.join sep l2.
Proof.
  unfold str.join. intros H1 H2.
  induction l1 as [|x l1 IH]; [contradiction|].
  destruct l1 as [|y l1].
  - cbn [app String.concat]. destruct l2; [contradiction|reflexivity].
  - change ((x :: y :: l1) ++ l2)%list with (x :: ((y :: l1) ++ l2))%list.
    cbn [String.concat app]. cbn [String.concat app] in IH.
    rewrite IH by discriminate. now rewrite !append_assoc.
Qed.

(** The normalized root and the normalized path under it come from
    the same stack of components. *)
Lemma normpath_under_root (root : string) :
  root_shape root ->
  (posixpath.initial_slashes root = 1 \/ posixpath.initial_slashes root = 2)
  /\ posixpath.normpath root
     = str.repeat "/" (posixpath.initial_slashes root)
       ++ str.join "/" (root_stack root)
  /\ forall x,
       str.startswith x "/" = false ->
       posixpath.join root x = root ++ x
       /\ posixpath.normpath (root ++ x)
          = str.repeat "/" (posixpath.initial_slashes root)
            ++ str.join "/"
                 (List.fold_left
                    (posixpath.normpath_step (posixpath.initial_slashes root))
                    (str.split "/" x) (root_stack root)).
Proof.
  intros Hshape. destruct (root_shape_slash root Hshape) as (Hstart & R & HR).
  split; [now apply initial_slashes_absolute|]. split.
  - now apply normpath_absolute.
  - intros x Hx. split.
    + apply join_root; [|exact Hx]. rewrite HR. apply endswith_app_slash.
    + rewrite normpath_absolute.
      2:{ rewrite HR in *. destruct R; [reflexivity|]. cbn in Hstart |- *.
          exact Hstart. }
      rewrite (initial_slashes_app root x Hshape Hx). do 2 f_equal.
      unfold root_stack, norm_comps.
      remember (posixpath.initial_slashes root) as k eqn:Hk.
      assert (str.split "/" (root ++ x)
              = (str.split "/" R ++ str.split "/" x)%list) as ->.
      { rewrite HR, append_assoc. cbn [append]. apply split_app_sep. }
      assert (str.split "/" root = (str.split "/" R ++ [""])%list) as ->.
      { rewrite HR. apply (split_app_sep "/" R ""). }
      rewrite !List.fold_left_app. reflexivity.
Qed.

(** ** Dataset paths *)

Lemma datasets_path_unfold (uri : string) (self : FacultyDatasetsArtifactRepository)
    (artifact_path : string) :
  __init__ uri = ok self ->
  _datasets_path self artifact_path
  = str.repeat "/" (posixpath.initial_slashes (datasets_artifact_root self))
    ++ str.join "/"
         (List.fold_left
            (posixpath.normpath_step
               (posixpath.initial_slashes (datasets_artifact_root self)))
            (str.split "/" (str.lstrip "/" artifact_path))
            (root_stack (datasets_artifact_root self)))
  /\ _datasets_path self artifact_path
     = posixpath.normpath (datasets_artifact_root self ++ str.lstrip "/" artifact_path).
Proof.
  intros H. apply init_root_shape in H.
  destruct (normpath_under_root _ H) as (_ & _ & Hx).
  destruct (Hx (str.lstrip "/" artifact_path) (lstrip_not_slash _)) as [Hj Hn].
  unfold _datasets_path. rewrite Hj. split; [exact Hn|reflexivity].
Qed.

(** C7 (amended). [log_artifacts] uploads to the normalized join of
    the stored root and the destination path, with no base name
    appended; with the destination [None] or ["./"] that is the
    normalized root, which is the root without its trailing slash
    when the root is its own normalization followed by a slash. *)
Theorem log_artifacts_destination (Store : Type) (uri : string)
    (self : FacultyDatasetsArtifactRepository) (local_dir : string)
    (w : world Store) :
  __init__ uri = ok self ->
  (forall artifact_path,
      log_artifacts self local_dir artifact_path w
      = log (datasets_put local_dir
               (posixpath.normpath
                  (posixpath.join (datasets_artifact_root self)
                     (str.lstrip "/" (effective_path artifact_path))))
               (project_id self)) w)
  /\ log_artifacts self local_dir None w
     = log (datasets_put local_dir
              (posixpath.normpath (datasets_artifact_root self))
              (project_id self)) w
  /\ log_artifacts self local_dir (Some "./") w
     = log_artifacts self local_dir None w
  /\ (datasets_artifact_root self
      = posixpath.normpath (datasets_artifact_root self) ++ "/" ->
      exists d,
        log_artifacts self local_dir None w
        = log (datasets_put local_dir d (project_id self)) w
        /\ d ++ "/" = datasets_artifact_root self).
Proof.
  intros H.
  assert (log_artifacts self local_dir None w
          = log (datasets_put local_dir
                   (posixpath.normpath (datasets_artifact_root self))
                   (project_id self)) w) as Hnone.
  { unfold log_artifacts. do 2 f_equal.
    destruct (datasets_path_unfold uri self "./" H) as [-> _].
    apply init_root_shape in H.
    destruct (normpath_under_root _ H) as (_ & -> & _).
    reflexivity. }
  split; [|split; [|split]].
  - intros [p|]; reflexivity.
  - exact Hnone.
  - reflexivity.
  - intros Hroot. eexists. split; [exact Hnone|]. now rewrite <- Hroot.
Qed.

Lemma log_artifacts_destination_witness :
  log_artifacts test_repo "/local/dir" None empty_world
  = log (datasets_put "/local/dir" "/path/in/datasets" PROJECT_UUID) empty_world.
Proof.
  exact (proj1 (proj2 (log_artifacts_destination unit ARTIFACT_URI test_repo
                         "/local/dir" empty_world test_repo_init))).
Defined.

(** C7, as stated, fails for a root that is not in normal form and
    for the root ["/"]: the destination is the normalized root, not
    the root without its trailing slash. *)
Lemma log_artifacts_normalizes_root :
  __init__ ("faculty-datasets:" ++ PROJECT_ID ++ "/a//b")
  = ok {| artifact_uri := "faculty-datasets:" ++ PROJECT_ID ++ "/a//b";
          project_id := PROJECT_UUID;
          datasets_artifact_root := "/a//b/" |}
  /\ log_artifacts
       {| artifact_uri := "faculty-datasets:" ++ PROJECT_ID ++ "/a//b";
          project_id := PROJECT_UUID;
          datasets_artifact_root := "/a//b/" |}
       "/local/dir" None empty_world
     = log (datasets_put "/local/dir" "/a/b" PROJECT_UUID) empty_world
  /\ "/a//b/" = "/a//b" ++ "/"
  /\ __init__ ("faculty-datasets:" ++ PROJECT_ID)
     = ok {| artifact_uri := "faculty-datasets:" ++ PROJECT_ID;
             project_id := PROJECT_UUID;
             datasets_artifact_root := "/" |}
  /\ log_artifacts
       {| artifact_uri := "faculty-datasets:" ++ PROJECT_ID;
          project_id := PROJECT_UUID;
          datasets_artifact_root := "/" |}
       "/local/dir" None empty_world
     = log (datasets_put "/local/dir" "/" PROJECT_UUID) empty_world
  /\ "/" = "" ++ "/".
Proof. repeat split; vm_compute; reflexivity. Qed.

(** The dataset path of a file logged to the default destination. *)
Lemma log_artifact_default_path (uri : string)
    (self : FacultyDatasetsArtifactRepository) (local_file : string) :
  __init__ uri = ok self ->
  _datasets_path self (posixpath.join "./" (posixpath.basename local_file))
  = str.repeat "/" (posixpath.initial_slashes (datasets_artifact_root self))
    ++ str.join "/"
         (posixpath.normpath_step
            (posixpath.initial_slashes (datasets_artifact_root self))
            (root_stack (datasets_artifact_root self))
            (posixpath.basename local_file))
  /\ _datasets_path self (posixpath.join "./" (posixpath.basename local_file))
     = posixpath.normpath
         (datasets_artifact_root self ++ "./" ++ posixpath.basename local_file).
Proof.
  intros H.
  pose proof (basename_no_slash local_file) as Hb.
  assert (posixpath.join "./" (posixpath.basename local_file)
          = "./" ++ posixpath.basename local_file) as ->.
  { rewrite join_relative by (now apply startswith_mem). reflexivity. }
  destruct (datasets_path_unfold uri self ("./" ++ posixpath.basename local_file) H)
    as [E1 E2].
  split; [|exact E2]. rewrite E1. do 2 f_equal.
  change (str.lstrip "/" ("./" ++ posixpath.basename local_file))
    with ("." ++ String "/" (posixpath.basename local_file)).
  rewrite split_app_sep, (split_absent "/" _ Hb). reflexivity.
Qed.

(** C6 (amended). [log_artifact] with the destination [None] does
    what it does with ["./"]: one upload of the local file to the
    normalized join of the stored root and the base name of the file.
    That path is the root followed by the base name when the root is
    in normal form and the base name names a file. *)
Theorem log_artifact_default (Store : Type) (uri : string)
    (self : FacultyDatasetsArtifactRepository) (local_file : string)
    (w : world Store) :
  __init__ uri = ok self ->
  log_artifact self local_file None w = log_artifact self local_file (Some "./") w
  /\ log_artifact self local_file None w
     = log (datasets_put local_file
              (posixpath.normpath
                 (datasets_artifact_root self ++ "./"
                  ++ posixpath.basename local_file))
              (project_id self)) w
  /\ (normal_root (datasets_artifact_root self) = true ->
      proper_name (posixpath.basename local_file) = true ->
      log_artifact self local_file None w
      = log (datasets_put local_file
               (datasets_artifact_root self ++ posixpath.basename local_file)
               (project_id self)) w).
Proof.
  intros H. destruct (log_artifact_default_path uri self local_file H) as [E1 E2].
  split; [reflexivity|]. split.
  - unfold log_artifact. now rewrite E2.
  - intros Hroot Hname. unfold log_artifact. rewrite E1. do 2 f_equal.
    set (b := posixpath.basename local_file) in *.
    set (root := datasets_artifact_root self) in *.
    unfold proper_name in Hname. apply Bool.negb_true_iff in Hname.
    apply Bool.orb_false_iff in Hname. destruct Hname as [Hblank Hdd].
    fold (blank b) in Hblank.
    rewrite normpath_step_name by assumption.
    apply init_root_shape in H. fold root in H.
    destruct (normpath_under_root root H) as (Hk & Hn & _).
    unfold normal_root in Hroot. apply Bool.orb_true_iff in Hroot.
    destruct Hroot as [Hroot|Hroot]; apply String.eqb_eq in Hroot.
    + rewrite Hroot. reflexivity.
    + destruct (root_stack root) as [|c st] eqn:Est.
      * exfalso. rewrite Hn in Hroot. cbn [str.join String.concat] in Hroot.
        destruct Hk as [Hk|Hk]; rewrite Hk in Hroot; cbn in Hroot;
          rewrite Hroot in Hk; discriminate.
      * rewrite join_app by discriminate. cbn [str.join String.concat].
        transitivity ((posixpath.normpath root ++ "/") ++ b);
          [|now rewrite <- Hroot].
        rewrite Hn, ?Est, !append_assoc. reflexivity.
Qed.

Lemma log_artifact_default_witness :
  log_artifact test_repo "/local/file.txt" None empty_world
  = log (datasets_put "/local/file.txt" (ARTIFACT_ROOT ++ "file.txt") PROJECT_UUID)
      empty_world.
Proof.
  exact (proj2 (proj2 (log_artifact_default unit ARTIFACT_URI test_repo
                         "/local/file.txt" empty_world test_repo_init))
           eq_refl eq_refl).
Defined.

(** C6, as stated, fails for a root that is not in normal form: the
    upload goes to the normalized path, not to the root followed by
    the base name. *)
Lemma log_artifact_normalizes_root :
  __init__ ("faculty-datasets:" ++ PROJECT_ID ++ "/a//b")
  = ok {| artifact_uri := "faculty-datasets:" ++ PROJECT_ID ++ "/a//b";
          project_id := PROJECT_UUID;
          datasets_artifact_root := "/a//b/" |}
  /\ log_artifact
       {| artifact_uri := "faculty-datasets:" ++ PROJECT_ID ++ "/a//b";
          project_id := PROJECT_UUID;
          datasets_artifact_root := "/a//b/" |}
       "/local/file.txt" None empty_world
     = log (datasets_put "/local/file.txt" "/a/b/file.txt" PROJECT_UUID) empty_world
  /\ "/a//b/" ++ posixpath.basename "/local/file.txt" = "/a//b/file.txt".
Proof. repeat split; vm_compute; reflexivity. Qed.

(** C4 (amended). The dataset path is the normalized join of the
    stored root and the caller's path with its leading slashes
    removed; it lies under the normalized root whenever no component
    of the caller's path is [".."]. *)
Theorem datasets_path_under_root (uri : string)
    (self : FacultyDatasetsArtifactRepository) (artifact_path : string) :
  __init__ uri = ok self ->
  _datasets_path self artifact_path
  = posixpath.normpath
      (datasets_artifact_root self ++ str.lstrip "/" artifact_path)
  /\ (str.startswith artifact_path "/" = false ->
      _datasets_path self artifact_path
      = posixpath.normpath (posixpath.join (datasets_artifact_root self) artifact_path))
  /\ (List.forallb (fun c => negb (c =? "..")) (str.split "/" artifact_path) = true ->
      is_under (posixpath.normpath (datasets_artifact_root self))
        (_datasets_path self artifact_path) = true).
Proof.
  intros H. destruct (datasets_path_unfold uri self artifact_path H) as [E1 E2].
  split; [exact E2|]. split.
  - intros Hp. unfold _datasets_path. now rewrite (lstrip_fixed _ Hp).
  - intros Hdd. rewrite E1.
    apply init_root_shape in H.
    set (root := datasets_artifact_root self) in *.
    destruct (normpath_under_root root H) as (Hk & -> & _).
    rewrite fold_no_dotdot by (now apply split_lstrip_forallb).
    set (k := posixpath.initial_slashes root) in *.
    set (st := root_stack root).
    set (ex := List.filter _ _).
    unfold is_under.
    destruct ex as [|e ex].
    { rewrite app_nil_r, String.eqb_refl. reflexivity. }
    apply Bool.orb_true_iff. right.
    destruct st as [|c st].
    + cbn [app str.join String.concat]. rewrite append_empty_r, startswith_app.
      destruct Hk as [-> | ->]; reflexivity.
    + rewrite join_app by discriminate.
      rewrite <- append_assoc, startswith_app, drop_app_length.
      cbn. apply Bool.orb_true_r.
Qed.

Lemma datasets_path_under_root_witness :
  is_under "/path/in/datasets" (_datasets_path test_repo "/a/./dir//x") = true.
Proof.
  exact (proj2 (proj2 (datasets_path_under_root ARTIFACT_URI test_repo
                         "/a/./dir//x" test_repo_init)) eq_refl).
Defined.

(** C4, as stated, fails: a [".."] in the caller's path takes the
    dataset path above the stored root. *)
Lemma datasets_path_escapes_root :
  _datasets_path test_repo ".." = "/path/in"
  /\ is_under (datasets_artifact_root test_repo) (_datasets_path test_repo "..") = false
  /\ is_under (posixpath.normpath (datasets_artifact_root test_repo))
       (_datasets_path test_repo "..") = false.
Proof. repeat split; vm_compute; reflexivity. Qed.

(** Leading slashes of the destination do not reach the dataset path
    of [log_artifact]. *)
Lemma lstrip_join_relative (n : nat) (p b : string) :
  str.startswith b "/" = false ->
  str.lstrip "/" (posixpath.join (str.repeat "/" n ++ p) b)
  = str.lstrip "/" (posixpath.join (str.lstrip "/" p) b).
Proof.
  intros Hb. destruct (lstrip_decompose p) as [m Hp].
  set (p' := str.lstrip "/" p) in *.
  rewrite Hp, <- append_assoc, <- repeat_add.
  generalize (n + m) as k. intros k.
  rewrite !join_relative by exact Hb.
  assert (str.lstrip "/" p' = p') as Hfix by apply lstrip_idempotent.
  clearbody p'. clear Hp.
  destruct p' as [|c q].
  - rewrite append_empty_r. destruct k as [|k]; [reflexivity|].
    assert (str.endswith (str.repeat "/" (S k)) "/" = true) as ->.
    { rewrite repeat_snoc. apply endswith_app_slash. }
    rewrite Bool.orb_true_r. cbn [String.eqb orb].
    rewrite lstrip_slashes. reflexivity.
  - rewrite endswith_app_nonempty by discriminate.
    assert ((str.repeat "/" k ++ String c q =? "") = false) as ->.
    { apply String.eqb_neq. intros F. apply append_eq_empty in F.
      destruct F; discriminate. }
    assert ((String c q =? "") = false) as -> by reflexivity.
    cbn [orb].
    destruct (str.endswith (String c q) "/");
      rewrite append_assoc, lstrip_slashes; reflexivity.
Qed.

(** C9. Leading slashes of the caller's path do not change the
    dataset path: any number of them gives the path computed without
    them, in [_datasets_path] and so in the upload of
    [log_artifact] and [log_artifacts], the calls and the recursive
    result of [list_artifacts], and the download. *)
Theorem leading_separators_ignored (Obj Store : Type)
    (faculty_object_to_mlflow_file_info : Obj -> string -> mlflow.FileInfo)
    (client_list :
       Store -> uuid.t -> string -> option string -> ListObjectsResponse Obj * Store)
    (self : FacultyDatasetsArtifactRepository) (n : nat) (p : string) :
  _datasets_path self (str.repeat "/" n ++ p) = _datasets_path self (str.lstrip "/" p)
  /\ (forall local_file (w : world Store),
         log_artifact self local_file (Some (str.repeat "/" n ++ p)) w
         = log_artifact self local_file (Some (str.lstrip "/" p)) w)
  /\ (forall local_dir (w : world Store),
         log_artifacts self local_dir (Some (str.repeat "/" n ++ p)) w
         = log_artifacts self local_dir (Some (str.lstrip "/" p)) w)
  /\ (forall fuel (w : world Store),
         list_objects client_list fuel self (str.repeat "/" n ++ p) w
         = list_objects client_list fuel self (str.lstrip "/" p) w)
  /\ (forall fuel (w : world Store),
         list_artifacts faculty_object_to_mlflow_file_info client_list fuel self
           (Some (str.repeat "/" n ++ p)) true w
         = list_artifacts faculty_object_to_mlflow_file_info client_list fuel self
             (Some (str.lstrip "/" p)) true w)
  /\ (forall local_path (w : world Store),
         _download_file self (str.repeat "/" n ++ p) local_path w
         = _download_file self (str.lstrip "/" p) local_path w)
  /\ _datasets_path self "/a/b" = _datasets_path self "a/b".
Proof.
  assert (_datasets_path self (str.repeat "/" n ++ p)
          = _datasets_path self (str.lstrip "/" p)) as Hd.
  { unfold _datasets_path. now rewrite lstrip_slashes, lstrip_idempotent. }
  assert (forall fuel (w : world Store),
             list_objects client_list fuel self (str.repeat "/" n ++ p) w
             = list_objects client_list fuel self (str.lstrip "/" p) w) as Hl.
  { intros fuel w. unfold list_objects, list_prefix. now rewrite Hd. }
  split; [exact Hd|]. split; [|split; [|split; [exact Hl|split; [|split]]]].
  - intros local_file w. unfold log_artifact, _datasets_path.
    rewrite lstrip_join_relative; [reflexivity|].
    apply startswith_mem, basename_no_slash.
  - intros local_dir w. unfold log_artifacts. now rewrite Hd.
  - intros fuel w. unfold list_artifacts. rewrite Hl.
    destruct (list_objects client_list fuel self (str.lstrip "/" p) w)
      as [[objs w']|]; [|reflexivity].
    do 2 f_equal. apply List.filter_ext. intros i.
    unfold keep. now rewrite !Bool.orb_true_r.
  - intros local_path w. unfold _download_file. now rewrite Hd.
  - reflexivity.
Qed.

(** ** The scenarios of the test suite *)

Lemma list_artifacts_pagination_witness :
  list_objects scripted 1 test_repo "a/dir" (scripted_world two_pages)
  = Some ([0; 1; 2; 3; 4; 5; 6; 7; 8; 9],
          {| store := [];
             trace := [client_list_call PROJECT_UUID "/path/in/datasets/a/dir/" None;
                       client_list_call PROJECT_UUID "/path/in/datasets/a/dir/"
                         (Some "token")] |})
  /\ List.length [0; 1; 2; 3; 4; 5; 6; 7; 8; 9] = 10.
Proof.
  exact (proj1 (proj2 (proj2
           (list_artifacts_pagination nat
              (fun _ _ => {| mlflow.path := ""; mlflow.is_dir := false;
                             mlflow.file_size := None |})
              (list (ListObjectsResponse nat)) scripted 1 test_repo "a/dir"
              (scripted_world two_pages))))
           _ _ "token" _ _ eq_refl eq_refl eq_refl eq_refl eq_refl eq_refl (le_n 1)).
Defined.

(** C10, as stated, fails: the entry ["."] has an empty parent
    directory, and the default listing drops it. *)
Lemma list_artifacts_default_path_drops_dot :
  posixpath.dirname (mlflow.path dot_entry) = ""
  /\ list_artifacts (fun obj _ => obj) scripted 0 test_repo None false
       (scripted_world [ {| objects := [dot_entry]; next_page_token := None |} ])
     = Some ([],
             {| store := [];
                trace := [client_list_call PROJECT_UUID "/path/in/datasets/" None] |}).
Proof. split; vm_compute; reflexivity. Qed.


(** The tests of [tests/test_artifacts.py], with the project id
    fixed. *)

Example test_faculty_repo_init :
  __init__ (ARTIFACT_URI ++ "") = ok test_repo
  /\ (exists self,
         __init__ (ARTIFACT_URI ++ "/") = ok self
         /\ project_id self = PROJECT_UUID
         /\ datasets_artifact_root self = ARTIFACT_ROOT).
Proof. split; [|eexists; repeat split]; vm_compute; reflexivity. Qed.

Example test_faculty_repo_invalid_uri :
  __init__ "no/schema" = raise (InvalidScheme "no/schema")
  /\ __init__ "wrong-schema:" = raise (InvalidScheme "wrong-schema:")
  /\ __init__ ("faculty-datasets://" ++ PROJECT_ID ++ "/path/in/datasets")
     = raise (ReservedNetloc ("faculty-datasets://" ++ PROJECT_ID ++ "/path/in/datasets")
                PROJECT_ID "/path/in/datasets")
  /\ suggestion PROJECT_ID "/path/in/datasets" = ARTIFACT_URI
  /\ __init__ "faculty-datasets:invalid-uri"
     = raise (InvalidProjectId "invalid-uri" "faculty-datasets:invalid-uri").
Proof. repeat split; vm_compute; reflexivity. Qed.

Example test_faculty_repo_log_artifact :
  List.map (fun artifact_path =>
              trace (log_artifact test_repo "/local/file.txt" (Some artifact_path)
                       empty_world))
    [""; "/"; "remote"; "remote/"; "/remote"; "/remote/"; "//"]
  = [ [datasets_put "/local/file.txt" (ARTIFACT_ROOT ++ "file.txt") PROJECT_UUID];
      [datasets_put "/local/file.txt" (ARTIFACT_ROOT ++ "file.txt") PROJECT_UUID];
      [datasets_put "/local/file.txt" (ARTIFACT_ROOT ++ "remote/file.txt") PROJECT_UUID];
      [datasets_put "/local/file.txt" (ARTIFACT_ROOT ++ "remote/file.txt") PROJECT_UUID];
      [datasets_put "/local/file.txt" (ARTIFACT_ROOT ++ "remote/file.txt") PROJECT_UUID];
      [datasets_put "/local/file.txt" (ARTIFACT_ROOT ++ "remote/file.txt") PROJECT_UUID];
      [datasets_put "/local/file.txt" (ARTIFACT_ROOT ++ "file.txt") PROJECT_UUID] ].
Proof. vm_compute. reflexivity. Qed.

Example test_faculty_repo_log_artifact_default_destination :
  trace (log_artifact test_repo "/local/file.txt" None empty_world)
  = [datasets_put "/local/file.txt" (ARTIFACT_ROOT ++ "file.txt") PROJECT_UUID].
Proof. vm_compute. reflexivity. Qed.

Example test_faculty_repo_log_artifacts :
  trace (log_artifacts test_repo "/local/dir" (Some "remote/folder") empty_world)
  = [datasets_put "/local/dir" (ARTIFACT_ROOT ++ "remote/folder") PROJECT_UUID]
  /\ trace (log_artifacts test_repo "/local/dir" (Some "/remote/folder") empty_world)
     = [datasets_put "/local/dir" (ARTIFACT_ROOT ++ "remote/folder") PROJECT_UUID].
Proof. split; vm_compute; reflexivity. Qed.

Example test_faculty_repo_log_artifacts_default_destination :
  trace (log_artifacts test_repo "/local/dir" None empty_world)
  = [datasets_put "/local/dir" (str.rstrip "/" ARTIFACT_ROOT) PROJECT_UUID].
Proof. vm_compute. reflexivity. Qed.

Example test_faculty_repo_list_artifacts :
  List.map (fun path =>
              list_artifacts numbered_info scripted 1 test_repo (Some path) true
                (scripted_world two_pages))
    ["a/dir"; "a/dir/"; "/a/dir"; "/a/dir/"]
  = List.repeat
      (Some (List.map (fun obj => numbered_info obj ARTIFACT_ROOT)
               [0; 1; 2; 3; 4; 5; 6; 7; 8],
             {| store := [];
                trace := [client_list_call PROJECT_UUID (ARTIFACT_ROOT ++ "a/dir/") None;
                          client_list_call PROJECT_UUID (ARTIFACT_ROOT ++ "a/dir/")
                            (Some "token")] |}))
      4.
Proof. vm_compute. reflexivity. Qed.

Example test_faculty_repo_list_artifacts_selective_directory :
  option_map fst
    (list_artifacts (joined_info "") scripted 0 test_repo (Some "") false
       (scripted_world
          [ {| objects := ["a"; "dir1"; "dir1/b"; "dir2"; "dir2/c"];
               next_page_token := None |} ]))
  = Some (List.map (fun obj => joined_info "" obj ARTIFACT_ROOT) ["a"; "dir1"; "dir2"])
  /\ option_map fst
       (list_artifacts (joined_info "dir") scripted 0 test_repo (Some "dir") false
          (scripted_world
             [ {| objects := ["a"; "dir1"; "dir1/b"; "dir2"; "dir2/c"];
                  next_page_token := None |} ]))
     = Some (List.map (fun obj => joined_info "dir" obj ARTIFACT_ROOT)
               ["a"; "dir1"; "dir2"]).
Proof. split; vm_compute; reflexivity. Qed.

Example test_faculty_repo_list_artifacts_default_path :
  list_artifacts numbered_info scripted 0 test_repo None false
    (scripted_world [ {| objects := []; next_page_token := None |} ])
  = Some ([], {| store := [];
                 trace := [client_list_call PROJECT_UUID ARTIFACT_ROOT None] |}).
Proof. vm_compute. reflexivity. Qed.

Example test_faculty_repo_download_file :
  trace (_download_file test_repo "path/to/file" "/local/path" empty_world)
  = [datasets_get (ARTIFACT_ROOT ++ "path/to/file") "/local/path" PROJECT_UUID]
  /\ trace (_download_file test_repo "/path/to/file" "/local/path" empty_world)
     = [datasets_get (ARTIFACT_ROOT ++ "path/to/file") "/local/path" PROJECT_UUID].
Proof. split; vm_compute; reflexivity. Qed.

(** * Further properties *)

(** ** Components *)

Lemma join_split (p : string) : str.join "/" (str.split "/" p) = p.
Proof.
  unfold str.join. induction p as [|c p IH]; [reflexivity|].
  cbn [str.split]. destruct (Ascii.eqb_spec c "/") as [->|Hc].
  - destruct (str.split "/" p) as [|h t] eqn:E;
      [exfalso; exact (split_nonempty _ _ E)|].
    cbn [String.concat] in *. now rewrite IH.
  - destruct (str.split "/" p) as [|h t] eqn:E;
      [exfalso; exact (split_nonempty _ _ E)|].
    destruct t; cbn [String.concat append] in *; now rewrite IH.
Qed.

Lemma split_slash_free (c : ascii) (s : string) :
  List.Forall (fun x => str.mem c x = false) (str.split c s).
Proof.
  induction s as [|x s IH]; cbn [str.split].
  - constructor; [reflexivity|constructor].
  - destruct (Ascii.eqb_spec x c) as [->|Hx].
    + constructor; [reflexivity|exact IH].
    + destruct (str.split c s) as [|h t]; [constructor; [|constructor]|].
      * cbn. apply Ascii.eqb_neq in Hx. rewrite Ascii.eqb_sym in Hx. now rewrite Hx.
      * inversion IH as [|? ? Hh Ht]; subst. constructor; [|exact Ht].
        cbn. apply Ascii.eqb_neq in Hx. rewrite Ascii.eqb_sym in Hx.
        now rewrite Hx, Hh.
Qed.

Lemma Forall_removelast {A : Type} (P : A -> Prop) (l : list A) :
  List.Forall P l -> List.Forall P (List.removelast l).
Proof.
  induction 1 as [|x l Hx Hl IH]; [constructor|].
  cbn [List.removelast]. destruct l; [constructor|]. constructor; assumption.
Qed.

Lemma Forall_last {A : Type} (P : A -> Prop) (l : list A) (d : A) :
  List.Forall P l -> l <> [] -> P (List.last l d).
Proof.
  induction 1 as [|x l Hx Hl IH]; [contradiction|]. intros _.
  cbn [List.last]. destruct l; [exact Hx|]. apply IH. discriminate.
Qed.

(** Under an absolute path the loop of [normpath] keeps names only. *)
Lemma normpath_step_names (initial : nat) (st : list string) (comp : string) :
  initial <> 0 ->
  List.Forall (fun c => name_comp c = true) st ->
  str.mem "/" comp = false ->
  List.Forall (fun c => name_comp c = true) (posixpath.normpath_step initial st comp).
Proof.
  intros Hi Hst Hc. unfold posixpath.normpath_step. fold (blank comp).
  destruct (blank comp) eqn:Hb; [exact Hst|].
  destruct (comp =? "..") eqn:Hdd; cbn [negb orb].
  - assert ((initial =? 0)%nat = false) as -> by now apply Nat.eqb_neq.
    cbn [andb orb].
    destruct (List.length st =? 0)%nat eqn:Hlen; cbn [negb andb].
    + now apply Forall_removelast.
    + assert ((List.last st "" =? "..") = false) as ->.
      { assert (st <> []) as Hne by (intros ->; discriminate).
        pose proof (Forall_last _ st "" Hst Hne) as Hl. cbn beta in Hl.
        unfold name_comp in Hl.
        destruct (List.last st "" =? ".."); [|reflexivity].
        rewrite Bool.andb_false_r in Hl. discriminate. }
      now apply Forall_removelast.
  - apply List.Forall_app. split; [exact Hst|]. constructor; [|constructor].
    unfold name_comp. now rewrite Hb, Hdd, Hc.
Qed.

Lemma fold_names (initial : nat) (comps st : list string) :
  initial <> 0 ->
  List.Forall (fun c => str.mem "/" c = false) comps ->
  List.Forall (fun c => name_comp c = true) st ->
  List.Forall (fun c => name_comp c = true)
    (List.fold_left (posixpath.normpath_step initial) comps st).
Proof.
  intros Hi Hc. revert st. induction Hc as [|c comps Hc Hcs IH]; intros st Hst;
    cbn [List.fold_left]; [exact Hst|].
  apply IH. now apply normpath_step_names.
Qed.

Lemma root_stack_names (root : string) :
  root_shape root ->
  List.Forall (fun c => name_comp c = true) (root_stack root).
Proof.
  intros H. destruct (normpath_under_root root H) as (Hk & _ & _).
  unfold root_stack, norm_comps. apply fold_names.
  - destruct Hk as [-> | ->]; discriminate.
  - apply split_slash_free.
  - constructor.
Qed.

Lemma mem_endswith (s : string) :
  str.mem "/" s = false -> str.endswith s "/" = false.
Proof.
  induction s as [|c s IH]; [reflexivity|].
  cbn [str.mem str.endswith]. rewrite Bool.orb_false_iff. intros [Hc Hs].
  rewrite (IH Hs), Bool.orb_false_r. apply String.eqb_neq. intros E.
  injection E as -> _. discriminate.
Qed.

(** A path that ends with a name does not end with a separator. *)
Lemma join_names_no_trailing (x : string) (st : list string) :
  st <> [] ->
  List.Forall (fun c => name_comp c = true) st ->
  str.endswith (x ++ str.join "/" st) "/" = false.
Proof.
  intros Hne Hst.
  assert (exists y l, str.join "/" st = y ++ l /\ name_comp l = true)
    as (y & l & E & Hl).
  { induction Hst as [|c st Hc Hst IH]; [contradiction|].
    destruct st as [|c' st].
    - exists "", c. split; [reflexivity|exact Hc].
    - destruct (IH ltac:(discriminate)) as (y & l & E & Hl).
      exists (c ++ "/" ++ y), l. split; [|exact Hl].
      unfold str.join in *. cbn [String.concat] in *.
      rewrite E, !append_assoc. reflexivity. }
  rewrite E, <- append_assoc.
  unfold name_comp, blank in Hl.
  apply Bool.andb_true_iff in Hl. destruct Hl as [Hl Hs].
  apply Bool.andb_true_iff in Hl. destruct Hl as [Hb _].
  apply Bool.negb_true_iff in Hb, Hs. apply Bool.orb_false_iff in Hb.
  destruct Hb as [Hb _].
  rewrite endswith_app_nonempty by (now apply String.eqb_neq).
  now apply mem_endswith.
Qed.

(** The shape of every dataset path. *)
Lemma datasets_path_shape (uri : string) (self : FacultyDatasetsArtifactRepository)
    (artifact_path : string) :
  __init__ uri = ok self ->
  exists k st,
    (k = 1 \/ k = 2)
    /\ List.Forall (fun c => name_comp c = true) st
    /\ st = List.fold_left
              (posixpath.normpath_step
                 (posixpath.initial_slashes (datasets_artifact_root self)))
              (str.split "/" (str.lstrip "/" artifact_path))
              (root_stack (datasets_artifact_root self))
    /\ k = posixpath.initial_slashes (datasets_artifact_root self)
    /\ _datasets_path self artifact_path = str.repeat "/" k ++ str.join "/" st.
Proof.
  intros H. destruct (datasets_path_unfold uri self artifact_path H) as [E _].
  apply init_root_shape in H.
  destruct (normpath_under_root _ H) as (Hk & _ & _).
  do 2 eexists. split; [exact Hk|]. split; [|split; [reflexivity|split; [reflexivity|exact E]]].
  apply fold_names.
  - destruct Hk as [-> | ->]; discriminate.
  - apply split_slash_free.
  - now apply root_stack_names.
Qed.

(** X5. A dataset path is absolute and in normal form: one or two
    slashes followed by names joined by single slashes, so it holds
    no empty component, no ["."] and no [".."], and it does not end
    with a slash unless it is all slashes. *)
Theorem datasets_path_normal_form (uri : string)
    (self : FacultyDatasetsArtifactRepository) (artifact_path : string) :
  __init__ uri = ok self ->
  exists k names,
    (k = 1 \/ k = 2)
    /\ _datasets_path self artifact_path = str.repeat "/" k ++ str.join "/" names
    /\ List.forallb name_comp names = true
    /\ (names <> [] -> str.endswith (_datasets_path self artifact_path) "/" = false).
Proof.
  intros H.
  destruct (datasets_path_shape uri self artifact_path H)
    as (k & st & Hk & Hst & _ & _ & E).
  exists k, st. split; [exact Hk|]. split; [exact E|]. split.
  - apply List.forallb_forall. intros c Hc.
    rewrite List.Forall_forall in Hst. now apply Hst.
  - intros Hne. rewrite E. now apply join_names_no_trailing.
Qed.

Lemma datasets_path_normal_form_witness :
  exists k names,
    (k = 1 \/ k = 2)
    /\ _datasets_path test_repo "//a/./b/../c//" = str.repeat "/" k ++ str.join "/" names
    /\ List.forallb name_comp names = true
    /\ (names <> [] ->
        str.endswith (_datasets_path test_repo "//a/./b/../c//") "/" = false).
Proof.
  exact (datasets_path_normal_form ARTIFACT_URI test_repo "//a/./b/../c//"
           test_repo_init).
Defined.

(** ** Clean paths, trailing slashes and base names *)

Lemma rstrip_fixed (s : string) :
  str.endswith s "/" = false -> str.rstrip "/" s = s.
Proof.
  induction s as [|c s IH]; [reflexivity|].
  cbn [str.endswith str.rstrip]. rewrite Bool.orb_false_iff. intros [Hc Hs].
  rewrite (IH Hs). destruct s as [|d s]; [|reflexivity].
  destruct (Ascii.eqb_spec c "/") as [->|Hne]; [discriminate|].
  cbn. apply Ascii.eqb_neq in Hne. now rewrite Hne.
Qed.

Lemma clean_path_relative (p : string) :
  clean_path p = true -> str.startswith p "/" = false /\ p <> "".
Proof.
  unfold clean_path. destruct p as [|c p]; [discriminate|].
  intros H. split; [|discriminate].
  cbn [str.split] in H. cbn.
  destruct (Ascii.eqb c "/"); [discriminate|].
  destruct p; reflexivity.
Qed.

Lemma names_filter (comps : list string) :
  List.forallb name_comp comps = true ->
  List.forallb (fun c => negb (c =? "..")) comps = true
  /\ List.filter (fun c => negb (blank c)) comps = comps.
Proof.
  induction comps as [|c comps IH]; [auto|].
  cbn [List.forallb List.filter]. rewrite !Bool.andb_true_iff.
  intros [Hc H]. destruct (IH H) as [H1 H2].
  unfold name_comp in Hc. rewrite !Bool.andb_true_iff in Hc.
  destruct Hc as [[Hb Hd] _]. rewrite Hb, Hd, H1, H2. auto.
Qed.

(** A clean path is appended to a root in normal form as it is. *)
Lemma datasets_path_clean (uri : string) (self : FacultyDatasetsArtifactRepository)
    (p : string) :
  __init__ uri = ok self ->
  normal_root (datasets_artifact_root self) = true ->
  clean_path p = true ->
  _datasets_path self p = datasets_artifact_root self ++ p.
Proof.
  intros H Hroot Hp.
  destruct (clean_path_relative p Hp) as [Hrel Hne].
  destruct (datasets_path_unfold uri self p H) as [E _]. rewrite E.
  rewrite (lstrip_fixed p Hrel).
  destruct (names_filter _ Hp) as [Hdd Hf].
  rewrite fold_no_dotdot by exact Hdd. rewrite Hf.
  apply init_root_shape in H.
  set (root := datasets_artifact_root self) in *.
  destruct (normpath_under_root root H) as (Hk & Hn & _).
  unfold normal_root in Hroot. apply Bool.orb_true_iff in Hroot.
  destruct Hroot as [Hroot|Hroot]; apply String.eqb_eq in Hroot.
  - rewrite Hroot. change (root_stack "/") with (@nil string).
    cbn [app]. now rewrite join_split.
  - destruct (root_stack root) as [|c st] eqn:Est.
    + exfalso. rewrite Hn in Hroot. cbn [str.join String.concat] in Hroot.
      destruct Hk as [Hk|Hk]; rewrite Hk in Hroot; cbn in Hroot;
        rewrite Hroot in Hk; discriminate.
    + rewrite join_app by (discriminate || apply split_nonempty).
      rewrite join_split.
      transitivity ((posixpath.normpath root ++ "/") ++ p); [|now rewrite <- Hroot].
      rewrite Hn, ?Est, !append_assoc. reflexivity.
Qed.

Lemma proper_basename (local_file : string) :
  proper_name (posixpath.basename local_file) = true ->
  name_comp (posixpath.basename local_file) = true.
Proof.
  unfold proper_name, name_comp, blank. intros H.
  rewrite (basename_no_slash local_file).
  apply Bool.negb_true_iff in H. apply Bool.orb_false_iff in H.
  destruct H as [-> ->]. reflexivity.
Qed.

Lemma name_comp_relative (b : string) :
  name_comp b = true -> str.startswith b "/" = false /\ b <> "".
Proof.
  unfold name_comp, blank. rewrite !Bool.andb_true_iff, !Bool.negb_true_iff.
  intros [[Hb _] Hs]. split; [now apply startswith_mem|].
  intros ->. discriminate.
Qed.

Lemma clean_path_no_trailing (p : string) :
  clean_path p = true -> str.endswith p "/" = false.
Proof.
  intros H. rewrite <- (join_split p).
  apply (join_names_no_trailing "" (str.split "/" p)); [apply split_nonempty|].
  apply List.Forall_forall. intros c Hc.
  unfold clean_path in H. rewrite List.forallb_forall in H. now apply H.
Qed.

Lemma clean_path_join (p b : string) :
  clean_path p = true -> name_comp b = true ->
  posixpath.join p b = p ++ "/" ++ b /\ clean_path (p ++ "/" ++ b) = true.
Proof.
  intros Hp Hb. destruct (name_comp_relative b Hb) as [Hrel _].
  destruct (clean_path_relative p Hp) as [_ Hne]. split.
  - rewrite join_relative by exact Hrel.
    rewrite (clean_path_no_trailing p Hp).
    destruct p; [contradiction|reflexivity].
  - unfold clean_path in *. cbn [append].
    rewrite split_app_sep, List.forallb_app, Hp.
    rewrite split_absent.
    + cbn. now rewrite Hb.
    + unfold name_comp in Hb. apply Bool.andb_true_iff in Hb.
      destruct Hb as [_ Hs]. now apply Bool.negb_true_iff in Hs.
Qed.

(** X6. With a root in normal form, a clean relative path (names
    joined by single slashes) is appended to the root as it is:
    [log_artifacts] uploads to root + path, [_download_file]
    downloads from it, [list_artifacts] lists the prefix
    root + path + "/", and [log_artifact] uploads a file to
    root + path + "/" + its base name. *)
Theorem clean_path_appended (Store : Type) (uri : string)
    (self : FacultyDatasetsArtifactRepository) (p : string) (w : world Store) :
  __init__ uri = ok self ->
  normal_root (datasets_artifact_root self) = true ->
  clean_path p = true ->
  _datasets_path self p = datasets_artifact_root self ++ p
  /\ (forall local_dir,
         log_artifacts self local_dir (Some p) w
         = log (datasets_put local_dir (datasets_artifact_root self ++ p)
                  (project_id self)) w)
  /\ (forall local_path,
         _download_file self p local_path w
         = log (datasets_get (datasets_artifact_root self ++ p) local_path
                  (project_id self)) w)
  /\ list_prefix self p = datasets_artifact_root self ++ p ++ "/"
  /\ (forall local_file,
         proper_name (posixpath.basename local_file) = true ->
         log_artifact self local_file (Some p) w
         = log (datasets_put local_file
                  (datasets_artifact_root self ++ p ++ "/"
                   ++ posixpath.basename local_file)
                  (project_id self)) w).
Proof.
  intros H Hroot Hp.
  pose proof (datasets_path_clean uri self p H Hroot Hp) as E.
  split; [exact E|]. split; [|split; [|split]].
  - intros local_dir. unfold log_artifacts. now rewrite E.
  - intros local_path. unfold _download_file. now rewrite E.
  - unfold list_prefix. rewrite E, rstrip_fixed, append_assoc; [reflexivity|].
    destruct (clean_path_relative p Hp) as [_ Hne].
    rewrite endswith_app_nonempty by exact Hne.
    now apply clean_path_no_trailing.
  - intros local_file Hb. apply proper_basename in Hb.
    destruct (clean_path_join p _ Hp Hb) as [Ej Hc].
    unfold log_artifact. rewrite Ej.
    now rewrite (datasets_path_clean uri self _ H Hroot Hc).
Qed.

Lemma clean_path_appended_witness :
  _datasets_path test_repo "path/to/file" = ARTIFACT_ROOT ++ "path/to/file"
  /\ (forall local_dir,
         log_artifacts test_repo local_dir (Some "path/to/file") empty_world
         = log (datasets_put local_dir (ARTIFACT_ROOT ++ "path/to/file")
                  PROJECT_UUID) empty_world)
  /\ (forall local_path,
         _download_file test_repo "path/to/file" local_path empty_world
         = log (datasets_get (ARTIFACT_ROOT ++ "path/to/file") local_path
                  PROJECT_UUID) empty_world)
  /\ list_prefix test_repo "path/to/file" = ARTIFACT_ROOT ++ "path/to/file" ++ "/"
  /\ (forall local_file,
         proper_name (posixpath.basename local_file) = true ->
         log_artifact test_repo local_file (Some "path/to/file") empty_world
         = log (datasets_put local_file
                  (ARTIFACT_ROOT ++ "path/to/file" ++ "/"
                   ++ posixpath.basename local_file)
                  PROJECT_UUID) empty_world).
Proof.
  exact (clean_path_appended unit ARTIFACT_URI test_repo "path/to/file" empty_world
           test_repo_init eq_refl eq_refl).
Defined.

Lemma lstrip_app_slashes (p : string) (n : nat) :
  str.lstrip "/" (p ++ str.repeat "/" n)
  = if str.lstrip "/" p =? "" then "" else str.lstrip "/" p ++ str.repeat "/" n.
Proof.
  induction p as [|c p IH].
  - cbn [append]. rewrite <- (append_empty_r (str.repeat "/" n)).
    rewrite lstrip_slashes. reflexivity.
  - cbn [append str.lstrip str.mem]. rewrite Bool.orb_false_r.
    destruct (Ascii.eqb c "/"); [exact IH|reflexivity].
Qed.

Lemma split_app_slashes (x : string) (n : nat) :
  str.split "/" (x ++ str.repeat "/" n)
  = (str.split "/" x ++ List.repeat "" n)%list.
Proof.
  revert x. induction n as [|n IH]; intros x.
  - cbn. now rewrite append_empty_r, app_nil_r.
  - rewrite repeat_snoc, <- append_assoc.
    rewrite (split_app_sep "/" (x ++ str.repeat "/" n) ""), IH.
    rewrite <- app_assoc. f_equal.
    change (str.split "/" "") with (List.repeat "" 1).
    rewrite <- List.repeat_app. f_equal. lia.
Qed.

Lemma fold_blanks (initial n : nat) (st : list string) :
  List.fold_left (posixpath.normpath_step initial) (List.repeat "" n) st = st.
Proof. induction n as [|n IH]; [reflexivity|exact IH]. Qed.

(** Trailing slashes of the caller's path do not reach the dataset
    path. *)
Lemma datasets_path_trailing (uri : string) (self : FacultyDatasetsArtifactRepository)
    (p : string) (n : nat) :
  __init__ uri = ok self ->
  _datasets_path self (p ++ str.repeat "/" n) = _datasets_path self p.
Proof.
  intros H.
  destruct (datasets_path_unfold uri self (p ++ str.repeat "/" n) H) as [-> _].
  destruct (datasets_path_unfold uri self p H) as [-> _].
  rewrite lstrip_app_slashes.
  destruct (str.lstrip "/" p =? "") eqn:E.
  - apply String.eqb_eq in E. now rewrite E.
  - now rewrite split_app_slashes, List.fold_left_app, fold_blanks.
Qed.

Lemma endswith_slash_decompose (s : string) :
  str.endswith s "/" = true -> exists q, s = q ++ "/".
Proof.
  induction s as [|c s IH]; [discriminate|].
  cbn [str.endswith]. rewrite Bool.orb_true_iff. intros [H|H].
  - apply String.eqb_eq in H. exists "". exact H.
  - destruct (IH H) as [q ->]. now exists (String c q).
Qed.

(** The dataset path of [join(path, name)] is the dataset path of
    [path] joined with the name. *)
Lemma datasets_path_join (uri : string) (self : FacultyDatasetsArtifactRepository)
    (p b : string) :
  __init__ uri = ok self ->
  name_comp b = true ->
  _datasets_path self (posixpath.join p b)
  = posixpath.join (_datasets_path self p) b.
Proof.
  intros H Hb. destruct (name_comp_relative b Hb) as [Hrel Hbne].
  assert (str.mem "/" b = false) as Hbs.
  { unfold name_comp in Hb. apply Bool.andb_true_iff in Hb.
    destruct Hb as [_ Hs]. now apply Bool.negb_true_iff in Hs. }
  assert (blank b = false /\ (b =? "..") = false) as [Hbb Hbd].
  { unfold name_comp in Hb. rewrite !Bool.andb_true_iff, !Bool.negb_true_iff in Hb.
    tauto. }
  destruct (datasets_path_shape uri self p H) as (k & st & Hk & Hst & Est & Ek & Ep).
  destruct (datasets_path_unfold uri self (posixpath.join p b) H) as [E _].
  rewrite E, Ep, <- Ek. clear E.
  pose proof (lstrip_join_relative 0 p b Hrel) as Hl. cbn [str.repeat append] in Hl.
  rewrite Hl. clear Hl.
  set (p' := str.lstrip "/" p) in *.
  assert (str.startswith p' "/" = false) as Hp' by apply lstrip_not_slash.
  assert (List.fold_left (posixpath.normpath_step k)
            (str.split "/" (str.lstrip "/" (posixpath.join p' b)))
            (root_stack (datasets_artifact_root self))
          = (st ++ [b])%list) as ->.
  { rewrite join_relative by exact Hrel. rewrite Est, <- Ek.
    destruct p' as [|c q] eqn:Ep'.
    - cbn [String.eqb orb append]. rewrite (lstrip_fixed b Hrel).
      rewrite (split_absent "/" b Hbs). cbn [List.fold_left str.split].
      rewrite (normpath_step_blank k _ "") by reflexivity.
      now apply normpath_step_name.
    - rewrite <- Ep' in *. assert ((p' =? "") = false) as -> by (now rewrite Ep').
      cbn [orb].
      assert (forall x, str.lstrip "/" (p' ++ x) = p' ++ x) as Hfix.
      { intros x. apply lstrip_fixed. rewrite Ep' in *. cbn in Hp' |- *.
        exact Hp'. }
      destruct (str.endswith p' "/") eqn:Hend.
      + destruct (endswith_slash_decompose p' Hend) as [r Hr].
        rewrite Hfix, Hr, append_assoc. cbn [append].
        rewrite !split_app_sep, !List.fold_left_app, (split_absent "/" b Hbs).
        cbn [List.fold_left str.split].
        rewrite (normpath_step_blank k _ "") by reflexivity.
        now apply normpath_step_name.
      + rewrite Hfix. cbn [append].
        rewrite split_app_sep, List.fold_left_app, (split_absent "/" b Hbs).
        cbn [List.fold_left]. now apply normpath_step_name. }
  rewrite join_relative by exact Hrel.
  assert ((str.repeat "/" k ++ str.join "/" st =? "") = false) as ->.
  { destruct Hk as [-> | ->]; reflexivity. }
  cbn [orb].
  destruct st as [|c st].
  - cbn [app str.join String.concat]. rewrite append_empty_r.
    destruct Hk as [-> | ->]; reflexivity.
  - rewrite (join_names_no_trailing _ (c :: st)) by (discriminate || exact Hst).
    rewrite join_app by discriminate. cbn [str.join String.concat].
    now rewrite !append_assoc.
Qed.

(** X7. Trailing slashes of the caller's path are ignored: with any
    number of them appended, [log_artifacts], [_download_file] and
    the calls of [list_artifacts] use the same dataset path, and so
    does [log_artifact] for a file whose base name names a file. *)
Theorem trailing_separators_ignored (Obj Store : Type)
    (client_list :
       Store -> uuid.t -> string -> option string -> ListObjectsResponse Obj * Store)
    (uri : string) (self : FacultyDatasetsArtifactRepository)
    (p : string) (n : nat) (w : world Store) :
  __init__ uri = ok self ->
  _datasets_path self (p ++ str.repeat "/" n) = _datasets_path self p
  /\ (forall local_dir,
         log_artifacts self local_dir (Some (p ++ str.repeat "/" n)) w
         = log_artifacts self local_dir (Some p) w)
  /\ (forall local_path,
         _download_file self (p ++ str.repeat "/" n) local_path w
         = _download_file self p local_path w)
  /\ (forall fuel,
         list_objects client_list fuel self (p ++ str.repeat "/" n) w
         = list_objects client_list fuel self p w)
  /\ (forall local_file,
         proper_name (posixpath.basename local_file) = true ->
         log_artifact self local_file (Some (p ++ str.repeat "/" n)) w
         = log_artifact self local_file (Some p) w).
Proof.
  intros H. pose proof (datasets_path_trailing uri self p n H) as E.
  split; [exact E|]. split; [|split; [|split]].
  - intros local_dir. unfold log_artifacts. now rewrite E.
  - intros local_path. unfold _download_file. now rewrite E.
  - intros fuel. unfold list_objects, list_prefix. now rewrite E.
  - intros local_file Hb. apply proper_basename in Hb.
    unfold log_artifact.
    rewrite !(datasets_path_join uri self _ _ H Hb). now rewrite E.
Qed.

Lemma trailing_separators_ignored_witness :
  _datasets_path test_repo ("a/dir" ++ str.repeat "/" 2) = _datasets_path test_repo "a/dir"
  /\ list_objects scripted 1 test_repo ("a/dir" ++ str.repeat "/" 2)
       (scripted_world two_pages)
     = list_objects scripted 1 test_repo "a/dir" (scripted_world two_pages).
Proof.
  pose proof (trailing_separators_ignored nat _ scripted ARTIFACT_URI test_repo
                "a/dir" 2 (scripted_world two_pages) test_repo_init)
    as (H1 & _ & _ & H2 & _).
  split; [exact H1|exact (H2 1)].
Defined.

(** X8. A file logged under a destination lands directly inside the
    directory [log_artifacts] uploads to for the same destination:
    its dataset path is that directory joined with the base name of
    the file. *)
Theorem log_artifact_in_directory (Store : Type) (uri : string)
    (self : FacultyDatasetsArtifactRepository) (local_file : string)
    (artifact_path : option string) (w : world Store) :
  __init__ uri = ok self ->
  proper_name (posixpath.basename local_file) = true ->
  exists directory,
    (forall local_dir,
        log_artifacts self local_dir artifact_path w
        = log (datasets_put local_dir directory (project_id self)) w)
    /\ log_artifact self local_file artifact_path w
       = log (datasets_put local_file
                (posixpath.join directory (posixpath.basename local_file))
                (project_id self)) w
    /\ (posixpath.join directory (posixpath.basename local_file)
        = directory ++ "/" ++ posixpath.basename local_file
        \/ (str.endswith directory "/" = true
            /\ posixpath.join directory (posixpath.basename local_file)
               = directory ++ posixpath.basename local_file)).
Proof.
  intros H Hb. apply proper_basename in Hb.
  exists (_datasets_path self (effective_path artifact_path)).
  split; [|split].
  - intros local_dir. destruct artifact_path; reflexivity.
  - unfold log_artifact. fold (effective_path artifact_path).
    now rewrite (datasets_path_join uri self _ _ H Hb).
  - destruct (name_comp_relative _ Hb) as [Hrel _].
    rewrite join_relative by exact Hrel.
    destruct (datasets_path_shape uri self (effective_path artifact_path) H)
      as (k & st & Hk & _ & _ & _ & E).
    assert ((_datasets_path self (effective_path artifact_path) =? "") = false) as ->.
    { rewrite E. destruct Hk as [-> | ->]; reflexivity. }
    cbn [orb].
    destruct (str.endswith (_datasets_path self (effective_path artifact_path)) "/");
      [right|left]; auto.
Qed.

Lemma log_artifact_in_directory_witness :
  exists directory,
    (forall local_dir,
        log_artifacts test_repo local_dir (Some "/remote/") empty_world
        = log (datasets_put local_dir directory PROJECT_UUID) empty_world)
    /\ log_artifact test_repo "/local/file.txt" (Some "/remote/") empty_world
       = log (datasets_put "/local/file.txt"
                (posixpath.join directory (posixpath.basename "/local/file.txt"))
                PROJECT_UUID) empty_world
    /\ (posixpath.join directory (posixpath.basename "/local/file.txt")
        = directory ++ "/" ++ posixpath.basename "/local/file.txt"
        \/ (str.endswith directory "/" = true
            /\ posixpath.join directory (posixpath.basename "/local/file.txt")
               = directory ++ posixpath.basename "/local/file.txt")).
Proof.
  exact (log_artifact_in_directory unit ARTIFACT_URI test_repo "/local/file.txt"
           (Some "/remote/") empty_world test_repo_init eq_refl).
Defined.

(** The prefix [list_artifacts] queries for a path. *)
Lemma list_prefix_shape (uri : string) (self : FacultyDatasetsArtifactRepository)
    (p : string) :
  __init__ uri = ok self ->
  (list_prefix self p = "/"
   /\ (_datasets_path self p = "/" \/ _datasets_path self p = "//"))
  \/ (list_prefix self p = _datasets_path self p ++ "/"
      /\ str.endswith (_datasets_path self p) "/" = false).
Proof.
  intros H.
  destruct (datasets_path_shape uri self p H) as (k & st & Hk & Hst & _ & _ & E).
  unfold list_prefix. destruct st as [|c st].
  - left. rewrite E. cbn [str.join String.concat].
    destruct Hk as [-> | ->]; cbn; auto.
  - right.
    assert (str.endswith (_datasets_path self p) "/" = false) as Hend.
    { rewrite E. apply join_names_no_trailing; [discriminate|exact Hst]. }
    now rewrite (rstrip_fixed _ Hend).
Qed.



(** X10. The prefix [list_artifacts] queries ends with exactly one
    slash: it is the dataset path followed by a slash, or ["/"] when
    the dataset path is all slashes; for the default path and a root
    in normal form it is the stored root. *)
Theorem list_prefix_directory (uri : string)
    (self : FacultyDatasetsArtifactRepository) (p : string) :
  __init__ uri = ok self ->
  ((list_prefix self p = "/"
    /\ (_datasets_path self p = "/" \/ _datasets_path self p = "//"))
   \/ (list_prefix self p = _datasets_path self p ++ "/"
       /\ str.endswith (_datasets_path self p) "/" = false))
  /\ (normal_root (datasets_artifact_root self) = true ->
      list_prefix self "./" = datasets_artifact_root self).
Proof.
  intros H. split; [now apply (list_prefix_shape uri)|].
  intros Hroot.
  assert (_datasets_path self "./" = posixpath.normpath (datasets_artifact_root self))
    as E.
  { destruct (datasets_path_unfold uri self "./" H) as [-> _].
    pose proof (init_root_shape uri self H) as Hs.
    destruct (normpath_under_root _ Hs) as (_ & -> & _). reflexivity. }
  unfold normal_root in Hroot. apply Bool.orb_true_iff in Hroot.
  destruct Hroot as [Hroot|Hroot]; apply String.eqb_eq in Hroot.
  - unfold list_prefix. rewrite E, Hroot. reflexivity.
  - destruct (list_prefix_shape uri self "./" H) as [[_ Hd] | [-> _]].
    + exfalso. rewrite E in Hd.
      destruct Hd as [Hd|Hd]; rewrite Hd in Hroot; rewrite Hroot in Hd;
        vm_compute in Hd; discriminate.
    + rewrite E. now rewrite <- Hroot.
Qed.

Lemma list_prefix_directory_witness :
  ((list_prefix test_repo "a/dir" = "/"
    /\ (_datasets_path test_repo "a/dir" = "/" \/ _datasets_path test_repo "a/dir" = "//"))
   \/ (list_prefix test_repo "a/dir" = _datasets_path test_repo "a/dir" ++ "/"
       /\ str.endswith (_datasets_path test_repo "a/dir") "/" = false))
  /\ (normal_root (datasets_artifact_root test_repo) = true ->
      list_prefix test_repo "./" = datasets_artifact_root test_repo).
Proof.
  exact (list_prefix_directory ARTIFACT_URI test_repo "a/dir" test_repo_init).
Defined.

(** ** Listing: the flag, endless stores and directories *)

Lemma filter_filter {A : Type} (f g : A -> bool) (l : list A) :
  List.filter f (List.filter g l) = List.filter (fun x => g x && f x)%bool l.
Proof.
  induction l as [|x l IH]; [reflexivity|].
  cbn [List.filter]. destruct (g x); cbn [andb List.filter]; [|exact IH].
  destruct (f x); now rewrite IH.
Qed.

(** X11. The [recursive] flag only widens the result: both listings
    make the same calls, and the non-recursive result is the
    recursive result filtered by the parent-directory test. *)
Theorem nonrecursive_filters_recursive (Obj Store : Type)
    (faculty_object_to_mlflow_file_info : Obj -> string -> mlflow.FileInfo)
    (client_list :
       Store -> uuid.t -> string -> option string -> ListObjectsResponse Obj * Store)
    (fuel : nat) (self : FacultyDatasetsArtifactRepository) (path : option string)
    (w : world Store) :
  list_artifacts faculty_object_to_mlflow_file_info client_list fuel self path false w
  = match list_artifacts faculty_object_to_mlflow_file_info client_list fuel self
            path true w with
    | None => None
    | Some (all, w') =>
        Some (List.filter (parent_listed (effective_path path)) all, w')
    end.
Proof.
  unfold list_artifacts. fold (effective_path path).
  destruct (list_objects client_list fuel self (effective_path path) w)
    as [[objs w']|]; [|reflexivity].
  rewrite filter_filter. do 2 f_equal. apply List.filter_ext. intros i.
  unfold keep, parent_listed. cbn [List.existsb].
  now rewrite !Bool.orb_false_r, Bool.orb_true_r, Bool.andb_true_r.
Qed.

Lemma list_loop_endless (Obj Store : Type)
    (client_list :
       Store -> uuid.t -> string -> option string -> ListObjectsResponse Obj * Store)
    (project_id : uuid.t) (prefix : string) :
  (forall st page_token,
      next_page_token (fst (client_list st project_id prefix page_token)) <> None) ->
  forall fuel r objs w,
    next_page_token r <> None ->
    list_loop client_list fuel project_id prefix r objs w = None.
Proof.
  intros Hend. induction fuel as [|fuel IH]; intros r objs w Hr; cbn [list_loop].
  - destruct (next_page_token r); [reflexivity|contradiction].
  - destruct (next_page_token r) as [token|]; [|contradiction].
    unfold do_list.
    pose proof (Hend (store w) (Some token)) as Hn.
    destruct (client_list (store w) project_id prefix (Some token)) as [r' st'].
    apply IH. exact Hn.
Qed.

(** X12. The loop has no bound of its own: against a store whose
    every response carries a continuation token, [list_artifacts]
    returns with no amount of fuel. *)
Theorem list_artifacts_endless (Obj Store : Type)
    (faculty_object_to_mlflow_file_info : Obj -> string -> mlflow.FileInfo)
    (client_list :
       Store -> uuid.t -> string -> option string -> ListObjectsResponse Obj * Store)
    (self : FacultyDatasetsArtifactRepository) (path : option string) :
  (forall st page_token,
      next_page_token
        (fst (client_list st (project_id self)
                (list_prefix self (effective_path path)) page_token))
      <> None) ->
  forall fuel recursive (w : world Store),
    list_artifacts faculty_object_to_mlflow_file_info client_list fuel self path
      recursive w = None.
Proof.
  intros Hend fuel recursive w. unfold list_artifacts. fold (effective_path path).
  unfold list_objects, do_list.
  pose proof (Hend (store w) None) as Hn.
  destruct (client_list (store w) (project_id self)
              (list_prefix self (effective_path path)) None) as [r st'].
  rewrite (list_loop_endless Obj Store client_list _ _ Hend); [reflexivity|exact Hn].
Qed.

Lemma list_artifacts_endless_witness :
  list_artifacts numbered_info endless 1000 test_repo None false empty_world = None.
Proof.
  exact (list_artifacts_endless nat unit numbered_info endless test_repo None
           (fun _ _ => ltac:(discriminate)) 1000 false empty_world).
Defined.

Lemma rfind_absent (c : ascii) (s : string) :
  str.mem c s = false -> str.rfind c s = (-1)%Z.
Proof.
  induction s as [|x s IH]; [reflexivity|]. cbn [str.mem str.rfind].
  rewrite Bool.orb_false_iff. intros [Hx Hs].
  rewrite (IH Hs), Ascii.eqb_sym, Hx. reflexivity.
Qed.

Lemma rfind_app_sep (c : ascii) (a n : string) :
  str.mem c n = false ->
  str.rfind c (a ++ String c n) = Z.of_nat (String.length a).
Proof.
  intros Hn. induction a as [|x a IH]; cbn [append str.rfind String.length].
  - rewrite (rfind_absent c n Hn), Ascii.eqb_refl. reflexivity.
  - rewrite IH. destruct (Z.of_nat (String.length a)) eqn:E; lia.
Qed.

Lemma dirname_plain (n : string) :
  str.mem "/" n = false -> posixpath.dirname n = "".
Proof.
  intros Hn. unfold posixpath.dirname, posixpath.sep.
  rewrite (rfind_absent "/" n Hn). now destruct n.
Qed.

Lemma rstrip_repeat (n : nat) : str.rstrip "/" (str.repeat "/" n) = "".
Proof. induction n as [|n IH]; [reflexivity|]. cbn. now rewrite IH. Qed.

Lemma rstrip_app_slash (a : string) : str.rstrip "/" (a ++ "/") = str.rstrip "/" a.
Proof.
  induction a as [|x a IH]; [reflexivity|].
  cbn [append str.rstrip]. now rewrite IH.
Qed.

Lemma append_repeat (c : ascii) (a b : string) (n : nat) :
  a ++ b = str.repeat c n -> a = str.repeat c (String.length a).
Proof.
  revert n. induction a as [|x a IH]; intros n H; [reflexivity|].
  destruct n as [|n]; [discriminate|]. cbn in H. injection H as -> H.
  cbn. f_equal. exact (IH n H).
Qed.

(** The parent directory of [d/n]. *)
Lemma dirname_child (d n : string) :
  d <> "" -> str.rstrip "/" d = d -> str.mem "/" n = false ->
  posixpath.dirname (d ++ "/" ++ n) = d.
Proof.
  intros Hd Hr Hn. unfold posixpath.dirname, posixpath.sep.
  cbn [append]. rewrite (rfind_app_sep "/" d n Hn).
  replace (Z.to_nat (Z.of_nat (String.length d) + 1))
    with (String.length (d ++ "/")) by (rewrite append_length; cbn; lia).
  change (d ++ String "/" n) with (d ++ "/" ++ n).
  rewrite <- append_assoc, take_app_length.
  assert ((d ++ "/" =? "") = false) as ->.
  { apply String.eqb_neq. intros E. apply append_eq_empty in E.
    destruct E; discriminate. }
  assert ((d ++ "/" =? str.repeat "/" (String.length (d ++ "/"))) = false) as ->.
  { apply String.eqb_neq. intros E. apply append_repeat in E.
    rewrite E, rstrip_repeat in Hr. congruence. }
  cbn [negb andb]. now rewrite rstrip_app_slash.
Qed.

(** [dirname] returns nothing that ends with a slash, a run of
    slashes apart. *)
Lemma dirname_no_trailing (p q : string) :
  str.rstrip "/" q <> "" -> posixpath.dirname p <> q ++ "/".
Proof.
  intros Hq. unfold posixpath.dirname.
  set (head := str.take _ p).
  destruct (negb (head =? "")
            && negb (head =? str.repeat posixpath.sep (String.length head)))%bool
    eqn:E.
  - apply rstrip_slash_no_trailing.
  - intros H. apply Bool.andb_false_iff in E.
    destruct E as [E|E]; apply Bool.negb_false_iff, String.eqb_eq in E.
    + rewrite E in H. symmetry in H. apply append_eq_empty in H.
      destruct H; discriminate.
    + rewrite H in E. apply append_repeat in E.
      rewrite E, rstrip_repeat in Hq. contradiction.
Qed.

Lemma long_not_root_marker (s : string) :
  2 <= String.length s -> is_root_marker s = false.
Proof.
  destruct s as [|a [|b s]]; cbn [String.length]; try lia. intros _.
  unfold is_root_marker.
  assert (forall x, (String a (String b s) =? String x "") = false) as E.
  { intros x. apply String.eqb_neq. discriminate. }
  now rewrite !E.
Qed.

(** X13. Without [recursive], listing a directory [d] keeps the
    entries directly inside it and the entries without a parent, and
    drops the entries further down: a converted entry with display
    path [d/n] is returned, one with display path [d/n/m] is not. *)
Theorem list_artifacts_direct_children (Obj Store : Type)
    (faculty_object_to_mlflow_file_info : Obj -> string -> mlflow.FileInfo)
    (client_list :
       Store -> uuid.t -> string -> option string -> ListObjectsResponse Obj * Store)
    (fuel : nat) (self : FacultyDatasetsArtifactRepository) (d : string)
    (w : world Store) (result : list mlflow.FileInfo) (w' : world Store) :
  d <> "" ->
  str.rstrip "/" d = d ->
  list_artifacts faculty_object_to_mlflow_file_info client_list fuel self
    (Some d) false w = Some (result, w') ->
  exists objs,
    list_objects client_list fuel self d w = Some (objs, w')
    /\ forall i n,
         List.In i (List.map (fun obj => faculty_object_to_mlflow_file_info obj
                                           (datasets_artifact_root self)) objs) ->
         n <> "" -> str.mem "/" n = false ->
         (mlflow.path i = d ++ "/" ++ n -> List.In i result)
         /\ (mlflow.path i = n -> n <> "." -> List.In i result)
         /\ (forall m, str.mem "/" m = false ->
                       mlflow.path i = d ++ "/" ++ n ++ "/" ++ m ->
                       ~ List.In i result).
Proof.
  intros Hd Hr. unfold list_artifacts.
  destruct (list_objects client_list fuel self d w) as [[objs w1]|];
    [|discriminate].
  intros H. injection H as <- <-. exists objs. split; [reflexivity|].
  intros i n Hi Hn Hs. split; [|split].
  - intros Hp. apply List.filter_In. split; [exact Hi|].
    unfold keep. cbn [List.existsb]. rewrite Hp, (dirname_child d n Hd Hr Hs).
    rewrite String.eqb_refl, !Bool.orb_true_r, Bool.andb_true_r.
    apply Bool.negb_true_iff. rewrite Bool.orb_false_r.
    apply long_not_root_marker. rewrite append_length.
    destruct d; [contradiction|]. cbn. lia.
  - intros Hp Hdot. apply List.filter_In. split; [exact Hi|].
    unfold keep. cbn [List.existsb]. rewrite Hp, (dirname_plain n Hs).
    cbn [String.eqb orb]. rewrite Bool.andb_true_r.
    apply Bool.negb_true_iff. rewrite !Bool.orb_false_r.
    apply Bool.orb_false_iff. split; apply String.eqb_neq; [|exact Hdot].
    intros ->. discriminate.
  - intros m Hm Hp Hin. apply List.filter_In in Hin. destruct Hin as [_ Hk].
    unfold keep in Hk. cbn [List.existsb] in Hk. rewrite Hp in Hk.
    rewrite <- (append_assoc d "/" (n ++ "/" ++ m)) in Hk.
    rewrite <- (append_assoc (d ++ "/") n ("/" ++ m)) in Hk.
    rewrite dirname_child in Hk.
    + rewrite !Bool.orb_false_r in Hk. apply Bool.andb_true_iff in Hk.
      destruct Hk as [_ Hk]. apply Bool.orb_true_iff in Hk.
      destruct Hk as [Hk|Hk]; apply String.eqb_eq in Hk.
      * apply append_eq_empty in Hk. destruct Hk as [Hk _].
        apply append_eq_empty in Hk. destruct Hk; contradiction.
      * apply (f_equal String.length) in Hk.
        rewrite !append_length in Hk. cbn in Hk.
        destruct n; [contradiction|]. cbn in Hk. lia.
    + intros E. apply append_eq_empty in E. destruct E as [E _].
      apply append_eq_empty in E. destruct E; contradiction.
    + apply rstrip_fixed. rewrite endswith_app_nonempty by exact Hn.
      now apply mem_endswith.
    + exact Hm.
Qed.

Lemma list_artifacts_direct_children_witness :
  exists objs,
    list_objects scripted 0 test_repo "dir"
      (scripted_world
         [ {| objects := ["a"; "dir1"; "dir1/b"; "dir2"; "dir2/c"];
              next_page_token := None |} ])
    = Some (objs,
            {| store := [];
               trace := [client_list_call PROJECT_UUID (ARTIFACT_ROOT ++ "dir/") None] |})
    /\ forall i n,
         List.In i (List.map (fun obj => joined_info "dir" obj ARTIFACT_ROOT) objs) ->
         n <> "" -> str.mem "/" n = false ->
         (mlflow.path i = "dir" ++ "/" ++ n ->
          List.In i (List.map (fun obj => joined_info "dir" obj ARTIFACT_ROOT)
                       ["a"; "dir1"; "dir2"]))
         /\ (mlflow.path i = n -> n <> "." ->
             List.In i (List.map (fun obj => joined_info "dir" obj ARTIFACT_ROOT)
                          ["a"; "dir1"; "dir2"]))
         /\ (forall m, str.mem "/" m = false ->
                       mlflow.path i = "dir" ++ "/" ++ n ++ "/" ++ m ->
                       ~ List.In i (List.map (fun obj => joined_info "dir" obj ARTIFACT_ROOT)
                                      ["a"; "dir1"; "dir2"])).
Proof.
  exact (list_artifacts_direct_children string _ (joined_info "dir") scripted 0
           test_repo "dir"
           (scripted_world
              [ {| objects := ["a"; "dir1"; "dir1/b"; "dir2"; "dir2/c"];
                   next_page_token := None |} ])
           (List.map (fun obj => joined_info "dir" obj ARTIFACT_ROOT)
              ["a"; "dir1"; "dir2"])
           {| store := [];
              trace := [client_list_call PROJECT_UUID (ARTIFACT_ROOT ++ "dir/") None] |}
           ltac:(discriminate) eq_refl eq_refl).
Defined.

(** X14. A path that ends with a slash matches no parent directory:
    unless it is a bare run of slashes, a non-recursive listing for
    it returns only the entries without a parent directory (and not
    the root marker ["."]), as the default listing does. *)
Theorem list_artifacts_trailing_slash (Obj Store : Type)
    (faculty_object_to_mlflow_file_info : Obj -> string -> mlflow.FileInfo)
    (client_list :
       Store -> uuid.t -> string -> option string -> ListObjectsResponse Obj * Store)
    (fuel : nat) (self : FacultyDatasetsArtifactRepository) (q : string)
    (w : world Store) :
  str.rstrip "/" q <> "" ->
  list_artifacts faculty_object_to_mlflow_file_info client_list fuel self
    (Some (q ++ "/")) false w
  = match list_objects client_list fuel self (q ++ "/") w with
    | None => None
    | Some (objs, w') =>
        Some (List.filter
                (fun i => (posixpath.dirname (mlflow.path i) =? "")
                          && negb (mlflow.path i =? "."))%bool
                (List.map (fun obj => faculty_object_to_mlflow_file_info obj
                                        (datasets_artifact_root self)) objs),
              w')
    end.
Proof.
  intros Hq. unfold list_artifacts.
  destruct (list_objects client_list fuel self (q ++ "/") w) as [[objs w']|];
    [|reflexivity].
  do 2 f_equal. apply List.filter_ext. intros i.
  unfold keep. cbn [List.existsb].
  assert ((posixpath.dirname (mlflow.path i) =? q ++ "/") = false) as ->.
  { apply String.eqb_neq. now apply dirname_no_trailing. }
  rewrite !Bool.orb_false_r, Bool.andb_comm.
  destruct (posixpath.dirname (mlflow.path i) =? "") eqn:E; [|reflexivity].
  cbn [andb]. assert ((mlflow.path i =? "/") = false) as ->; [|reflexivity].
  apply String.eqb_neq. intros Hp. rewrite Hp in E. discriminate.
Qed.

Lemma list_artifacts_trailing_slash_witness :
  option_map fst
    (list_artifacts (joined_info "dir") scripted 0 test_repo (Some ("dir" ++ "/")) false
       (scripted_world
          [ {| objects := ["a"; "dir1"; "dir1/b"]; next_page_token := None |} ]))
  = Some [].
Proof.
  rewrite (list_artifacts_trailing_slash string _ (joined_info "dir") scripted 0
             test_repo "dir" _ ltac:(discriminate)).
  reflexivity.
Defined.

(** ** The constructor: stored root, rejected inputs, ignored parts *)

Lemma rstrip_cons_slash (t : string) :
  str.rstrip "/" (String "/" t)
  = if str.rstrip "/" t =? "" then "" else String "/" (str.rstrip "/" t).
Proof. cbn [str.rstrip]. now destruct (str.rstrip "/" t). Qed.

(** The first segment and the remainder of [<u>/<t>], whatever [t]. *)
Lemma first_part_remainder_any (u t : string) :
  u <> "" ->
  str.mem "/" u = false ->
  first_part (u ++ String "/" t) = u
  /\ remainder (u ++ String "/" t)
     = if str.rstrip "/" t =? "" then "" else str.rstrip "/" t ++ "/".
Proof.
  intros Hne Hu.
  destruct (str.rstrip "/" t =? "") eqn:E.
  - apply String.eqb_eq in E.
    unfold first_part, remainder, cleaned_path, str.strip.
    rewrite lstrip_fixed.
    2:{ destruct u as [|c u]; [contradiction|]. cbn in Hu |- *.
        apply Bool.orb_false_iff in Hu. destruct Hu as [Hc _].
        rewrite Ascii.eqb_sym, Hc. reflexivity. }
    rewrite rstrip_app_empty by (rewrite rstrip_cons_slash, E; reflexivity).
    rewrite rstrip_fixed by (now apply mem_endswith).
    rewrite split1_app_sep by exact Hu. split; reflexivity.
  - apply (first_part_remainder u t (str.rstrip "/" t) Hne Hu).
    now rewrite rstrip_cons_slash, E.
Qed.

Lemma init_faculty_path (u t : string) (id : uuid.t) (uri : string) :
  uuid.UUID u = Some id ->
  init_parsed uri
    {| urllib_parse.scheme := "faculty-datasets";
       urllib_parse.netloc := "";
       urllib_parse.path := u ++ String "/" t;
       urllib_parse.params := "";
       urllib_parse.query := "";
       urllib_parse.fragment := "" |}
  = ok {| artifact_uri := uri;
          project_id := id;
          datasets_artifact_root :=
            if str.rstrip "/" t =? "" then "/" else "/" ++ str.rstrip "/" t ++ "/" |}.
Proof.
  intros Hid.
  pose proof (UUID_no_delimiter u id Hid) as Hu.
  pose proof (all_not_mem _ u "/" Hu eq_refl) as Hu1.
  assert (u <> "") as Hne by (intros ->; vm_compute in Hid; discriminate).
  unfold init_parsed, ok.
  cbn [urllib_parse.scheme urllib_parse.netloc urllib_parse.path].
  change ("faculty-datasets" =? "faculty-datasets") with true.
  change ("" =? "") with true. cbn [negb].
  destruct (first_part_remainder_any u t Hne Hu1) as [-> ->].
  rewrite Hid. now destruct (str.rstrip "/" t =? "").
Qed.

Lemma init_faculty_uri (u t : string) (id : uuid.t) :
  uuid.UUID (urllib_parse.remove_unsafe u) = Some id ->
  str.mem "#" t = false ->
  str.mem "?" t = false ->
  __init__ ("faculty-datasets:" ++ u ++ "/" ++ t)
  = ok {| artifact_uri := "faculty-datasets:" ++ u ++ "/" ++ t;
          project_id := id;
          datasets_artifact_root :=
            if str.rstrip "/" (urllib_parse.remove_unsafe t) =? "" then "/"
            else "/" ++ str.rstrip "/" (urllib_parse.remove_unsafe t) ++ "/" |}.
Proof.
  intros Hid Hf Hq.
  pose proof (UUID_no_delimiter _ id Hid) as Hu.
  pose proof (all_not_mem _ _ "/" Hu eq_refl) as Hu1.
  pose proof (all_not_mem _ _ "?" Hu eq_refl) as Hu2.
  pose proof (all_not_mem _ _ "#" Hu eq_refl) as Hu3.
  rewrite (remove_unsafe_delimiter "?" u eq_refl) in Hu2.
  rewrite (remove_unsafe_delimiter "#" u eq_refl) in Hu3.
  assert (urllib_parse.remove_unsafe u <> "") as Hne
    by (intros E; rewrite E in Hid; vm_compute in Hid; discriminate).
  unfold __init__.
  rewrite (urlparse_faculty (u ++ "/" ++ t)).
  - rewrite remove_unsafe_seg.
    change ("/" ++ urllib_parse.remove_unsafe t)
      with (String "/" (urllib_parse.remove_unsafe t)).
    now apply init_faculty_path.
  - rewrite remove_unsafe_seg.
    destruct (urllib_parse.remove_unsafe u) as [|c u']; [contradiction|].
    cbn in Hu1 |- *. apply Bool.orb_false_iff in Hu1. destruct Hu1 as [Hc _].
    rewrite Ascii.eqb_sym, Hc. reflexivity.
  - rewrite mem_app, Hu3. exact Hf.
  - rewrite mem_app, Hu2. exact Hq.
Qed.

(** X1. For a first segment that the [UUID] constructor accepts as
    [urlparse] hands it on (tabs and line breaks removed) and any
    root path without query or fragment, construction stores the
    root path, tabs and line breaks removed, between two slashes,
    its trailing slashes dropped and everything else as written;
    with nothing but slashes after the project id the stored root is
    ["/"]. *)
Theorem init_stored_root (u t : string) (id : uuid.t) :
  uuid.UUID (urllib_parse.remove_unsafe u) = Some id ->
  str.mem "#" t = false ->
  str.mem "?" t = false ->
  __init__ ("faculty-datasets:" ++ u ++ "/" ++ t)
  = ok {| artifact_uri := "faculty-datasets:" ++ u ++ "/" ++ t;
          project_id := id;
          datasets_artifact_root :=
            if str.rstrip "/" (urllib_parse.remove_unsafe t) =? "" then "/"
            else "/" ++ str.rstrip "/" (urllib_parse.remove_unsafe t) ++ "/" |}.
Proof. exact (init_faculty_uri u t id). Qed.

Lemma init_stored_root_witness :
  __init__ ("faculty-datasets:" ++ PROJECT_ID ++ "/" ++ "a//b/.//")
  = ok {| artifact_uri := "faculty-datasets:" ++ PROJECT_ID ++ "/" ++ "a//b/.//";
          project_id := PROJECT_UUID;
          datasets_artifact_root := "/a//b/./" |}.
Proof.
  exact (init_stored_root PROJECT_ID "a//b/.//" PROJECT_UUID eq_refl eq_refl eq_refl).
Defined.

(** X2. Every stored root ends with a slash, so joining a relative
    path to it never inserts a separator. *)
Theorem init_root_trailing_slash (uri : string)
    (self : FacultyDatasetsArtifactRepository) :
  __init__ uri = ok self ->
  str.endswith (datasets_artifact_root self) "/" = true
  /\ forall x, str.startswith x "/" = false ->
               posixpath.join (datasets_artifact_root self) x
               = datasets_artifact_root self ++ x.
Proof.
  intros H. apply init_root_shape in H.
  destruct (root_shape_slash _ H) as (_ & R & HR).
  assert (str.endswith (datasets_artifact_root self) "/" = true) as E.
  { rewrite HR. apply endswith_app_slash. }
  split; [exact E|]. intros x Hx. now apply join_root.
Qed.

Lemma init_root_trailing_slash_witness :
  str.endswith (datasets_artifact_root test_repo) "/" = true
  /\ forall x, str.startswith x "/" = false ->
               posixpath.join (datasets_artifact_root test_repo) x
               = datasets_artifact_root test_repo ++ x.
Proof. exact (init_root_trailing_slash ARTIFACT_URI test_repo test_repo_init). Defined.

(** X3. A string without a colon has no scheme: construction never
    accepts it; it raises [InvalidScheme] whenever [urlparse] returns,
    and the error of [urlparse] otherwise. *)
Theorem init_without_colon (uri : string) :
  str.mem ":" uri = false ->
  (forall parsed,
      urllib_parse.urlparse uri = ok parsed ->
      urllib_parse.scheme parsed = ""
      /\ __init__ uri = raise (InvalidScheme uri))
  /\ (forall e, urllib_parse.urlparse uri = raise e -> __init__ uri = raise e)
  /\ (forall self, __init__ uri <> ok self).
Proof.
  intros H.
  assert (forall parsed,
             urllib_parse.urlparse uri = ok parsed ->
             urllib_parse.scheme parsed = ""
             /\ __init__ uri = raise (InvalidScheme uri)) as G.
  { intros parsed Hp.
    assert (urllib_parse.scheme parsed = "") as Hs.
    { destruct (urlsplit_without_colon uri H) as (url & E).
      unfold urllib_parse.urlparse in Hp. rewrite E in Hp.
      destruct (urllib_parse.urlsplit_rest "" url) as [e|r] eqn:Er; [discriminate|].
      pose proof (urlsplit_rest_scheme "" url r Er) as Hr.
      destruct r as [[[[sch net] pth] qry] frg]. cbn [fst] in Hr. subst sch.
      destruct (_ && _)%bool; [destruct (urllib_parse._splitparams pth)|];
        injection Hp as <-; reflexivity. }
    split; [exact Hs|].
    apply (init_raises uri parsed Hp). rewrite Hs. discriminate. }
  split; [exact G|]. split.
  - intros e He. unfold __init__. now rewrite He.
  - intros self Hself.
    destruct (urllib_parse.urlparse uri) as [e|parsed] eqn:Hp.
    + unfold __init__ in Hself. rewrite Hp in Hself. discriminate Hself.
    + destruct (G parsed eq_refl) as [_ E]. rewrite E in Hself.
      discriminate Hself.
Qed.

Lemma init_without_colon_witness :
  __init__ "no/schema" = raise (InvalidScheme "no/schema")
  /\ __init__ "//[abc/x" = raise (ValueError "Invalid IPv6 URL").
Proof.
  split.
  - exact (proj2 (proj1 (init_without_colon "no/schema" eq_refl)
                    (urllib_parse.Build_ParseResult "" "" "no/schema" "" "" "")
                    eq_refl)).
  - exact (proj1 (proj2 (init_without_colon "//[abc/x" eq_refl))
             (ValueError "Invalid IPv6 URL") eq_refl).
Defined.

(** X4. With the right scheme and no netloc, a path that is empty or
    holds only slashes has an empty first segment, and construction
    raises [InvalidProjectId] for it. *)
Theorem init_without_project_id (uri : string) (parsed : urllib_parse.ParseResult)
    (n : nat) :
  urllib_parse.urlparse uri = ok parsed ->
  urllib_parse.scheme parsed = "faculty-datasets" ->
  urllib_parse.netloc parsed = "" ->
  urllib_parse.path parsed = str.repeat "/" n ->
  __init__ uri = raise (InvalidProjectId "" uri).
Proof.
  intros Hp Hs Hn Hpath.
  destruct (init_raises uri parsed Hp) as (_ & _ & H).
  assert (first_part (urllib_parse.path parsed) = "") as E.
  { rewrite Hpath. unfold first_part, cleaned_path, str.strip.
    rewrite <- (append_empty_r (str.repeat "/" n)), lstrip_slashes. reflexivity. }
  rewrite E in H. apply H; [exact Hs|exact Hn|reflexivity].
Qed.

Lemma init_without_project_id_witness :
  __init__ "faculty-datasets:///" = raise (InvalidProjectId "" "faculty-datasets:///").
Proof.
  exact (init_without_project_id "faculty-datasets:///"
           (urllib_parse.Build_ParseResult "faculty-datasets" "" "/" "" "" "") 1
           eq_refl eq_refl eq_refl eq_refl).
Defined.

Lemma split1_app_prefix (c : ascii) (x y : string) :
  str.mem c x = false ->
  str.split1 c (x ++ y)
  = (x ++ fst (str.split1 c y), snd (str.split1 c y)).
Proof.
  induction x as [|a x IH]; cbn [append str.mem str.split1].
  - intros _. now destruct (str.split1 c y).
  - rewrite Bool.orb_false_iff. intros [Ha Hx].
    rewrite Ascii.eqb_sym, Ha, (IH Hx). reflexivity.
Qed.

Lemma split1_cons_ne (c d : ascii) (s : string) :
  Ascii.eqb d c = false ->
  str.split1 c (String d s)
  = (String d (fst (str.split1 c s)), snd (str.split1 c s)).
Proof. intros H. cbn [str.split1]. rewrite H. now destruct (str.split1 c s). Qed.

Lemma fst_split1_absent (c : ascii) (s : string) :
  str.mem c (fst (str.split1 c s)) = false.
Proof.
  induction s as [|a s IH]; [reflexivity|]. cbn [str.split1].
  destruct (Ascii.eqb_spec a c) as [->|Ha]; [reflexivity|].
  destruct (str.split1 c s) as [h t]. cbn [fst str.mem] in *.
  rewrite IH, Bool.orb_false_r. apply Ascii.eqb_neq. congruence.
Qed.

(** [urlsplit_rest] on a path followed by a query or a fragment. *)
Lemma urlsplit_rest_tail (scheme base tail : string) (c : ascii) :
  str.startswith base "//" = false ->
  str.mem "#" base = false ->
  str.mem "?" base = false ->
  c = "?"%char \/ c = "#"%char ->
  exists query fragment,
    urllib_parse.urlsplit_rest scheme (base ++ String c tail)
    = ok (scheme, "", base, query, fragment).
Proof.
  intros Hs Hbf Hbq Hc. unfold urllib_parse.urlsplit_rest.
  assert ((str.take 2 (base ++ String c tail) =? "//") = false) as ->.
  { apply String.eqb_neq.
    destruct base as [|a [|b base]]; cbn [append str.take].
    - destruct tail; intros E; injection E as -> _;
        destruct Hc; discriminate.
    - intros E. injection E as -> ->. destruct Hc; discriminate.
    - intros E. injection E as -> ->. cbn in Hs. discriminate. }
  cbn [str.contains str.mem andb orb negb].
  destruct Hc as [-> | ->].
  - rewrite (split1_app_prefix "#" base (String "?" tail) Hbf).
    rewrite (split1_cons_ne "#" "?" tail eq_refl). cbn [fst snd].
    destruct (snd (str.split1 "#" tail)) as [f|];
      rewrite (split1_app_sep "?" base _ Hbq); do 2 eexists; reflexivity.
  - rewrite (split1_app_sep "#" base tail Hbf).
    rewrite (split1_absent "?" base Hbq). do 2 eexists; reflexivity.
Qed.

(** X15. A query or a fragment in the URI is ignored: whatever
    follows the first ['?'] or ['#'] after the root path, the
    project id and the stored root are those of the URI without
    it. *)
Theorem init_ignores_query_and_fragment (u t tail : string) (id : uuid.t)
    (c : ascii) :
  uuid.UUID (urllib_parse.remove_unsafe u) = Some id ->
  str.mem "#" t = false ->
  str.mem "?" t = false ->
  c = "?"%char \/ c = "#"%char ->
  exists self self',
    __init__ ("faculty-datasets:" ++ u ++ "/" ++ t ++ String c tail) = ok self
    /\ __init__ ("faculty-datasets:" ++ u ++ "/" ++ t) = ok self'
    /\ project_id self = project_id self'
    /\ datasets_artifact_root self = datasets_artifact_root self'.
Proof.
  intros Hid Hf Hq Hc.
  pose proof (UUID_no_delimiter _ id Hid) as Hu.
  pose proof (all_not_mem _ _ "/" Hu eq_refl) as Hu1.
  pose proof (all_not_mem _ _ "?" Hu eq_refl) as Hu2.
  pose proof (all_not_mem _ _ "#" Hu eq_refl) as Hu3.
  assert (urllib_parse.remove_unsafe u <> "") as Hne
    by (intros E; rewrite E in Hid; vm_compute in Hid; discriminate).
  set (u' := urllib_parse.remove_unsafe u) in *.
  set (t' := urllib_parse.remove_unsafe t).
  set (base := u' ++ String "/" t').
  assert (str.mem "#" base = false) as Hbf.
  { unfold base. rewrite mem_app, Hu3. cbn [str.mem orb].
    change (Ascii.eqb "#" "/") with false. now apply remove_unsafe_absent. }
  assert (str.mem "?" base = false) as Hbq.
  { unfold base. rewrite mem_app, Hu2. cbn [str.mem orb].
    change (Ascii.eqb "?" "/") with false. now apply remove_unsafe_absent. }
  assert (str.startswith base "//" = false) as Hbs.
  { unfold base. destruct u' as [|a u'']; [contradiction|].
    cbn in Hu1 |- *. apply Bool.orb_false_iff in Hu1. destruct Hu1 as [Ha _].
    rewrite Ascii.eqb_sym, Ha. reflexivity. }
  exists {| artifact_uri := "faculty-datasets:" ++ u ++ "/" ++ t ++ String c tail;
            project_id := id;
            datasets_artifact_root :=
              if str.rstrip "/" t' =? "" then "/" else "/" ++ str.rstrip "/" t' ++ "/" |}.
  eexists. split; [|split; [apply (init_faculty_uri u t id Hid Hf Hq)|]].
  2:{ split; reflexivity. }
  assert (urllib_parse.remove_unsafe (u ++ "/" ++ t ++ String c tail)
          = base ++ String c (urllib_parse.remove_unsafe tail)) as Hclean.
  { rewrite remove_unsafe_seg. change (String c tail) with (String c "" ++ tail).
    rewrite !remove_unsafe_app. unfold base. fold u' t'.
    rewrite append_assoc. cbn [append]. do 2 f_equal.
    destruct Hc as [-> | ->]; reflexivity. }
  unfold __init__, urllib_parse.urlparse.
  rewrite urlsplit_faculty, Hclean.
  destruct (urlsplit_rest_tail "faculty-datasets" base
              (urllib_parse.remove_unsafe tail) c Hbs Hbf Hbq Hc)
    as (query & fragment & ->).
  change (List.existsb (String.eqb "faculty-datasets") urllib_parse.uses_params)
    with false.
  cbn [andb]. unfold base. now apply init_faculty_path.
Qed.

Lemma init_ignores_query_and_fragment_witness :
  exists self self',
    __init__ ("faculty-datasets:" ++ PROJECT_ID ++ "/" ++ "path/in/datasets"
              ++ String "?" "a=b#c")
    = ok self
    /\ __init__ ("faculty-datasets:" ++ PROJECT_ID ++ "/" ++ "path/in/datasets") = ok self'
    /\ project_id self = project_id self'
    /\ datasets_artifact_root self = datasets_artifact_root self'.
Proof.
  exact (init_ignores_query_and_fragment PROJECT_ID "path/in/datasets" "a=b#c"
           PROJECT_UUID "?" eq_refl eq_refl eq_refl (or_introl eq_refl)).
Defined.
